(** * FlowState time tracker: timer engine, session assembler, midnight splitter

    A shallow embedding of the timer/session state machine of the
    FlowState application (types.ts, constants.ts, App.tsx, utils.ts) and
    the properties of it that the specification states. *)

From Stdlib Require Import ZArith QArith Qcanon Qround List String Bool Lia.
From Stdlib Require Import Permutation Sorted Lqa.
Import ListNotations.

Local Open Scope Z_scope.

(** ** JavaScript numbers

    A TypeScript [number] is modelled as an exact rational in canonical
    form ([Qc]), so that two numbers are equal exactly when they are the
    same value.  Timestamps from [Date.now()] are whole numbers; the only
    operation of the timer engine that leaves the integers is the division
    [interval / flowDivisor].  NaN and the infinities are not represented:
    the settings form stores [parseInt(v) || 5], so the divisor is never 0.
    On whole numbers of magnitude below 2^53 the sums, differences and
    products of doubles are the exact ones, as long as the result is in
    that range too; a quotient that is not whole is rounded by a double and
    is exact here. *)
Module JsNumber.

Definition number : Set := Qc.

Definition ofZ (z : Z) : number := Q2Qc (inject_Z z).

Definition add (a b : number) : number := Qcplus a b.
Definition sub (a b : number) : number := Qcminus a b.
Definition mul (a b : number) : number := Qcmult a b.
Definition div (a b : number) : number := Qcdiv a b.

Definition eqb (a b : number) : bool := Qeq_bool a b.
Definition leb (a b : number) : bool := Qle_bool a b.
Definition ltb (a b : number) : bool := negb (Qle_bool b a).
Definition geb (a b : number) : bool := leb b a.
Definition gtb (a b : number) : bool := ltb b a.

(** [Number.isInteger]: a canonical rational is whole when its
    denominator is 1. *)
Definition isInteger (a : number) : bool := Pos.eqb (Qden a) 1.

(** Truthiness of a [number | null]: [null] and [0] are falsy. *)
Definition truthy (x : option number) : bool :=
  match x with
  | Some v => negb (eqb v (ofZ 0))
  | None => false
  end.

(** [x || d] for [x : number | null] and a number [d]. *)
Definition orElse (x : option number) (d : number) : number :=
  match x with
  | Some v => if eqb v (ofZ 0) then d else v
  | None => d
  end.

(** [xs.reduce((a, b) => a + b, 0)]. *)
Definition sum (xs : list number) : number :=
  fold_left add xs (ofZ 0).

(** [Math.max(a, b)]. *)
Definition max (a b : number) : number := if leb a b then b else a.

(** [Math.ceil(a)]. *)
Definition ceil (a : number) : number := ofZ (Qceiling a).

(** The whole number a [number] holds, for the values that are whole
    (timestamps, durations in ms, ratings); its floor otherwise. *)
Definition toWhole (a : number) : Z := Qfloor a.

End JsNumber.

(** ** types.ts *)
Module Types.
Import JsNumber.

Inductive TimerMode : Set := FLOW | COUNTDOWN.

Inductive TimerStatus : Set := IDLE | RUNNING | PAUSED | BREAK.

Record CompletedTaskRecord : Set := mkCompletedTaskRecord {
  title : string;
  note : option string;
  completedAt : number
}.

(** A stored session.  Its time fields are whole milliseconds: they are
    built from [Date.now()] readings and sums of their differences. *)
Module Session.
Record Session : Set := mkSession {
  id : string;
  categoryId : string;
  startTime : Z;
  endTime : Z;
  duration : Z;
  totalElapsed : Z;
  sessionStartTime : Z;
  notes : string;
  mode : TimerMode;
  isFlagged : option bool;
  rating : option Z;
  tags : list string;
  distractions : list string;
  distractionNote : option string;
  completedTasks : list CompletedTaskRecord
}.
End Session.

Inductive Theme : Set := light | dark.

Record Settings : Set := mkSettings {
  flowDivisor : number;
  showStreaks : bool;
  dailyMinWorkMinutes : number;
  dailyMaxWorkMinutes : number;
  idleThresholdMinutes : number;
  theme : Theme
}.

Record TimerState : Set := mkTimerState {
  mode : TimerMode;
  status : TimerStatus;
  startTime : option number;
  sessionStartTime : option number;
  accumulatedTime : number;
  targetTime : option number;
  breakRemaining : option number;
  intervals : list number;
  completedTasks : list CompletedTaskRecord
}.

Module Task.
Record Task : Set := mkTask {
  id : string;
  text : string;
  isCompleted : bool;
  notes : option string
}.
End Task.

Module SessionLogEntry.
Record SessionLogEntry : Set := mkSessionLogEntry {
  id : string;
  timestamp : number;
  duration : number;
  sessionNumber : number
}.
End SessionLogEntry.

Record CategoryData : Set := mkCategoryData {
  timerState : TimerState;
  sessions : list Session.Session;
  dailyLogs : list SessionLogEntry.SessionLogEntry;
  currentNotes : string;
  tasks : list Task.Task
}.

End Types.

(** ** utils.ts *)
Module Utils.
Import Types.
Import Types.Session.

Definition MS_PER_DAY : Z := 86400000.

(** The local time zone of the browser, as ECMAScript's [LocalTZA]: the
    offset (in ms) of local time from UTC that is in effect at the instant
    [t] ([utcOffset]), and the one in effect at the local time value [l]
    ([localOffset]).  A [Date] is its time value, a whole number of
    milliseconds. *)
Record Zone : Set := mkZone {
  utcOffset : Z -> Z;
  localOffset : Z -> Z
}.

(** A zone that keeps the offset [tz] throughout: no daylight-saving
    change, every local day lasts 24 hours. *)
Definition fixedZone (tz : Z) : Zone :=
  {| utcOffset := fun _ => tz; localOffset := fun _ => tz |}.

(** The functions the application imports from the date-fns library, after
    their documentation, on top of [Date.prototype.setHours] and
    [Date.prototype.setDate]. *)
Section LocalDays.
Variable zone : Zone.

(** ECMAScript's [LocalTime(t)] and [UTC(l)]. *)
Definition localTime (t : Z) : Z := t + utcOffset zone t.
Definition utc (l : Z) : Z := l - localOffset zone l.

(** [date.setHours(h, m, s, ms)], the four arguments making [timeOfDay]
    ms: the local day of [t] at that time of day. *)
Definition setHours (t timeOfDay : Z) : Z :=
  let l := localTime t in
  utc (l - l mod MS_PER_DAY + timeOfDay).

(** date-fns [startOfDay] is [setHours(0, 0, 0, 0)]. *)
Definition startOfDay (t : Z) : Z := setHours t 0.

(** date-fns [endOfDay] is [setHours(23, 59, 59, 999)]. *)
Definition endOfDay (t : Z) : Z := setHours t (MS_PER_DAY - 1).

(** date-fns [isSameDay]: both dates have the same start of day. *)
Definition isSameDay (a b : Z) : bool := startOfDay a =? startOfDay b.

(** date-fns [subDays] is [setDate(getDate() - amount)]: the same local
    time of day, [amount] calendar days earlier. *)
Definition subDays (t amount : Z) : Z :=
  utc (localTime t - amount * MS_PER_DAY).

(** date-fns [differenceInCalendarDays]: both dates at the start of their
    day, the difference of the local time values in days, rounded with
    [Math.round] (the floor of the quotient plus one half). *)
Definition differenceInCalendarDays (a b : Z) : Z :=
  let timestampLeft := localTime (startOfDay a) in
  let timestampRight := localTime (startOfDay b) in
  (2 * (timestampLeft - timestampRight) + MS_PER_DAY) / (2 * MS_PER_DAY).

(** [generateId()] draws a random string; [genId k] is the string the
    k-th push of one call receives. *)
Variable genId : nat -> string.

(** [{ ...session, id, startTime, endTime, duration }] *)
Definition withSpan (session : Session) (newId : string) (s e : Z) : Session :=
  {| id := newId;
     categoryId := categoryId session;
     startTime := s;
     endTime := e;
     duration := e - s;
     totalElapsed := totalElapsed session;
     sessionStartTime := sessionStartTime session;
     notes := notes session;
     mode := mode session;
     isFlagged := isFlagged session;
     rating := rating session;
     tags := tags session;
     distractions := distractions session;
     distractionNote := distractionNote session;
     completedTasks := completedTasks session |}.

(** The [while (!isSameDay(currentStart, end))] loop; [fuel] bounds the
    number of iterations and [None] is a loop that has not ended within
    it.  Returns the array and the final [currentStart]. *)
Fixpoint splitLoop (fuel : nat) (session : Session) (end_ : Z)
    (currentStart : Z) (sessions : list Session)
    : option (list Session * Z) :=
  if isSameDay currentStart end_ then Some (sessions, currentStart)
  else
    match fuel with
    | O => None
    | S fuel' =>
        let currentEnd := endOfDay currentStart in
        let sessions' :=
          sessions ++
          [withSpan session (genId (List.length sessions)) currentStart currentEnd] in
        splitLoop fuel' session end_
          (startOfDay (currentStart + 86400000)) sessions'
    end.

Definition splitSessionByMidnight (fuel : nat) (session : Session)
    : option (list Session) :=
  let start := startTime session in
  let end_ := endTime session in
  if isSameDay start end_ then Some [session]
  else
    match splitLoop fuel session end_ start [] with
    | None => None
    | Some (sessions, currentStart) =>
        Some (sessions ++
              [withSpan session (genId (List.length sessions)) currentStart end_])
    end.

End LocalDays.

(** [getDailyStats(sessions, day)]: the durations of the sessions that
    start on the local day of [day], added up. *)
Definition getDailyStats (zone : Zone) (sessions : list Session) (day : Z) : Z :=
  fold_left (fun acc s => acc + duration s)
    (filter (fun s => isSameDay zone (startTime s) day) sessions) 0.

(** [[...values].sort((a, b) => a - b)]: the values in ascending order, by
    insertion.  The comparator orders numbers totally, so that every sort
    returns this very list. *)
Fixpoint insertAscending (x : JsNumber.number) (sorted : list JsNumber.number)
    : list JsNumber.number :=
  match sorted with
  | [] => [x]
  | y :: rest =>
      if JsNumber.leb x y then x :: y :: rest
      else y :: insertAscending x rest
  end.

Definition sortAscending (values : list JsNumber.number) : list JsNumber.number :=
  fold_right insertAscending [] values.

Definition calculateMedian (values : list JsNumber.number) : JsNumber.number :=
  match values with
  | [] => JsNumber.ofZ 0
  | _ =>
      let sorted := sortAscending values in
      let half := Nat.div (List.length sorted) 2 in
      if negb (Nat.eqb (Nat.modulo (List.length sorted) 2) 0)
      then nth half sorted (JsNumber.ofZ 0)
      else JsNumber.div
             (JsNumber.add (nth (half - 1) sorted (JsNumber.ofZ 0))
                           (nth half sorted (JsNumber.ofZ 0)))
             (JsNumber.ofZ 2)
  end.

End Utils.

(** ** constants.ts *)
Module Constants.
Import JsNumber Types.

(** The [timerState] of [createDefaultCategoryData()]. *)
Definition defaultTimerState : TimerState :=
  {| mode := FLOW;
     status := IDLE;
     startTime := None;
     sessionStartTime := None;
     accumulatedTime := ofZ 0;
     targetTime := None;
     breakRemaining := None;
     intervals := [];
     completedTasks := [] |}.

Definition defaultSettings : Settings :=
  {| flowDivisor := ofZ 5;
     showStreaks := true;
     dailyMinWorkMinutes := ofZ 120;
     dailyMaxWorkMinutes := ofZ 480;
     idleThresholdMinutes := ofZ 180;
     theme := dark |}.

End Constants.

(** ** App.tsx: the timer engine and the session assembler

    Each handler is the function the source passes to [setAppState],
    restricted to the [timerState] of the category it updates; what it
    does besides (the notification sound, [setPendingSession]) is returned
    as a list of effects, in the order the source performs them. *)
Module App.
Import JsNumber Types Constants.

(** The value of [pendingSession]; its fields [sessionStartTime] and
    [mode] carry a prefix here, the names being those of [TimerState]. *)
Record PendingSession : Set := mkPendingSession {
  catId : string;
  start : number;
  end_ : number;
  duration : number;
  totalElapsed : number;
  pendingSessionStartTime : number;
  pendingMode : TimerMode;
  segmentCount : nat
}.

Inductive Effect : Set :=
| PlayNotification
| SetPendingSession (p : PendingSession).

(** [toggleTimer], with [Date.now()] read as [now] and the component's
    [countdownMinutes] as a parameter. *)
Definition toggleTimer (settings : Settings) (countdownMinutes now : number)
    (timerState : TimerState) : TimerState :=
  match status timerState with
  | RUNNING =>
      let interval := sub now (orElse (startTime timerState) now) in
      match mode timerState with
      | FLOW =>
          {| mode := mode timerState;
             status := BREAK;
             startTime := Some now;
             sessionStartTime := sessionStartTime timerState;
             accumulatedTime := ofZ 0;
             targetTime := targetTime timerState;
             breakRemaining := Some (div interval (flowDivisor settings));
             intervals := intervals timerState ++ [interval];
             completedTasks := completedTasks timerState |}
      | COUNTDOWN =>
          {| mode := mode timerState;
             status := PAUSED;
             startTime := None;
             sessionStartTime := sessionStartTime timerState;
             accumulatedTime := add (accumulatedTime timerState) interval;
             targetTime := targetTime timerState;
             breakRemaining := breakRemaining timerState;
             intervals := intervals timerState;
             completedTasks := completedTasks timerState |}
      end
  | BREAK =>
      {| mode := mode timerState;
         status := RUNNING;
         startTime := Some now;
         sessionStartTime := sessionStartTime timerState;
         accumulatedTime := ofZ 0;
         targetTime := targetTime timerState;
         breakRemaining := None;
         intervals := intervals timerState;
         completedTasks := completedTasks timerState |}
  | _ =>
      {| mode := mode timerState;
         status := RUNNING;
         startTime := Some now;
         sessionStartTime := Some (orElse (sessionStartTime timerState) now);
         accumulatedTime :=
           match mode timerState with
           | FLOW => ofZ 0
           | COUNTDOWN => accumulatedTime timerState
           end;
         targetTime :=
           match mode timerState with
           | COUNTDOWN =>
               Some (orElse (targetTime timerState)
                       (mul (mul countdownMinutes (ofZ 60)) (ofZ 1000)))
           | FLOW => None
           end;
         breakRemaining := breakRemaining timerState;
         intervals := intervals timerState;
         completedTasks := completedTasks timerState |}
  end.

(** The quantities both end-session handlers compute from the snapshot. *)
Definition workInCurrentInterval (now : number) (timerState : TimerState) : number :=
  match status timerState with
  | RUNNING => sub now (orElse (startTime timerState) now)
  | _ => ofZ 0
  end.

Definition totalFocused (now : number) (timerState : TimerState) : number :=
  add (add (sum (intervals timerState)) (workInCurrentInterval now timerState))
      (accumulatedTime timerState).

Definition segmentCountOf (now : number) (timerState : TimerState) : nat :=
  (List.length (intervals timerState) +
   (if gtb (add (workInCurrentInterval now timerState) (accumulatedTime timerState))
           (ofZ 0)
    then 1 else 0))%nat.

Definition finalSessionStartTime (now : number) (timerState : TimerState) : number :=
  orElse (sessionStartTime timerState) (orElse (startTime timerState) now).

(** [handleEndSession] for the selected category [selectedId]. *)
Definition handleEndSession (selectedId : string) (now : number)
    (timerState : TimerState) : list Effect * TimerState :=
  let workInCurrentInterval :=
    match status timerState with
    | RUNNING => sub now (orElse (startTime timerState) now)
    | _ => ofZ 0
    end in
  let intervals_ := intervals timerState in
  let totalFocused :=
    add (add (sum intervals_) workInCurrentInterval) (accumulatedTime timerState) in
  let segmentCount :=
    (List.length intervals_ +
     (if gtb (add workInCurrentInterval (accumulatedTime timerState)) (ofZ 0)
      then 1 else 0))%nat in
  let finalSessionStartTime :=
    orElse (sessionStartTime timerState) (orElse (startTime timerState) now) in
  let totalElapsed := sub now finalSessionStartTime in
  ((if gtb totalFocused (ofZ 1000)
    then [SetPendingSession
            {| catId := selectedId;
               start := finalSessionStartTime;
               end_ := now;
               duration := totalFocused;
               totalElapsed := totalElapsed;
               pendingSessionStartTime := finalSessionStartTime;
               pendingMode := mode timerState;
               segmentCount := Nat.max 1 segmentCount |}]
    else []),
   {| mode := mode timerState;
      status := IDLE;
      startTime := None;
      sessionStartTime := None;
      accumulatedTime := ofZ 0;
      targetTime := None;
      breakRemaining := None;
      intervals := [];
      completedTasks := [] |}).

(** [handleEndSessionForCategory], the copy the tick uses. *)
Definition handleEndSessionForCategory (catId_ : string) (now : number)
    (timerState : TimerState) : list Effect * TimerState :=
  let workInCurrentInterval :=
    match status timerState with
    | RUNNING => sub now (orElse (startTime timerState) now)
    | _ => ofZ 0
    end in
  let intervals_ := intervals timerState in
  let totalFocused :=
    add (add (sum intervals_) workInCurrentInterval) (accumulatedTime timerState) in
  let segmentCount :=
    (List.length intervals_ +
     (if gtb (add workInCurrentInterval (accumulatedTime timerState)) (ofZ 0)
      then 1 else 0))%nat in
  let finalSessionStartTime :=
    orElse (sessionStartTime timerState) (orElse (startTime timerState) now) in
  let totalElapsed := sub now finalSessionStartTime in
  ((if gtb totalFocused (ofZ 1000)
    then [SetPendingSession
            {| catId := catId_;
               start := finalSessionStartTime;
               end_ := now;
               duration := totalFocused;
               totalElapsed := totalElapsed;
               pendingSessionStartTime := finalSessionStartTime;
               pendingMode := mode timerState;
               segmentCount := Nat.max 1 segmentCount |}]
    else []),
   {| mode := mode timerState;
      status := IDLE;
      startTime := None;
      sessionStartTime := None;
      accumulatedTime := ofZ 0;
      targetTime := None;
      breakRemaining := None;
      intervals := [];
      completedTasks := [] |}).

Definition handleCompleteForCategory (catId_ : string) (now : number)
    (timerState : TimerState) : list Effect * TimerState :=
  let '(effects, next) := handleEndSessionForCategory catId_ now timerState in
  (PlayNotification :: effects, next).

Definition handleBreakEndForCategory (timerState : TimerState)
    : list Effect * TimerState :=
  ([PlayNotification],
   {| mode := mode timerState;
      status := IDLE;
      startTime := None;
      sessionStartTime := sessionStartTime timerState;
      accumulatedTime := accumulatedTime timerState;
      targetTime := targetTime timerState;
      breakRemaining := None;
      intervals := intervals timerState;
      completedTasks := completedTasks timerState |}).

(** The body of the [forEach] of [tick], for the category [catId_]. *)
Definition tick (catId_ : string) (now : number) (timerState : TimerState)
    : list Effect * TimerState :=
  match status timerState with
  | RUNNING =>
      match mode timerState, targetTime timerState with
      | COUNTDOWN, Some target =>
          if truthy (Some target) then
            let elapsed :=
              add (accumulatedTime timerState)
                  (sub now (orElse (startTime timerState) now)) in
            if geb elapsed target
            then handleCompleteForCategory catId_ now timerState
            else ([], timerState)
          else ([], timerState)
      | _, _ => ([], timerState)
      end
  | BREAK =>
      match breakRemaining timerState with
      | Some breakRemaining_ =>
          let elapsedSinceStart := sub now (orElse (startTime timerState) now) in
          let remaining := sub breakRemaining_ elapsedSinceStart in
          if leb remaining (ofZ 0)
          then handleBreakEndForCategory timerState
          else ([], timerState)
      | None => ([], timerState)
      end
  | _ => ([], timerState)
  end.

(** An effect that takes place at once, inside the handler:
    [playNotification()].  [setPendingSession] is called inside the state
    updater a handler passes to [setAppState], which runs later. *)
Definition isImmediate (e : Effect) : bool :=
  match e with
  | PlayNotification => true
  | SetPendingSession _ => false
  end.

(** The [forEach] of the tick over [categoryData], its entries in the
    order of [Object.keys]: every category is examined against the same
    [now].  The result holds the effects that took place inside the loop,
    those of the updaters queued by it, and the state once these have
    run. *)
Fixpoint tickLoop (now : number) (categoryData : list (string * TimerState))
    : list Effect * list Effect * list (string * TimerState) :=
  match categoryData with
  | [] => ([], [], [])
  | (catId_, timerState) :: rest =>
      let '(effects, next) := tick catId_ now timerState in
      let '(immediate, queued, rest') := tickLoop now rest in
      (filter isImmediate effects ++ immediate,
       filter (fun e => negb (isImmediate e)) effects ++ queued,
       (catId_, next) :: rest')
  end.

(** The whole tick: the sounds of the loop first, then the effects of the
    queued updaters. *)
Definition tickAll (now : number) (categoryData : list (string * TimerState))
    : list Effect * list (string * TimerState) :=
  let '(immediate, queued, next) := tickLoop now categoryData in
  (immediate ++ queued, next).

Definition resetTimer (timerState : TimerState) : TimerState :=
  {| mode := mode timerState;
     status := IDLE;
     startTime := None;
     sessionStartTime := None;
     accumulatedTime := ofZ 0;
     targetTime := None;
     breakRemaining := None;
     intervals := [];
     completedTasks := [] |}.

Definition skipBreak (timerState : TimerState) : TimerState :=
  {| mode := mode timerState;
     status := IDLE;
     startTime := None;
     sessionStartTime := sessionStartTime timerState;
     accumulatedTime := accumulatedTime timerState;
     targetTime := targetTime timerState;
     breakRemaining := None;
     intervals := intervals timerState;
     completedTasks := completedTasks timerState |}.

Definition extendBreak (ms : number) (timerState : TimerState) : TimerState :=
  {| mode := mode timerState;
     status := status timerState;
     startTime := startTime timerState;
     sessionStartTime := sessionStartTime timerState;
     accumulatedTime := accumulatedTime timerState;
     targetTime := targetTime timerState;
     breakRemaining :=
       Some (add (orElse (breakRemaining timerState) (ofZ 0)) ms);
     intervals := intervals timerState;
     completedTasks := completedTasks timerState |}.

(** The [onClick] of the two mode buttons. *)
Definition setMode (m : TimerMode) (timerState : TimerState) : TimerState :=
  {| mode := m;
     status := status timerState;
     startTime := startTime timerState;
     sessionStartTime := sessionStartTime timerState;
     accumulatedTime := accumulatedTime timerState;
     targetTime := targetTime timerState;
     breakRemaining := breakRemaining timerState;
     intervals := intervals timerState;
     completedTasks := completedTasks timerState |}.

(** [hasAnyActive] of the effect that owns the tick: some category is
    RUNNING or on BREAK. *)
Definition hasAnyActive (categoryData : list (string * TimerState)) : bool :=
  existsb (fun d =>
             match status (snd d) with
             | RUNNING | BREAK => true
             | _ => false
             end)
          categoryData.

(** [getElapsed], for the active timer and the [currentTime] last
    sampled. *)
Definition getElapsed (currentTime : number) (activeTimer : TimerState) : number :=
  match status activeTimer, startTime activeTimer with
  | RUNNING, Some startTime_ =>
      if truthy (Some startTime_) then
        let delta := max (ofZ 0) (sub currentTime startTime_) in
        add (accumulatedTime activeTimer) delta
      else accumulatedTime activeTimer
  | BREAK, Some startTime_ =>
      if truthy (Some startTime_) then
        let elapsedSinceBreakStart := max (ofZ 0) (sub currentTime startTime_) in
        max (ofZ 0)
            (sub (orElse (breakRemaining activeTimer) (ofZ 0)) elapsedSinceBreakStart)
      else accumulatedTime activeTimer
  | _, _ => accumulatedTime activeTimer
  end.

Definition displayMs (countdownMinutes currentTime : number)
    (activeTimer : TimerState) : number :=
  let elapsed := getElapsed currentTime activeTimer in
  match mode activeTimer with
  | COUNTDOWN =>
      match status activeTimer with
      | BREAK => elapsed
      | IDLE => mul (mul countdownMinutes (ofZ 60)) (ofZ 1000)
      | _ =>
          let target :=
            orElse (targetTime activeTimer)
                   (mul (mul countdownMinutes (ofZ 60)) (ofZ 1000)) in
          max (ofZ 0) (sub target elapsed)
      end
  | FLOW => elapsed
  end.

Definition isCountingDown (activeTimer : TimerState) : bool :=
  match mode activeTimer, status activeTimer with
  | COUNTDOWN, _ => true
  | _, BREAK => true
  | _, _ => false
  end.

Definition roundedDisplayMs (countdownMinutes currentTime : number)
    (activeTimer : TimerState) : number :=
  if isCountingDown activeTimer
  then mul (ceil (div (displayMs countdownMinutes currentTime activeTimer) (ofZ 1000)))
           (ofZ 1000)
  else displayMs countdownMinutes currentTime activeTimer.

(** [tasks.findIndex(p)]; [None] is the -1 of the source. *)
Fixpoint findIndex {A : Type} (p : A -> bool) (xs : list A) : option nat :=
  match xs with
  | [] => None
  | x :: rest =>
      if p x then Some O
      else match findIndex p rest with
           | Some i => Some (S i)
           | None => None
           end
  end.

(** [xs.map((t, i) => f(t, i))], the indices counted from [start]. *)
Fixpoint mapWithIndex {A B : Type} (f : A -> nat -> B) (start : nat) (xs : list A)
    : list B :=
  match xs with
  | [] => []
  | x :: rest => f x start :: mapWithIndex f (S start) rest
  end.

(** [toggleTask], on the data of the selected category, with [Date.now()]
    read as [now].  The index [findIndex] returns is within the array, so
    the second [None] never arises. *)
Definition toggleTask (now : number) (taskId : string) (data : CategoryData)
    : CategoryData :=
  match findIndex (fun t => String.eqb (Task.id t) taskId) (tasks data) with
  | None => data
  | Some taskIndex =>
      match nth_error (tasks data) taskIndex with
      | None => data
      | Some task =>
          let isBecomingCompleted := negb (Task.isCompleted task) in
          let nextTimerState :=
            if isBecomingCompleted &&
               negb (match status (timerState data) with IDLE => true | _ => false end)
            then
              let record :=
                {| title := Task.text task;
                   note := Task.notes task;
                   completedAt := now |} in
              {| mode := mode (timerState data);
                 status := status (timerState data);
                 startTime := startTime (timerState data);
                 sessionStartTime := sessionStartTime (timerState data);
                 accumulatedTime := accumulatedTime (timerState data);
                 targetTime := targetTime (timerState data);
                 breakRemaining := breakRemaining (timerState data);
                 intervals := intervals (timerState data);
                 completedTasks := completedTasks (timerState data) ++ [record] |}
            else timerState data in
          let nextTasks :=
            mapWithIndex
              (fun t i =>
                 if Nat.eqb i taskIndex
                 then {| Task.id := Task.id t;
                         Task.text := Task.text t;
                         Task.isCompleted := isBecomingCompleted;
                         Task.notes := Task.notes t |}
                 else t)
              O (tasks data) in
          {| timerState := nextTimerState;
             sessions := sessions data;
             dailyLogs := dailyLogs data;
             currentNotes := currentNotes data;
             tasks := nextTasks |}
      end
  end.

Definition deleteTask (taskId : string) (data : CategoryData) : CategoryData :=
  {| timerState := timerState data;
     sessions := sessions data;
     dailyLogs := dailyLogs data;
     currentNotes := currentNotes data;
     tasks := filter (fun t => negb (String.eqb (Task.id t) taskId)) (tasks data) |}.

(** [updateSessionNote], over the categories in the order of [Object.keys]. *)
Definition updateSessionNote (sessionId note_ : string)
    (categoryData : list (string * CategoryData)) : list (string * CategoryData) :=
  map (fun entry =>
         (fst entry,
          {| timerState := timerState (snd entry);
             sessions :=
               map (fun s =>
                      if String.eqb (Session.id s) sessionId
                      then {| Session.id := Session.id s;
                              Session.categoryId := Session.categoryId s;
                              Session.startTime := Session.startTime s;
                              Session.endTime := Session.endTime s;
                              Session.duration := Session.duration s;
                              Session.totalElapsed := Session.totalElapsed s;
                              Session.sessionStartTime := Session.sessionStartTime s;
                              Session.notes := note_;
                              Session.mode := Session.mode s;
                              Session.isFlagged := Session.isFlagged s;
                              Session.rating := Session.rating s;
                              Session.tags := Session.tags s;
                              Session.distractions := Session.distractions s;
                              Session.distractionNote := Session.distractionNote s;
                              Session.completedTasks := Session.completedTasks s |}
                      else s)
                   (sessions (snd entry));
             dailyLogs := dailyLogs (snd entry);
             currentNotes := currentNotes (snd entry);
             tasks := tasks (snd entry) |}))
      categoryData.

(** The metadata the session-complete dialog returns. *)
Record SessionMeta : Set := mkSessionMeta {
  metaRating : number;
  metaTags : list string;
  metaDistractions : list string;
  metaDistractionNote : string
}.

(** [handleSaveSessionData], on the data of the category of the pending
    session.  [trim] is [String.prototype.trim], [newId] the id drawn for
    the session and [genId] the ids drawn by the splitter; [None] is a
    split that has not ended within [fuel].  The result is the data of the
    category and the new value of [pendingSession]. *)
Definition handleSaveSessionData (trim : string -> string) (zone : Utils.Zone)
    (newId : string) (genId : nat -> string) (fuel : nat)
    (settings : Settings) (meta : SessionMeta)
    (pendingSession : option PendingSession) (data : CategoryData)
    : option (CategoryData * option PendingSession) :=
  match pendingSession with
  | None => Some (data, None)
  | Some pending =>
      let currentNotes_ := currentNotes data in
      let completedTasks_ := completedTasks (timerState data) in
      let isFlagged_ :=
        gtb (duration pending)
            (mul (mul (idleThresholdMinutes settings) (ofZ 60)) (ofZ 1000)) in
      let newSessionBase :=
        {| Session.id := newId;
           Session.categoryId := catId pending;
           Session.startTime := toWhole (start pending);
           Session.endTime := toWhole (end_ pending);
           Session.duration := toWhole (duration pending);
           Session.totalElapsed := toWhole (totalElapsed pending);
           Session.sessionStartTime := toWhole (pendingSessionStartTime pending);
           Session.notes := trim currentNotes_;
           Session.mode := pendingMode pending;
           Session.isFlagged := Some isFlagged_;
           Session.completedTasks := completedTasks_;
           Session.rating := Some (toWhole (metaRating meta));
           Session.tags := metaTags meta;
           Session.distractions := metaDistractions meta;
           Session.distractionNote := Some (metaDistractionNote meta) |} in
      match Utils.splitSessionByMidnight zone genId fuel newSessionBase with
      | None => None
      | Some sessions_ =>
          Some ({| timerState := timerState data;
                   sessions := sessions_ ++ sessions data;
                   dailyLogs := dailyLogs data;
                   currentNotes := "";
                   tasks := tasks data |},
                None)
      end
  end.

(** The user and timer events that update a category's [timerState]. *)
Inductive Action : Set :=
| Toggle (settings : Settings) (countdownMinutes now : number)
| EndSession (now : number)
| Reset
| Tick (now : number)
| SkipBreak
| ExtendBreak (ms : number)
| SetMode (m : TimerMode).

(** The handler an event runs, on the category [selectedId]. *)
Definition dispatch (selectedId : string) (a : Action) (timerState : TimerState)
    : list Effect * TimerState :=
  match a with
  | Toggle settings countdownMinutes now =>
      ([], toggleTimer settings countdownMinutes now timerState)
  | EndSession now => handleEndSession selectedId now timerState
  | Reset => ([], resetTimer timerState)
  | Tick now => tick selectedId now timerState
  | SkipBreak => ([], skipBreak timerState)
  | ExtendBreak ms => ([], extendBreak ms timerState)
  | SetMode m => ([], setMode m timerState)
  end.

(** States reachable from the default state by events that [allowed]
    admits in the state they arrive in. *)
Inductive reachable (allowed : TimerState -> Action -> Prop) : TimerState -> Prop :=
| reachable_default : reachable allowed defaultTimerState
| reachable_dispatch (selectedId : string) (a : Action) (timerState : TimerState) :
    reachable allowed timerState ->
    allowed timerState a ->
    reachable allowed (snd (dispatch selectedId a timerState)).

Definition anyAction (_ : TimerState) (_ : Action) : Prop := True.

(** Running a list of events in order, collecting the effects. *)
Fixpoint run (selectedId : string) (actions : list Action) (timerState : TimerState)
    : list Effect * TimerState :=
  match actions with
  | [] => ([], timerState)
  | a :: rest =>
      let '(effects, next) := dispatch selectedId a timerState in
      let '(effects', final) := run selectedId rest next in
      (effects ++ effects', final)
  end.

(** The streak computation.  [Array.from(new Set(dates))]: the dates
    without repetition, each where it first occurs. *)
Fixpoint uniqueInOrder (seen dates : list Z) : list Z :=
  match dates with
  | [] => []
  | d :: rest =>
      if existsb (Z.eqb d) seen then uniqueInOrder seen rest
      else d :: uniqueInOrder (d :: seen) rest
  end.

(** [.sort((a, b) => b - a)]: descending, by insertion. *)
Fixpoint insertDescending (x : Z) (sorted : list Z) : list Z :=
  match sorted with
  | [] => [x]
  | y :: rest =>
      if y <=? x then x :: y :: rest
      else y :: insertDescending x rest
  end.

Definition sortDescending (dates : list Z) : list Z :=
  fold_right insertDescending [] dates.

(** The [for] loop that counts the leading run of consecutive days. *)
Fixpoint countConsecutive (zone : Utils.Zone) (sortedUniqueDates : list Z)
    (current : nat) : nat :=
  match sortedUniqueDates with
  | currentDay :: (nextDay :: _) as rest =>
      if Utils.differenceInCalendarDays zone currentDay nextDay =? 1
      then countConsecutive zone rest (S current)
      else current
  | _ => current
  end.

(** The [streaks] memo: the pair of [current] and [longest], with
    [new Date()] read as [now] and [appState.stats.longestStreak] as
    [longestStreak]. *)
Definition streaks (zone : Utils.Zone) (now : Z) (longestStreak : nat)
    (allSessions : list Session.Session) : nat * nat :=
  let dates := map (fun s => Utils.startOfDay zone (Session.startTime s)) allSessions in
  let sortedUniqueDates := sortDescending (uniqueInOrder [] dates) in
  match sortedUniqueDates with
  | [] => (O, longestStreak)
  | latest :: _ =>
      let yesterday := Utils.startOfDay zone (Utils.subDays zone now 1) in
      if latest <? yesterday then (O, longestStreak)
      else
        let current := countConsecutive zone sortedUniqueDates 1 in
        (current, Nat.max current longestStreak)
  end.

End App.

Import JsNumber Types Constants Utils App.

(** * Vocabulary of the statements *)

(** The number of the local day an instant falls on, in a zone at the
    fixed offset [tz]. *)
Definition dayIndex (tz t : Z) : Z := (t + tz) / MS_PER_DAY.

Definition sumDurations (parts : list Session.Session) : Z :=
  fold_right (fun p acc => Session.duration p + acc) 0 parts.

(** Each record starts [gap] ms after the one before it ends. *)
Fixpoint adjacentBy (gap : Z) (parts : list Session.Session) : Prop :=
  match parts with
  | p :: (q :: _) as rest =>
      Session.startTime q = Session.endTime p + gap /\ adjacentBy gap rest
  | _ => True
  end.

(** What the specification asks of a split: the durations add up to the
    span of the original and each part ends where the next starts. *)
Definition exactSplit (session : Session.Session) (parts : list Session.Session) : Prop :=
  parts <> [] /\
  sumDurations parts = Session.endTime session - Session.startTime session /\
  adjacentBy 0 parts.

(** The splitter returns [parts] whenever its loop is given enough fuel. *)
Definition splitsInto (zone : Zone) (genId : nat -> string)
    (session : Session.Session) (parts : list Session.Session) : Prop :=
  exists fuel, forall fuel', (fuel <= fuel')%nat ->
    splitSessionByMidnight zone genId fuel' session = Some parts.

(** What the splitter does produce: parts in order that cover the session
    from its start to its end, each within one local day and each starting
    1 ms after the one before it ends; a session within one day unchanged;
    otherwise two or more parts whose duration is their own span, all but
    the last ending at 23:59:59.999, the durations adding up to the span of
    the session less 1 ms for every midnight crossed. *)
Definition daySplit (zone : Zone) (session : Session.Session)
    (parts : list Session.Session) : Prop :=
  parts <> [] /\
  Session.startTime (hd session parts) = Session.startTime session /\
  Session.endTime (last parts session) = Session.endTime session /\
  Forall (fun p =>
            Session.startTime p <= Session.endTime p /\
            isSameDay zone (Session.startTime p) (Session.endTime p) = true)
         parts /\
  adjacentBy 1 parts /\
  (isSameDay zone (Session.startTime session) (Session.endTime session) = true ->
   parts = [session]) /\
  (isSameDay zone (Session.startTime session) (Session.endTime session) = false ->
   (2 <= List.length parts)%nat /\
   Forall (fun p => Session.duration p = Session.endTime p - Session.startTime p)
          parts /\
   Forall (fun p => Session.endTime p = endOfDay zone (Session.startTime p))
          (removelast parts) /\
   sumDurations parts =
     Session.endTime session - Session.startTime session
     - (Z.of_nat (List.length parts) - 1)).

(** The parts a split that crosses [n] midnights pushes inside the loop,
    and the value of [currentStart] after them. *)
Fixpoint dayParts (zone : Zone) (genId : nat -> string) (session : Session.Session)
    (n : nat) (currentStart : Z) (k : nat) : list Session.Session :=
  match n with
  | O => []
  | S n' =>
      withSpan session (genId k) currentStart (endOfDay zone currentStart)
      :: dayParts zone genId session n' (startOfDay zone (currentStart + 86400000)) (S k)
  end.

Fixpoint advance (zone : Zone) (n : nat) (currentStart : Z) : Z :=
  match n with
  | O => currentStart
  | S n' => advance zone n' (startOfDay zone (currentStart + 86400000))
  end.

(** The session of the specification's example: 23:30 to 00:45 of the next
    day, in a zone at offset 0. *)
Definition lateSession : Session.Session :=
  {| Session.id := "s"; Session.categoryId := "default-1";
     Session.startTime := 84600000; Session.endTime := 89100000;
     Session.duration := 4500000; Session.totalElapsed := 4500000;
     Session.sessionStartTime := 84600000;
     Session.notes := ""; Session.mode := FLOW; Session.isFlagged := Some false;
     Session.rating := Some 0; Session.tags := []; Session.distractions := [];
     Session.distractionNote := Some ""%string; Session.completedTasks := [] |}.

Definition constId (_ : nat) : string := "id"%string.

Definition lateParts : list Session.Session :=
  [ withSpan lateSession "id" 84600000 86399999;
    withSpan lateSession "id" 86400000 89100000 ].

(** The time the tick and the toggle measure since [startTime], with
    their fallback [startTime || now]. *)
Definition elapsedSinceStart (now : number) (timerState : TimerState) : number :=
  sub now (orElse (startTime timerState) now).

(** The time elapsed since [startTime], as the specification reads it:
    [now - startTime], and nothing when [startTime] is absent. *)
Definition liveElapsed (now : number) (timerState : TimerState) : number :=
  match startTime timerState with
  | Some s => sub now s
  | None => ofZ 0
  end.

(** The candidate session the end-session handlers hand over. *)
Definition candidate (selectedId : string) (now : number) (timerState : TimerState)
    : PendingSession :=
  {| catId := selectedId;
     start := finalSessionStartTime now timerState;
     end_ := now;
     duration := totalFocused now timerState;
     totalElapsed := sub now (finalSessionStartTime now timerState);
     pendingSessionStartTime := finalSessionStartTime now timerState;
     pendingMode := mode timerState;
     segmentCount := Nat.max 1 (segmentCountOf now timerState) |}.

Definition emitsSession (effects : list Effect) : Prop :=
  exists p, In (SetPendingSession p) effects.

(** [startTime] is set exactly in the statuses that tick. *)
Definition startTimeInv (timerState : TimerState) : Prop :=
  startTime timerState <> None <->
  (status timerState = RUNNING \/ status timerState = BREAK).

(** No break segmentation in countdown mode. *)
Definition countdownInv (timerState : TimerState) : Prop :=
  mode timerState = COUNTDOWN -> intervals timerState = [].

(** The countdown button is pressed only while no interval is recorded. *)
Definition modeSwitchGuarded (timerState : TimerState) (a : Action) : Prop :=
  a = SetMode COUNTDOWN -> intervals timerState = [].

Definition wholeOption (x : option number) : Prop :=
  match x with
  | Some v => isInteger v = true
  | None => True
  end.

(** The fields of a state that hold whole milliseconds. *)
Definition wholeState (timerState : TimerState) : Prop :=
  wholeOption (startTime timerState) /\
  wholeOption (sessionStartTime timerState) /\
  isInteger (accumulatedTime timerState) = true /\
  wholeOption (targetTime timerState) /\
  Forall (fun i => isInteger i = true) (intervals timerState).

(** Events whose clock reading is a whole number of milliseconds, as
    [Date.now()] gives, and whose countdown length is one too. *)
Definition wholeInput (_ : TimerState) (a : Action) : Prop :=
  match a with
  | Toggle _ countdownMinutes now =>
      isInteger now = true /\
      isInteger (mul (mul countdownMinutes (ofZ 60)) (ofZ 1000)) = true
  | EndSession now => isInteger now = true
  | Tick now => isInteger now = true
  | _ => True
  end.

(** Every event of a run is admitted in the state it arrives in. *)
Fixpoint allowedAlong (allowed : TimerState -> Action -> Prop) (selectedId : string)
    (actions : list Action) (timerState : TimerState) : Prop :=
  match actions with
  | [] => True
  | a :: rest =>
      allowed timerState a /\
      allowedAlong allowed selectedId rest (snd (dispatch selectedId a timerState))
  end.

(** Start at 1000, break at 6000, then the countdown button. *)
Definition switchAfterInterval : list Action :=
  [ Toggle defaultSettings (ofZ 25) (ofZ 1000);
    Toggle defaultSettings (ofZ 25) (ofZ 6000);
    SetMode COUNTDOWN ].

(** Start at 1000, break 3 ms later. *)
Definition shortInterval : list Action :=
  [ Toggle defaultSettings (ofZ 25) (ofZ 1000);
    Toggle defaultSettings (ofZ 25) (ofZ 1003) ].

(** A flow timer started at [t0] and still running. *)
Definition flowRunningSince (t0 : number) : TimerState :=
  {| mode := FLOW;
     status := RUNNING;
     startTime := Some t0;
     sessionStartTime := Some t0;
     accumulatedTime := ofZ 0;
     targetTime := None;
     breakRemaining := None;
     intervals := [];
     completedTasks := [] |}.

(** A countdown of [target] ms started at [t0] and still running. *)
Definition countdownRunningSince (t0 target : number) : TimerState :=
  {| mode := COUNTDOWN;
     status := RUNNING;
     startTime := Some t0;
     sessionStartTime := Some t0;
     accumulatedTime := ofZ 0;
     targetTime := Some target;
     breakRemaining := None;
     intervals := [];
     completedTasks := [] |}.

(** A break of [allowance] ms begun at [t0] after one interval of [worked] ms. *)
Definition onBreakSince (t0 worked allowance : number) : TimerState :=
  {| mode := FLOW;
     status := BREAK;
     startTime := Some t0;
     sessionStartTime := Some (sub t0 worked);
     accumulatedTime := ofZ 0;
     targetTime := None;
     breakRemaining := Some allowance;
     intervals := [worked];
     completedTasks := [] |}.

(** A break of one minute that began at the timestamp 0: the timer was
    started and stopped at 0 and the break then extended by a minute. *)
Definition breakSinceZero : TimerState :=
  {| mode := FLOW;
     status := BREAK;
     startTime := Some (ofZ 0);
     sessionStartTime := Some (ofZ 0);
     accumulatedTime := ofZ 0;
     targetTime := None;
     breakRemaining := Some (ofZ 60000);
     intervals := [ofZ 0];
     completedTasks := [] |}.

(** The record [newSessionBase] that the save builds from the pending
    session, the metadata and the data of the category. *)
Definition newSessionBaseOf (trim : string -> string) (newId : string)
    (settings : Settings) (meta : SessionMeta) (pending : PendingSession)
    (data : CategoryData) : Session.Session :=
  {| Session.id := newId;
     Session.categoryId := catId pending;
     Session.startTime := toWhole (start pending);
     Session.endTime := toWhole (end_ pending);
     Session.duration := toWhole (duration pending);
     Session.totalElapsed := toWhole (totalElapsed pending);
     Session.sessionStartTime := toWhole (pendingSessionStartTime pending);
     Session.notes := trim (currentNotes data);
     Session.mode := pendingMode pending;
     Session.isFlagged :=
       Some (gtb (duration pending)
               (mul (mul (idleThresholdMinutes settings) (ofZ 60)) (ofZ 1000)));
     Session.completedTasks := completedTasks (timerState data);
     Session.rating := Some (toWhole (metaRating meta));
     Session.tags := metaTags meta;
     Session.distractions := metaDistractions meta;
     Session.distractionNote := Some (metaDistractionNote meta) |}.

(** The data of a category after [saved] has been put in front of its
    sessions and its draft notes emptied. *)
Definition withSaved (saved : list Session.Session) (data : CategoryData)
    : CategoryData :=
  {| timerState := timerState data;
     sessions := saved ++ sessions data;
     dailyLogs := dailyLogs data;
     currentNotes := "";
     tasks := tasks data |}.

(** Every field of [s'] but its notes is that of [s]. *)
Definition sameButNotes (s s' : Session.Session) : Prop :=
  Session.id s' = Session.id s /\
  Session.categoryId s' = Session.categoryId s /\
  Session.startTime s' = Session.startTime s /\
  Session.endTime s' = Session.endTime s /\
  Session.duration s' = Session.duration s /\
  Session.totalElapsed s' = Session.totalElapsed s /\
  Session.sessionStartTime s' = Session.sessionStartTime s /\
  Session.mode s' = Session.mode s /\
  Session.isFlagged s' = Session.isFlagged s /\
  Session.rating s' = Session.rating s /\
  Session.tags s' = Session.tags s /\
  Session.distractions s' = Session.distractions s /\
  Session.distractionNote s' = Session.distractionNote s /\
  Session.completedTasks s' = Session.completedTasks s.

(** [Number.isSafeInteger]: a whole number of magnitude below 2^53. *)
Definition safeInteger (a : number) : Prop :=
  isInteger a = true /\
  (ofZ (- 9007199254740991) <= a)%Qc /\ (a <= ofZ 9007199254740991)%Qc.

(** Two numbers whose sum a double holds exactly: both are safe integers
    and so is their sum. *)
Definition exactSum (a b : number) : Prop :=
  safeInteger a /\ safeInteger b /\ safeInteger (add a b).

(** The fields of [session] the splitter does not rewrite are those of [p]. *)
Definition sameOtherFields (session p : Session.Session) : Prop :=
  Session.categoryId p = Session.categoryId session /\
  Session.totalElapsed p = Session.totalElapsed session /\
  Session.sessionStartTime p = Session.sessionStartTime session /\
  Session.notes p = Session.notes session /\
  Session.mode p = Session.mode session /\
  Session.isFlagged p = Session.isFlagged session /\
  Session.rating p = Session.rating session /\
  Session.tags p = Session.tags session /\
  Session.distractions p = Session.distractions session /\
  Session.distractionNote p = Session.distractionNote session /\
  Session.completedTasks p = Session.completedTasks session.

(** A zone that puts its clocks back by one hour, from four to five hours
    behind UTC, at 02:00 local time of the day number 10, which so lasts
    25 hours.  The hour from 01:00 to 02:00 comes twice on that day; a
    local time in it is read with the offset before the change. *)
Definition autumnChange : Z := 10 * 86400000 + 6 * 3600000.

Definition autumnZone : Zone :=
  {| utcOffset := fun t => if t <? autumnChange then - 14400000 else - 18000000;
     localOffset :=
       fun l => if l <? autumnChange - 14400000 then - 14400000 else - 18000000 |}.

(** A session from 23:30 of the day before the clocks are put back to
    00:15 of the day after it, in [autumnZone]. *)
Definition autumnSession : Session.Session :=
  {| Session.id := "s"; Session.categoryId := "default-1";
     Session.startTime := 876600000; Session.endTime := 969300000;
     Session.duration := 92700000; Session.totalElapsed := 92700000;
     Session.sessionStartTime := 876600000;
     Session.notes := ""; Session.mode := FLOW; Session.isFlagged := Some false;
     Session.rating := Some 0; Session.tags := []; Session.distractions := [];
     Session.distractionNote := Some ""%string; Session.completedTasks := [] |}.

(** A record whose end lies a day before its start. *)
Definition backwardSession : Session.Session :=
  withSpan lateSession "b" 89100000 84600000.

(** The median in terms of the ascending arrangement alone. *)
Definition medianOfSorted (sorted : list number) : number :=
  if negb (Nat.eqb (Nat.modulo (List.length sorted) 2) 0)
  then nth (Nat.div (List.length sorted) 2) sorted (ofZ 0)
  else div (add (nth (Nat.div (List.length sorted) 2 - 1) sorted (ofZ 0))
                (nth (Nat.div (List.length sorted) 2) sorted (ofZ 0)))
           (ofZ 2).

(** How many of the values satisfy [p]. *)
Definition countIf (p : number -> bool) (values : list number) : nat :=
  List.length (filter p values).

(** A category with two tasks, the first done, while a flow timer runs. *)
Definition sampleData : CategoryData :=
  {| timerState := flowRunningSince (ofZ 1000);
     sessions := [];
     dailyLogs := [];
     currentNotes := "draft";
     tasks :=
       [ {| Task.id := "t1"; Task.text := "write"; Task.isCompleted := true;
            Task.notes := None |};
         {| Task.id := "t2"; Task.text := "review"; Task.isCompleted := false;
            Task.notes := None |} ] |}.

(** A flow timer running since 1000 with one task completed, the data of
    its category, the candidate End-Session hands over at 61000, the data
    once it has done so, and the data after the save with the dialog
    skipped. *)
Definition busyTimer : TimerState :=
  {| mode := FLOW;
     status := RUNNING;
     startTime := Some (ofZ 1000);
     sessionStartTime := Some (ofZ 1000);
     accumulatedTime := ofZ 0;
     targetTime := None;
     breakRemaining := None;
     intervals := [];
     completedTasks :=
       [ {| title := "write"; note := None; completedAt := ofZ 2000 |} ] |}.

Definition busyData : CategoryData :=
  {| timerState := busyTimer;
     sessions := [];
     dailyLogs := [];
     currentNotes := "draft";
     tasks := [] |}.

Definition busyPending : PendingSession :=
  candidate "default-1" (ofZ 61000) busyTimer.

Definition endedData : CategoryData :=
  {| timerState := snd (handleEndSession "default-1" (ofZ 61000) busyTimer);
     sessions := sessions busyData;
     dailyLogs := dailyLogs busyData;
     currentNotes := currentNotes busyData;
     tasks := tasks busyData |}.

Definition skippedMeta : SessionMeta :=
  {| metaRating := ofZ 0;
     metaTags := [];
     metaDistractions := [];
     metaDistractionNote := "" |}.

Definition savedData : CategoryData :=
  match handleSaveSessionData (fun s => s) (fixedZone 0) "new" constId 1 defaultSettings
          skippedMeta (Some busyPending) endedData with
  | Some (result, _) => result
  | None => endedData
  end.

(** The extension of a break is offered only during a break. *)
Definition extendOnlyOnBreak (timerState : TimerState) (a : Action) : Prop :=
  match a with
  | ExtendBreak _ => status timerState = BREAK
  | _ => True
  end.

Definition breakRemainingInv (timerState : TimerState) : Prop :=
  breakRemaining timerState <> None <-> status timerState = BREAK.

(** The clock reading an event carries. *)
Definition clockOf (a : Action) : option number :=
  match a with
  | Toggle _ _ now => Some now
  | EndSession now => Some now
  | Tick now => Some now
  | _ => None
  end.

(** States reachable from the default state by events whose clock
    readings are positive and never go back; the index is the latest
    reading. *)
Inductive reachableAt : number -> TimerState -> Prop :=
| reachableAt_default (t0 : number) :
    (ofZ 0 < t0)%Qc -> reachableAt t0 defaultTimerState
| reachableAt_dispatch (last : number) (selectedId : string) (a : Action)
    (timerState : TimerState) :
    reachableAt last timerState ->
    (forall now, clockOf a = Some now -> (last <= now)%Qc) ->
    reachableAt (match clockOf a with Some now => now | None => last end)
                (snd (dispatch selectedId a timerState)).

(** What holds of a chain at the latest clock reading [last]: the banked
    durations are not negative, and the focused time banked so far fits
    between the start of the chain and the start of the running segment,
    or the latest reading when none runs. *)
Definition chainInv (last : number) (timerState : TimerState) : Prop :=
  (ofZ 0 < last)%Qc /\
  (ofZ 0 <= accumulatedTime timerState)%Qc /\
  Forall (fun i => (ofZ 0 <= i)%Qc) (intervals timerState) /\
  match sessionStartTime timerState with
  | None =>
      status timerState = IDLE /\ startTime timerState = None /\
      accumulatedTime timerState = ofZ 0 /\ intervals timerState = []
  | Some chainStart =>
      (ofZ 0 < chainStart)%Qc /\ (chainStart <= last)%Qc /\
      match status timerState with
      | RUNNING =>
          exists s, startTime timerState = Some s /\
                    (chainStart <= s)%Qc /\ (s <= last)%Qc /\
                    (add (sum (intervals timerState)) (accumulatedTime timerState)
                       <= sub s chainStart)%Qc
      | _ =>
          (add (sum (intervals timerState)) (accumulatedTime timerState)
             <= sub last chainStart)%Qc
      end
  end.

(** * Numbers *)

Lemma eqb_eq (a b : number) : eqb a b = true <-> a = b.
Proof.
  unfold eqb. rewrite Qeq_bool_iff. split.
  - apply Qc_is_canon.
  - intros ->. reflexivity.
Qed.

Lemma eqb_neq (a b : number) : eqb a b = false <-> a <> b.
Proof.
  rewrite <- eqb_eq. destruct (eqb a b); split; congruence.
Qed.

Lemma ofZ_this (z : Z) : this (ofZ z) = inject_Z z.
Proof.
  change (Qred (inject_Z z) = inject_Z z).
  apply Qred_identity. simpl. apply Z.gcd_1_r.
Qed.

Lemma ofZ_inj (a b : Z) : ofZ a = ofZ b -> a = b.
Proof.
  intros H. apply (f_equal this) in H. rewrite !ofZ_this in H.
  now injection H.
Qed.

Lemma ofZ_add (a b : Z) : add (ofZ a) (ofZ b) = ofZ (a + b).
Proof.
  apply Qc_is_canon.
  change (Qred (this (ofZ a) + this (ofZ b)) == this (ofZ (a + b))).
  rewrite !ofZ_this, Qred_correct. now rewrite inject_Z_plus.
Qed.

Lemma ofZ_opp (a : Z) : Qcopp (ofZ a) = ofZ (- a).
Proof.
  apply Qc_is_canon.
  change (Qred (- this (ofZ a)) == this (ofZ (- a))).
  rewrite !ofZ_this, Qred_correct. now rewrite inject_Z_opp.
Qed.

Lemma ofZ_sub (a b : Z) : sub (ofZ a) (ofZ b) = ofZ (a - b).
Proof.
  unfold sub, Qcminus. rewrite ofZ_opp. apply ofZ_add.
Qed.

Lemma ofZ_mul (a b : Z) : mul (ofZ a) (ofZ b) = ofZ (a * b).
Proof.
  apply Qc_is_canon.
  change (Qred (this (ofZ a) * this (ofZ b)) == this (ofZ (a * b))).
  rewrite !ofZ_this, Qred_correct. now rewrite inject_Z_mult.
Qed.

Lemma isInteger_ofZ (z : Z) : isInteger (ofZ z) = true.
Proof. unfold isInteger. now rewrite ofZ_this. Qed.

Lemma isInteger_iff (a : number) : isInteger a = true <-> exists z, a = ofZ z.
Proof.
  split.
  - unfold isInteger. intros H. apply Pos.eqb_eq in H.
    exists (Qnum a). apply Qc_decomp. rewrite ofZ_this.
    destruct a as [[n d] Hc]. simpl in *. now subst d.
  - intros [z ->]. apply isInteger_ofZ.
Qed.

Lemma leb_le (a b : number) : leb a b = true <-> (a <= b)%Qc.
Proof. unfold leb, Qcle. apply Qle_bool_iff. Qed.

Lemma ltb_lt (a b : number) : ltb a b = true <-> (a < b)%Qc.
Proof.
  unfold ltb, Qclt. rewrite negb_true_iff.
  split; intros H.
  - apply Qnot_le_lt. intros Hle. apply Qle_bool_iff in Hle. congruence.
  - apply not_true_is_false. intros Hle. apply Qle_bool_iff in Hle.
    now apply (Qlt_not_le _ _ H).
Qed.

Lemma ofZ_leb (a b : Z) : leb (ofZ a) (ofZ b) = (a <=? b).
Proof.
  apply eq_true_iff_eq. rewrite leb_le, Z.leb_le. unfold Qcle.
  rewrite !ofZ_this, <- Zle_Qle. reflexivity.
Qed.

Lemma ofZ_ltb (a b : Z) : ltb (ofZ a) (ofZ b) = (a <? b).
Proof.
  apply eq_true_iff_eq. rewrite ltb_lt, Z.ltb_lt. unfold Qclt.
  rewrite !ofZ_this, <- Zlt_Qlt. reflexivity.
Qed.

Lemma ofZ_eqb (a b : Z) : eqb (ofZ a) (ofZ b) = (a =? b).
Proof.
  apply eq_true_iff_eq. rewrite eqb_eq, Z.eqb_eq. split.
  - apply ofZ_inj.
  - now intros ->.
Qed.

(** * utils.ts: the midnight splitter *)

(** Day arithmetic in a zone at a fixed offset. *)
Ltac days :=
  unfold endOfDay, startOfDay, subDays, setHours, localTime, utc,
         dayIndex, MS_PER_DAY in *;
  unfold fixedZone, utcOffset, localOffset in *;
  Z.div_mod_to_equations; lia.

Section MidnightSplitter.
Variable tz : Z.
Variable genId : nat -> string.

Lemma startOfDay_dayIndex (t : Z) :
  startOfDay (fixedZone tz) t = dayIndex tz t * MS_PER_DAY - tz.
Proof. days. Qed.

Lemma startOfDay_bounds (t : Z) :
  startOfDay (fixedZone tz) t <= t < startOfDay (fixedZone tz) t + MS_PER_DAY.
Proof. days. Qed.

Lemma isSameDay_iff (a b : Z) :
  isSameDay (fixedZone tz) a b = true <-> dayIndex tz a = dayIndex tz b.
Proof.
  unfold isSameDay. rewrite Z.eqb_eq, !startOfDay_dayIndex.
  unfold MS_PER_DAY. lia.
Qed.

Lemma startOfDay_next (t : Z) :
  startOfDay (fixedZone tz) (t + 86400000) = endOfDay (fixedZone tz) t + 1.
Proof. days. Qed.

Lemma dayIndex_next (t : Z) :
  dayIndex tz (startOfDay (fixedZone tz) (t + 86400000)) = dayIndex tz t + 1.
Proof. days. Qed.

Lemma dayIndex_mono (a b : Z) : a <= b -> dayIndex tz a <= dayIndex tz b.
Proof. intros H. days. Qed.

Lemma endOfDay_sameDay (t : Z) : isSameDay (fixedZone tz) t (endOfDay (fixedZone tz) t) = true.
Proof. apply isSameDay_iff. days. Qed.

Lemma startOfDay_idem (t : Z) : startOfDay (fixedZone tz) (startOfDay (fixedZone tz) t) = startOfDay (fixedZone tz) t.
Proof. days. Qed.

Lemma sumDurations_app (xs ys : list Session.Session) :
  sumDurations (xs ++ ys) = sumDurations xs + sumDurations ys.
Proof.
  induction xs as [|x xs IH]; simpl; [reflexivity | rewrite IH; lia].
Qed.

Section Loop.
Variable session : Session.Session.
Variable end_ : Z.

Let finalPart (k : nat) (currentStart : Z) : Session.Session :=
  withSpan session (genId k) currentStart end_.

(** With enough fuel the loop ends, having pushed one part per
    midnight between [currentStart] and [end_]. *)
Lemma splitLoop_dayParts (n : nat) :
  forall (currentStart : Z) (sessions : list Session.Session) (fuel : nat),
    dayIndex tz end_ = dayIndex tz currentStart + Z.of_nat n ->
    (n <= fuel)%nat ->
    splitLoop (fixedZone tz) genId fuel session end_ currentStart sessions =
    Some (sessions ++
            dayParts (fixedZone tz) genId session n currentStart (List.length sessions),
          advance (fixedZone tz) n currentStart).
Proof.
  induction n as [|n IH]; intros cs acc fuel Hday Hfuel.
  - assert (Hsame : isSameDay (fixedZone tz) cs end_ = true) by (apply isSameDay_iff; lia).
    destruct fuel; simpl; rewrite Hsame, app_nil_r; reflexivity.
  - assert (Hdiff : isSameDay (fixedZone tz) cs end_ = false).
    { apply not_true_is_false. rewrite isSameDay_iff. lia. }
    destruct fuel as [|fuel]; [lia|].
    simpl. rewrite Hdiff.
    rewrite IH by (rewrite ?dayIndex_next; lia).
    rewrite length_app, <- app_assoc. simpl.
    now rewrite Nat.add_1_r.
Qed.

(** When [end_] is on an earlier day than [currentStart] the loop
    never ends. *)
Lemma splitLoop_diverges (fuel : nat) :
  forall (currentStart : Z) (sessions : list Session.Session),
    dayIndex tz end_ < dayIndex tz currentStart ->
    splitLoop (fixedZone tz) genId fuel session end_ currentStart sessions = None.
Proof.
  induction fuel as [|fuel IH]; intros cs acc Hlt;
    assert (Hdiff : isSameDay (fixedZone tz) cs end_ = false)
      by (apply not_true_is_false; rewrite isSameDay_iff; lia);
    simpl; rewrite Hdiff; [reflexivity|].
  apply IH. rewrite dayIndex_next. lia.
Qed.

Lemma dayParts_length (n : nat) :
  forall cs k, List.length (dayParts (fixedZone tz) genId session n cs k) = n.
Proof. induction n; intros; simpl; [|rewrite IHn]; reflexivity. Qed.

Lemma advance_dayIndex (n : nat) :
  forall cs, dayIndex tz (advance (fixedZone tz) n cs) = dayIndex tz cs + Z.of_nat n.
Proof.
  induction n as [|n IH]; intros cs; simpl advance; [lia|].
  rewrite IH, dayIndex_next. lia.
Qed.

Lemma advance_startOfDay (n : nat) :
  forall cs, (0 < n)%nat ->
    startOfDay (fixedZone tz) (advance (fixedZone tz) n cs) = advance (fixedZone tz) n cs.
Proof.
  induction n as [|n IH]; intros cs Hn; [lia|].
  simpl advance. destruct n as [|n].
  - apply startOfDay_idem.
  - apply IH. lia.
Qed.

Lemma sumDurations_dayParts (n : nat) :
  forall cs k,
    sumDurations (dayParts (fixedZone tz) genId session n cs k) =
    advance (fixedZone tz) n cs - cs - Z.of_nat n.
Proof.
  induction n as [|n IH]; intros cs k.
  - simpl. lia.
  - cbn [dayParts advance sumDurations fold_right].
    fold (sumDurations
            (dayParts (fixedZone tz) genId session n (startOfDay (fixedZone tz) (cs + 86400000)) (S k))).
    rewrite IH, startOfDay_next. cbn [withSpan Session.duration]. lia.
Qed.

Lemma dayParts_Forall (n : nat) :
  forall cs k,
    Forall (fun p =>
              Session.startTime p <= Session.endTime p /\
              Session.endTime p = endOfDay (fixedZone tz) (Session.startTime p) /\
              Session.duration p = Session.endTime p - Session.startTime p)
           (dayParts (fixedZone tz) genId session n cs k).
Proof.
  induction n as [|n IH]; intros cs k; simpl; constructor; [|apply IH].
  simpl. pose proof (startOfDay_bounds cs) as Hb.
  clear finalPart. days.
Qed.

Lemma dayParts_head (n : nat) (cs : Z) (k j : nat) :
  exists q rest,
    dayParts (fixedZone tz) genId session n cs k ++ [finalPart j (advance (fixedZone tz) n cs)] = q :: rest /\
    Session.startTime q = cs.
Proof.
  destruct n; simpl; eexists _, _; split; reflexivity.
Qed.

Lemma dayParts_adjacent (n : nat) :
  forall cs k j,
    adjacentBy 1
      (dayParts (fixedZone tz) genId session n cs k ++ [finalPart j (advance (fixedZone tz) n cs)]).
Proof.
  induction n as [|n IH]; intros cs k j; [exact I|].
  cbn [dayParts advance app].
  destruct (dayParts_head n (startOfDay (fixedZone tz) (cs + 86400000)) (S k) j)
    as (q & rest & Heq & Hq).
  specialize (IH (startOfDay (fixedZone tz) (cs + 86400000)) (S k) j).
  rewrite Heq in IH |- *. cbn [adjacentBy]. split; [|exact IH].
  rewrite Hq, startOfDay_next. reflexivity.
Qed.

End Loop.

(** C1 (as amended).  In a time zone that keeps one offset from UTC, so
    that every local day lasts 24 hours: for a session with
    [startTime <= endTime] the
    splitter returns, given enough fuel for its loop, one or more records,
    earliest first, the first starting at the session's start and the
    last ending at its end, each lying within one local day and each
    starting 1 ms after the one before it ends.  A session within one day is
    returned unchanged.  Otherwise there are at least two parts, each with
    [duration = endTime - startTime], each but the last ending at
    23:59:59.999 of its day, and the durations add up to
    [endTime - startTime] less 1 ms for every midnight crossed. *)
Theorem splitSessionByMidnight_days (session : Session.Session) :
  Session.startTime session <= Session.endTime session ->
  exists parts : list Session.Session,
    splitsInto (fixedZone tz) genId session parts /\ daySplit (fixedZone tz) session parts.
Proof.
  intros Hle.
  set (start := Session.startTime session) in *.
  set (e := Session.endTime session) in *.
  unfold splitsInto, daySplit. fold start e.
  destruct (isSameDay (fixedZone tz) start e) eqn:Hsame.
  - exists [session]. repeat split.
    + exists 0%nat. intros fuel' _. unfold splitSessionByMidnight.
      fold start e. now rewrite Hsame.
    + discriminate.
    + constructor; [|constructor]. fold start e. now split.
    + discriminate.
    + discriminate.
    + discriminate.
    + discriminate.
  - pose proof (dayIndex_mono start e Hle) as Hmono.
    assert (Hne : dayIndex tz start <> dayIndex tz e).
    { intros Heq. apply isSameDay_iff in Heq. congruence. }
    set (n := Z.to_nat (dayIndex tz e - dayIndex tz start)).
    assert (Hn : dayIndex tz e = dayIndex tz start + Z.of_nat n) by lia.
    assert (Hpos : (0 < n)%nat) by lia.
    set (ps := dayParts (fixedZone tz) genId session n start 0).
    set (final := withSpan session (genId (List.length ps)) (advance (fixedZone tz) n start) e).
    assert (Hlen : List.length ps = n) by apply dayParts_length.
    assert (Hadv : advance (fixedZone tz) n start <= e).
    { rewrite <- (advance_startOfDay n start Hpos).
      pose proof (advance_dayIndex n start) as Hd.
      pose proof (startOfDay_bounds e) as Hb.
      rewrite !startOfDay_dayIndex in *. rewrite Hd, <- Hn. lia. }
    assert (Hfinal_day : isSameDay (fixedZone tz) (advance (fixedZone tz) n start) e = true).
    { apply isSameDay_iff. rewrite advance_dayIndex. lia. }
    exists (ps ++ [final]). repeat split.
    + exists n. intros fuel' Hfuel. unfold splitSessionByMidnight.
      fold start e. rewrite Hsame.
      rewrite (splitLoop_dayParts session e n start [] fuel' Hn Hfuel).
      reflexivity.
    + destruct ps; discriminate.
    + destruct (dayParts_head session e n start 0 (List.length ps))
        as (q & rest & Heq & Hq).
      fold ps final in Heq. rewrite Heq. exact Hq.
    + rewrite last_last. reflexivity.
    + apply Forall_app. split.
      * eapply Forall_impl; [|apply dayParts_Forall].
        intros p (H1 & H2 & _). split; [exact H1|].
        rewrite H2. apply endOfDay_sameDay.
      * constructor; [|constructor]. split; [exact Hadv | exact Hfinal_day].
    + apply dayParts_adjacent.
    + discriminate.
    + rewrite length_app. simpl. lia.
    + apply Forall_app. split.
      * eapply Forall_impl; [|apply dayParts_Forall].
        intros p (_ & _ & H3). exact H3.
      * constructor; [|constructor]. reflexivity.
    + rewrite removelast_last.
      eapply Forall_impl; [|apply dayParts_Forall].
      intros p (_ & H2 & _). exact H2.
    + rewrite sumDurations_app, length_app. unfold ps at 1.
      rewrite sumDurations_dayParts. simpl. lia.
Qed.

End MidnightSplitter.

Lemma splitSessionByMidnight_days_witness :
  Session.startTime lateSession <= Session.endTime lateSession /\
  exists parts, splitsInto (fixedZone 0) constId lateSession parts /\ daySplit (fixedZone 0) lateSession parts.
Proof.
  split.
  - vm_compute. discriminate.
  - apply (splitSessionByMidnight_days 0 constId lateSession).
    vm_compute. discriminate.
Defined.

(** C1 as the specification states it fails on its own example: the
    session from 23:30 to 00:45 is split into parts of 1,799,999 ms and
    2,700,000 ms, which add up to 4,499,999 ms and leave the last
    millisecond of the day between them. *)
Lemma splitSessionByMidnight_not_exact :
  Session.startTime lateSession <= Session.endTime lateSession /\
  splitSessionByMidnight (fixedZone 0) constId 1 lateSession = Some lateParts /\
  (forall fuel parts,
     splitSessionByMidnight (fixedZone 0) constId fuel lateSession = Some parts ->
     parts = lateParts) /\
  map Session.duration lateParts = [1799999; 2700000] /\
  sumDurations lateParts = 4499999 /\
  ~ exactSplit lateSession lateParts.
Proof.
  split; [vm_compute; discriminate|].
  split; [reflexivity|].
  split.
  { intros [|[|fuel]] parts H; vm_compute in H;
      [discriminate | injection H as <-; reflexivity ..]. }
  split; [reflexivity|].
  split; [reflexivity|].
  intros (_ & Hsum & _). vm_compute in Hsum. discriminate.
Qed.

(** * App.tsx: the session assembler *)

Lemma gtb_gt (a b : number) : gtb a b = true <-> (b < a)%Qc.
Proof. unfold gtb. apply ltb_lt. Qed.

Lemma geb_ge (a b : number) : geb a b = true <-> (b <= a)%Qc.
Proof. unfold geb. apply leb_le. Qed.

Lemma handleEndSession_eq (selectedId : string) (now : number) (timerState : TimerState) :
  handleEndSession selectedId now timerState =
  ((if gtb (totalFocused now timerState) (ofZ 1000)
    then [SetPendingSession (candidate selectedId now timerState)] else []),
   resetTimer timerState).
Proof. reflexivity. Qed.

Lemma handleEndSessionForCategory_eq (catId_ : string) (now : number)
    (timerState : TimerState) :
  handleEndSessionForCategory catId_ now timerState =
  handleEndSession catId_ now timerState.
Proof. reflexivity. Qed.


(** The specification's example of the threshold: a timer started at [t0]
    and ended 500 ms later emits nothing and is back in its default state. *)
Lemma threshold_discard (settings : Settings) (countdownMinutes : number) (t0 : Z) :
  run "default-1"
      [Toggle settings countdownMinutes (ofZ t0); EndSession (ofZ (t0 + 500))]
      defaultTimerState
  = ([], defaultTimerState).
Proof.
  cbn [run dispatch]. rewrite handleEndSession_eq.
  replace (gtb _ _) with false; [reflexivity|].
  symmetry. apply not_true_is_false. intros H.
  unfold totalFocused, workInCurrentInterval, toggleTimer in H.
  cbn in H. unfold orElse, sum in H. cbn [fold_left] in H.
  rewrite ofZ_eqb in H.
  destruct (t0 =? 0); rewrite ?ofZ_sub, ?ofZ_add in H;
    unfold gtb in H; rewrite ofZ_ltb in H; lia.
Qed.

(** * App.tsx: the timer engine *)

(** Equations between numbers, by the ring of the rationals. *)
Ltac qc_ring :=
  unfold add, sub, mul, number in *; change (ofZ 0) with (Q2Qc 0); ring.

(** What the handlers measure since [startTime] is the time elapsed since
    then, unless [startTime] is the timestamp 0: [startTime || now] takes
    that for absent, and the measure is 0. *)
Lemma elapsedSinceStart_live (now : number) (timerState : TimerState) :
  startTime timerState <> Some (ofZ 0) ->
  elapsedSinceStart now timerState = liveElapsed now timerState.
Proof.
  intros Hnz. unfold elapsedSinceStart, liveElapsed, orElse.
  destruct (startTime timerState) as [s|]; [|qc_ring].
  destruct (eqb s (ofZ 0)) eqn:Hs; [|reflexivity].
  apply eqb_eq in Hs. congruence.
Qed.

Lemma elapsedSinceStart_zero (now : number) (timerState : TimerState) :
  startTime timerState = Some (ofZ 0) ->
  elapsedSinceStart now timerState = ofZ 0.
Proof.
  intros Hz. unfold elapsedSinceStart, orElse. rewrite Hz.
  change (eqb (ofZ 0) (ofZ 0)) with true. cbn iota. qc_ring.
Qed.

Lemma orElse_set (v d : number) : v <> ofZ 0 -> orElse (Some v) d = v.
Proof.
  intros Hv. unfold orElse. apply eqb_neq in Hv. now rewrite Hv.
Qed.

Lemma ofZ_div_exact (q d : Z) : d <> 0 -> div (ofZ (q * d)) (ofZ d) = ofZ q.
Proof.
  intros Hd. rewrite <- ofZ_mul. apply Qcdiv_mult_l.
  intros H. apply ofZ_inj in H. contradiction.
Qed.

(** What the toggle does to a running flow timer whose [startTime] is a
    non-zero timestamp. *)
Lemma toggleTimer_flow_running (settings : Settings) (countdownMinutes now s : number)
    (timerState : TimerState) :
  mode timerState = FLOW ->
  status timerState = RUNNING ->
  startTime timerState = Some s ->
  s <> ofZ 0 ->
  toggleTimer settings countdownMinutes now timerState =
  {| mode := FLOW;
     status := BREAK;
     startTime := Some now;
     sessionStartTime := sessionStartTime timerState;
     accumulatedTime := ofZ 0;
     targetTime := targetTime timerState;
     breakRemaining := Some (div (sub now s) (flowDivisor settings));
     intervals := intervals timerState ++ [sub now s];
     completedTasks := completedTasks timerState |}.
Proof.
  intros Hm Hs Hst Hnz. unfold toggleTimer.
  rewrite Hs, Hm, Hst, (orElse_set s now Hnz). reflexivity.
Qed.

(** C3.  For a state with mode FLOW, status RUNNING and [startTime] set,
    the toggle at [now] gives status BREAK, [startTime = now],
    [accumulatedTime = 0], the old intervals with one interval appended and
    [breakRemaining = interval / flowDivisor].  The interval is
    [now - startTime] when [startTime] is not 0, as the specification has
    it.  When [startTime] is the timestamp 0 the interval is 0, whatever
    [now] is: [startTime || now] takes that timestamp for absent. *)
Theorem toggleTimer_flow_to_break (settings : Settings)
    (countdownMinutes now s : number) (timerState : TimerState) :
  mode timerState = FLOW ->
  status timerState = RUNNING ->
  startTime timerState = Some s ->
  let next := toggleTimer settings countdownMinutes now timerState in
  let interval := if eqb s (ofZ 0) then ofZ 0 else sub now s in
  status next = BREAK /\
  intervals next = intervals timerState ++ [interval] /\
  breakRemaining next = Some (div interval (flowDivisor settings)) /\
  startTime next = Some now /\
  accumulatedTime next = ofZ 0 /\
  (s <> ofZ 0 -> interval = sub now s) /\
  (s = ofZ 0 -> interval = ofZ 0).
Proof.
  intros Hm Hs Hst next interval. subst next interval.
  destruct (eqb s (ofZ 0)) eqn:Hz.
  - apply eqb_eq in Hz. subst s.
    unfold toggleTimer. rewrite Hs, Hm.
    fold (elapsedSinceStart now timerState).
    rewrite (elapsedSinceStart_zero now timerState Hst).
    cbn. repeat split. intros H. now contradiction H.
  - apply eqb_neq in Hz.
    rewrite (toggleTimer_flow_running _ _ _ s) by assumption.
    cbn. repeat split. intros H. contradiction.
Qed.

Lemma toggleTimer_flow_to_break_witness :
  let timerState := flowRunningSince (ofZ 0) in
  let next := toggleTimer defaultSettings (ofZ 25) (ofZ 5000) timerState in
  status next = BREAK /\
  intervals next = intervals timerState ++ [ofZ 0] /\
  breakRemaining next = Some (div (ofZ 0) (flowDivisor defaultSettings)) /\
  startTime next = Some (ofZ 5000) /\
  accumulatedTime next = ofZ 0.
Proof.
  cbn zeta.
  destruct (toggleTimer_flow_to_break defaultSettings (ofZ 25) (ofZ 5000) (ofZ 0)
              (flowRunningSince (ofZ 0)) eq_refl eq_refl eq_refl)
    as (H1 & H2 & H3 & H4 & H5 & _).
  repeat split; assumption.
Defined.

(** The specification's flow round trip, for a start at a non-zero [t0]:
    toggling 5000 ms later with divisor 5 gives [intervals = [5000]],
    [breakRemaining = 1000], status BREAK and [startTime = t0 + 5000]. *)
Lemma flow_round_trip (countdownMinutes : number) (t0 : Z) :
  t0 <> 0 ->
  let next :=
    snd (run "default-1"
           [Toggle defaultSettings countdownMinutes (ofZ t0);
            Toggle defaultSettings countdownMinutes (ofZ (t0 + 5000))]
           defaultTimerState) in
  intervals next = [ofZ 5000] /\
  breakRemaining next = Some (ofZ 1000) /\
  status next = BREAK /\
  startTime next = Some (ofZ (t0 + 5000)).
Proof.
  intros Ht0. cbn [run dispatch snd].
  assert (Hnz : ofZ t0 <> ofZ 0) by (intros H; apply ofZ_inj in H; contradiction).
  rewrite (toggleTimer_flow_running _ _ _ (ofZ t0)); try reflexivity; try assumption.
  cbn. rewrite ofZ_sub.
  replace (t0 + 5000 - t0) with 5000 by lia.
  repeat split. f_equal. apply (ofZ_div_exact 1000 5). discriminate.
Qed.

(** C3 as the specification states it fails when [startTime] is the
    timestamp 0, which [startTime || now] takes for absent: the interval
    appended is 0, not [now - startTime], also on the specification's own
    example with [t0 = 0]. *)
Lemma toggleTimer_zero_startTime :
  let timerState := flowRunningSince (ofZ 0) in
  let next := toggleTimer defaultSettings (ofZ 25) (ofZ 5000) timerState in
  mode timerState = FLOW /\
  status timerState = RUNNING /\
  startTime timerState = Some (ofZ 0) /\
  timerState = snd (run "default-1" [Toggle defaultSettings (ofZ 25) (ofZ 0)]
                      defaultTimerState) /\
  intervals next = [ofZ 0] /\
  intervals next <> intervals timerState ++ [sub (ofZ 5000) (ofZ 0)] /\
  breakRemaining next = Some (ofZ 0) /\
  breakRemaining next <> Some (ofZ 1000).
Proof.
  cbn zeta.
  assert (Hi : intervals (toggleTimer defaultSettings (ofZ 25) (ofZ 5000)
                            (flowRunningSince (ofZ 0))) = [ofZ 0]).
  { cbn. rewrite (ofZ_sub 5000 5000). reflexivity. }
  assert (Hb : breakRemaining (toggleTimer defaultSettings (ofZ 25) (ofZ 5000)
                                 (flowRunningSince (ofZ 0))) = Some (ofZ 0)).
  { cbn. f_equal. apply Qc_is_canon. reflexivity. }
  repeat split; try assumption.
  - rewrite Hi. cbn. rewrite ofZ_sub. intros H.
    assert (H' : ofZ 0 = ofZ (5000 - 0)) by congruence.
    apply ofZ_inj in H'. discriminate.
  - rewrite Hb. intros H.
    assert (H' : ofZ 0 = ofZ 1000) by congruence.
    apply ofZ_inj in H'. discriminate.
Qed.

Lemma truthy_set (v : number) : v <> ofZ 0 -> truthy (Some v) = true.
Proof.
  intros Hv. unfold truthy. apply eqb_neq in Hv. now rewrite Hv.
Qed.

(** The tick of a running countdown that has reached a non-zero target. *)
Lemma tick_countdown_reached (catId_ : string) (now target : number)
    (timerState : TimerState) :
  mode timerState = COUNTDOWN ->
  status timerState = RUNNING ->
  targetTime timerState = Some target ->
  target <> ofZ 0 ->
  (target <= add (accumulatedTime timerState) (elapsedSinceStart now timerState))%Qc ->
  tick catId_ now timerState = handleCompleteForCategory catId_ now timerState.
Proof.
  intros Hm Hs Ht Hnz Hge. unfold tick.
  rewrite Hs, Hm, Ht, (truthy_set target Hnz).
  apply geb_ge in Hge. unfold elapsedSinceStart in Hge. now rewrite Hge.
Qed.

(** A countdown whose target is 0 is left alone by the tick, which tests
    [timerState.targetTime] for truth. *)
Lemma tick_countdown_zero_target (catId_ : string) (now : number)
    (timerState : TimerState) :
  mode timerState = COUNTDOWN ->
  status timerState = RUNNING ->
  targetTime timerState = Some (ofZ 0) ->
  tick catId_ now timerState = ([], timerState).
Proof.
  intros Hm Hs Ht. unfold tick. rewrite Hs, Hm, Ht. reflexivity.
Qed.

(** C4 (as amended).  For a state with mode COUNTDOWN, status RUNNING and
    [targetTime] set.  When the target is not 0 and [startTime] is not the
    timestamp 0: if [accumulatedTime] plus the live elapsed time
    ([now - startTime], nothing when [startTime] is absent) has reached the
    target, the tick at [now] plays the notification and then does exactly
    what End-Session does at [now], the same candidate decision and the
    same reset state.  When the target is 0 the tick never completes the
    countdown: it changes nothing and has no effect, whatever the time. *)
Theorem tick_countdown_completes (catId_ : string) (now target : number)
    (timerState : TimerState) :
  mode timerState = COUNTDOWN ->
  status timerState = RUNNING ->
  targetTime timerState = Some target ->
  (target <> ofZ 0 ->
   startTime timerState <> Some (ofZ 0) ->
   (target <= add (accumulatedTime timerState) (liveElapsed now timerState))%Qc ->
   tick catId_ now timerState =
   (PlayNotification :: fst (handleEndSession catId_ now timerState),
    snd (handleEndSession catId_ now timerState))) /\
  (target = ofZ 0 ->
   tick catId_ now timerState = ([], timerState) /\
   status (snd (tick catId_ now timerState)) = RUNNING).
Proof.
  intros Hm Hs Ht. split.
  - intros Hnz Hstart Hge.
    rewrite <- (elapsedSinceStart_live now timerState Hstart) in Hge.
    rewrite (tick_countdown_reached _ _ target) by assumption.
    reflexivity.
  - intros ->. rewrite (tick_countdown_zero_target _ _ _ Hm Hs Ht).
    split; [reflexivity | exact Hs].
Qed.

Lemma tick_countdown_completes_witness :
  tick "default-1" (ofZ 61000) (countdownRunningSince (ofZ 1000) (ofZ 60000)) =
  (PlayNotification ::
     fst (handleEndSession "default-1" (ofZ 61000)
            (countdownRunningSince (ofZ 1000) (ofZ 60000))),
   snd (handleEndSession "default-1" (ofZ 61000)
          (countdownRunningSince (ofZ 1000) (ofZ 60000)))).
Proof.
  apply (proj1 (tick_countdown_completes "default-1" (ofZ 61000) (ofZ 60000)
                  (countdownRunningSince (ofZ 1000) (ofZ 60000))
                  eq_refl eq_refl eq_refl)).
  - intros H. apply ofZ_inj in H. discriminate.
  - intros H. change (Some (ofZ 1000) = Some (ofZ 0)) in H.
    assert (H' : ofZ 1000 = ofZ 0) by congruence.
    apply ofZ_inj in H'. discriminate.
  - vm_compute. discriminate.
Defined.

(** The specification's countdown example: a countdown of one minute
    started at a non-zero [t0] is completed by the tick at
    [t0 + 60000 + late], with a candidate of [60000 + late] ms of focus. *)
Lemma countdown_auto_complete (t0 late : Z) :
  t0 <> 0 ->
  0 <= late ->
  let started :=
    snd (run "default-1" [SetMode COUNTDOWN; Toggle defaultSettings (ofZ 1) (ofZ t0)]
           defaultTimerState) in
  targetTime started = Some (ofZ 60000) /\
  exists p,
    tick "default-1" (ofZ (t0 + 60000 + late)) started =
      ([PlayNotification; SetPendingSession p], setMode COUNTDOWN defaultTimerState) /\
    duration p = ofZ (60000 + late).
Proof.
  intros Ht0 Hlate. cbn [run dispatch snd].
  assert (Hnz : ofZ t0 <> ofZ 0) by (intros H; apply ofZ_inj in H; contradiction).
  set (started := toggleTimer defaultSettings (ofZ 1) (ofZ t0)
                    (setMode COUNTDOWN defaultTimerState)).
  assert (Htarget : targetTime started = Some (ofZ 60000)).
  { cbn. unfold orElse. now rewrite !ofZ_mul. }
  assert (Hwork : elapsedSinceStart (ofZ (t0 + 60000 + late)) started
                  = ofZ (60000 + late)).
  { unfold elapsedSinceStart. cbn [started toggleTimer setMode defaultTimerState
      status mode startTime].
    rewrite (orElse_set _ _ Hnz), ofZ_sub. f_equal. lia. }
  split; [exact Htarget|].
  exists (candidate "default-1" (ofZ (t0 + 60000 + late)) started).
  assert (Hfocus : totalFocused (ofZ (t0 + 60000 + late)) started = ofZ (60000 + late)).
  { unfold totalFocused, workInCurrentInterval.
    change (status started) with RUNNING.
    change (intervals started) with (@nil number).
    change (accumulatedTime started) with (ofZ 0).
    unfold elapsedSinceStart in Hwork. rewrite Hwork.
    unfold sum. cbn [fold_left]. rewrite !ofZ_add. f_equal. lia. }
  split; [|exact Hfocus].
  rewrite (tick_countdown_reached _ _ (ofZ 60000)).
  - unfold handleCompleteForCategory.
    rewrite handleEndSessionForCategory_eq, handleEndSession_eq, Hfocus.
    unfold gtb. rewrite ofZ_ltb.
    replace (1000 <? 60000 + late) with true by (symmetry; apply Z.ltb_lt; lia).
    reflexivity.
  - reflexivity.
  - reflexivity.
  - exact Htarget.
  - intros H. apply ofZ_inj in H. discriminate.
  - rewrite Hwork. change (accumulatedTime started) with (ofZ 0).
    rewrite ofZ_add. apply leb_le. rewrite ofZ_leb.
    apply Z.leb_le. lia.
Qed.

(** C4 as the specification states it fails when [targetTime] is set to
    0, as it is when the countdown is started with 0 minutes entered: the
    tick tests [timerState.targetTime] for truth and never completes such a
    countdown, although the elapsed time has reached the target.  It also
    fails for a countdown started at the timestamp 0, whose live elapsed
    time the tick takes to be 0: one minute later [now - startTime] has
    reached the target of 60000 ms and the tick does nothing. *)
Lemma tick_zero_target_never_completes :
  let started :=
    snd (run "default-1" [SetMode COUNTDOWN; Toggle defaultSettings (ofZ 0) (ofZ 1000)]
           defaultTimerState) in
  let now := ofZ 2000 in
  let startedAtZero := countdownRunningSince (ofZ 0) (ofZ 60000) in
  (mode started = COUNTDOWN /\
   status started = RUNNING /\
   targetTime started = Some (ofZ 0) /\
   startTime started = Some (ofZ 1000) /\
   (ofZ 0 <= add (accumulatedTime started) (sub now (ofZ 1000)))%Qc /\
   tick "default-1" now started = ([], started) /\
   status (snd (tick "default-1" now started)) = RUNNING /\
   status (snd (handleEndSession "default-1" now started)) = IDLE) /\
  (startedAtZero =
     snd (run "default-1" [SetMode COUNTDOWN; Toggle defaultSettings (ofZ 1) (ofZ 0)]
            defaultTimerState) /\
   (ofZ 60000 <=
      add (accumulatedTime startedAtZero) (sub (ofZ 60000) (ofZ 0)))%Qc /\
   tick "default-1" (ofZ 60000) startedAtZero = ([], startedAtZero) /\
   status (snd (tick "default-1" (ofZ 60000) startedAtZero)) = RUNNING).
Proof.
  cbn zeta. split.
  - repeat split; try reflexivity. vm_compute. discriminate.
  - split.
    + unfold countdownRunningSince. cbn. unfold orElse.
      rewrite !ofZ_mul. reflexivity.
    + repeat split; try reflexivity. vm_compute. discriminate.
Qed.

(** While the allowance has not run out the tick leaves a break alone. *)
Lemma tick_break_continues (catId_ : string) (now remaining : number)
    (timerState : TimerState) :
  status timerState = BREAK ->
  breakRemaining timerState = Some remaining ->
  (ofZ 0 < sub remaining (elapsedSinceStart now timerState))%Qc ->
  tick catId_ now timerState = ([], timerState).
Proof.
  intros Hs Hb Hlt. unfold tick. rewrite Hs, Hb.
  apply ltb_lt in Hlt. unfold ltb, elapsedSinceStart in Hlt.
  apply negb_true_iff in Hlt. unfold leb. now rewrite Hlt.
Qed.

(** C6.  For a state with status BREAK and [breakRemaining] set.  When
    [startTime] is not the timestamp 0 and [breakRemaining] less the time
    elapsed since [startTime] is at most 0, the tick plays the notification
    and nothing else (no session record), sets the status to IDLE and
    clears [startTime] and [breakRemaining]; every other field is as
    before.  When [startTime] is the timestamp 0 the tick takes the elapsed
    time to be 0, [startTime || now] taking that timestamp for absent: a
    break with a positive allowance then never expires, whatever the
    time. *)
Theorem tick_break_expiry (catId_ : string) (now remaining : number)
    (timerState : TimerState) :
  status timerState = BREAK ->
  breakRemaining timerState = Some remaining ->
  (startTime timerState <> Some (ofZ 0) ->
   (sub remaining (liveElapsed now timerState) <= ofZ 0)%Qc ->
   let effects := fst (tick catId_ now timerState) in
   let next := snd (tick catId_ now timerState) in
   effects = [PlayNotification] /\
   ~ emitsSession effects /\
   status next = IDLE /\
   startTime next = None /\
   breakRemaining next = None /\
   mode next = mode timerState /\
   sessionStartTime next = sessionStartTime timerState /\
   accumulatedTime next = accumulatedTime timerState /\
   targetTime next = targetTime timerState /\
   intervals next = intervals timerState /\
   completedTasks next = completedTasks timerState) /\
  (startTime timerState = Some (ofZ 0) ->
   (ofZ 0 < remaining)%Qc ->
   tick catId_ now timerState = ([], timerState) /\
   status (snd (tick catId_ now timerState)) = BREAK).
Proof.
  intros Hs Hb. split.
  - intros Hstart Hle effects next. subst effects next.
    rewrite <- (elapsedSinceStart_live now timerState Hstart) in Hle.
    apply leb_le in Hle. unfold elapsedSinceStart in Hle.
    unfold tick. rewrite Hs, Hb, Hle. cbn.
    repeat split.
    intros [p [H | []]]. discriminate.
  - intros Hzero Hpos.
    assert (Hcont : tick catId_ now timerState = ([], timerState)).
    { apply (tick_break_continues catId_ now remaining); try assumption.
      rewrite (elapsedSinceStart_zero now timerState Hzero).
      replace (sub remaining (ofZ 0)) with remaining by qc_ring.
      exact Hpos. }
    rewrite Hcont. split; [reflexivity | exact Hs].
Qed.

(** The break of [breakSinceZero] is reached with a clock that reads 0
    at the start and at the stop; two minutes later the minute of the break
    is long over and the tick still leaves it running. *)
Lemma tick_break_expiry_witness :
  breakSinceZero =
    snd (run "default-1"
           [Toggle defaultSettings (ofZ 25) (ofZ 0);
            Toggle defaultSettings (ofZ 25) (ofZ 0);
            ExtendBreak (ofZ 60000)]
           defaultTimerState) /\
  (sub (ofZ 60000) (sub (ofZ 120000) (ofZ 0)) <= ofZ 0)%Qc /\
  tick "default-1" (ofZ 120000) breakSinceZero = ([], breakSinceZero) /\
  status (snd (tick "default-1" (ofZ 120000) breakSinceZero)) = BREAK.
Proof.
  split; [|split].
  - unfold breakSinceZero. cbn [run dispatch snd]. unfold extendBreak. cbn.
    f_equal; repeat f_equal; apply Qc_is_canon; reflexivity.
  - vm_compute. discriminate.
  - apply (proj2 (tick_break_expiry "default-1" (ofZ 120000) (ofZ 60000)
                    breakSinceZero eq_refl eq_refl)).
    + reflexivity.
    + reflexivity.
Defined.

(** C7.  The tick leaves a state whose status is IDLE as it is, and has
    no effect. *)
Theorem tick_idle_unchanged (catId_ : string) (now : number) (timerState : TimerState) :
  status timerState = IDLE ->
  tick catId_ now timerState = ([], timerState).
Proof.
  intros Hs. unfold tick. now rewrite Hs.
Qed.

(** A loop over categories that the tick leaves alone changes nothing. *)
Lemma tickLoop_unchanged (now : number) (categoryData : list (string * TimerState)) :
  Forall (fun entry => tick (fst entry) now (snd entry) = ([], snd entry))
         categoryData ->
  tickLoop now categoryData = ([], [], categoryData).
Proof.
  induction 1 as [|[catId_ timerState] rest Hs _ IH]; [reflexivity|].
  cbn [tickLoop]. cbn [fst snd] in Hs. rewrite Hs, IH. reflexivity.
Qed.

(** The whole tick, over categories that are all IDLE, changes nothing. *)
Lemma tickAll_idle_unchanged (now : number) (categoryData : list (string * TimerState)) :
  Forall (fun entry => status (snd entry) = IDLE) categoryData ->
  tickAll now categoryData = ([], categoryData).
Proof.
  intros H. unfold tickAll. rewrite tickLoop_unchanged; [reflexivity|].
  eapply Forall_impl; [|exact H].
  intros [catId_ timerState] Hs. cbn [fst snd] in *. unfold tick. now rewrite Hs.
Qed.

Lemma tick_idle_unchanged_witness :
  tick "default-1" (ofZ 1000) defaultTimerState = ([], defaultTimerState).
Proof.
  apply (tick_idle_unchanged "default-1" (ofZ 1000) defaultTimerState).
  reflexivity.
Defined.

(** C10.  Skip-break sets the status to IDLE and clears [startTime] and
    [breakRemaining], leaving every other field as it was; it has no effect
    besides, so no session record; and the Start that follows keeps the
    chain: the recorded intervals, the completed tasks and, where it was
    set, the chain's [sessionStartTime]. *)
Theorem skipBreak_frame (selectedId : string) (timerState : TimerState)
    (settings : Settings) (countdownMinutes now : number) :
  let effects := fst (dispatch selectedId SkipBreak timerState) in
  let next := snd (dispatch selectedId SkipBreak timerState) in
  let resumed := toggleTimer settings countdownMinutes now next in
  next = skipBreak timerState /\
  effects = [] /\
  ~ emitsSession effects /\
  status next = IDLE /\
  startTime next = None /\
  breakRemaining next = None /\
  mode next = mode timerState /\
  sessionStartTime next = sessionStartTime timerState /\
  accumulatedTime next = accumulatedTime timerState /\
  targetTime next = targetTime timerState /\
  intervals next = intervals timerState /\
  completedTasks next = completedTasks timerState /\
  status resumed = RUNNING /\
  intervals resumed = intervals timerState /\
  completedTasks resumed = completedTasks timerState /\
  sessionStartTime resumed = Some (orElse (sessionStartTime timerState) now) /\
  (truthy (sessionStartTime timerState) = true ->
   sessionStartTime resumed = sessionStartTime timerState).
Proof.
  cbn. repeat split.
  - intros [p []].
  - destruct (sessionStartTime timerState) as [v|]; cbn; [|discriminate].
    destruct (eqb v (ofZ 0)); [discriminate | reflexivity].
Qed.

Lemma skipBreak_frame_witness :
  let timerState := onBreakSince (ofZ 6000) (ofZ 5000) (ofZ 1000) in
  let resumed :=
    toggleTimer defaultSettings (ofZ 25) (ofZ 6500)
      (snd (dispatch "default-1" SkipBreak timerState)) in
  truthy (sessionStartTime timerState) = true /\
  sessionStartTime resumed = sessionStartTime timerState.
Proof.
  cbn zeta. split.
  - reflexivity.
  - apply (skipBreak_frame "default-1"
             (onBreakSince (ofZ 6000) (ofZ 5000) (ofZ 1000))
             defaultSettings (ofZ 25) (ofZ 6500)).
    reflexivity.
Defined.

(** * Invariants of the reachable states *)

Ltac split_cases :=
  repeat match goal with
         | |- context [match ?x with _ => _ end] => destruct x eqn:?
         end.

Ltac handler_cases :=
  cbn [dispatch snd fst];
  unfold tick, handleCompleteForCategory, handleBreakEndForCategory,
    handleEndSessionForCategory, handleEndSession, toggleTimer, resetTimer,
    skipBreak, extendBreak, setMode;
  split_cases; cbn [snd fst].

Lemma dispatch_startTimeInv (selectedId : string) (a : Action) (timerState : TimerState) :
  startTimeInv timerState ->
  startTimeInv (snd (dispatch selectedId a timerState)).
Proof.
  unfold startTimeInv. intros Hinv.
  destruct a; handler_cases;
    cbn [startTime status];
    repeat match goal with
           | H : status timerState = _ |- _ => rewrite H
           end;
    try exact Hinv;
    try (split; [intros H; congruence || (now left) || (now right)
                | intros [H | H]; congruence]).
Qed.

Lemma toggleTimer_countdown_intervals (settings : Settings)
    (countdownMinutes now : number) (timerState : TimerState) :
  mode timerState = COUNTDOWN ->
  intervals (toggleTimer settings countdownMinutes now timerState) =
  intervals timerState.
Proof.
  intros Hm. unfold toggleTimer. rewrite Hm.
  destruct (status timerState); reflexivity.
Qed.

Lemma dispatch_countdownInv (selectedId : string) (a : Action) (timerState : TimerState) :
  modeSwitchGuarded timerState a ->
  countdownInv timerState ->
  countdownInv (snd (dispatch selectedId a timerState)).
Proof.
  unfold countdownInv, modeSwitchGuarded. intros Hguard Hinv.
  destruct a as [settings cm now | now | | now | | ms | m].
  - cbn [dispatch snd]. intros Hm.
    assert (Hm' : mode timerState = COUNTDOWN).
    { revert Hm. unfold toggleTimer. split_cases; cbn [mode]; congruence. }
    rewrite toggleTimer_countdown_intervals by exact Hm'. auto.
  - reflexivity.
  - reflexivity.
  - handler_cases; cbn [mode intervals]; intros Hm;
      first [reflexivity | congruence | apply Hinv; congruence].
  - exact Hinv.
  - exact Hinv.
  - cbn [dispatch snd setMode mode intervals]. intros ->. now apply Hguard.
Qed.

Lemma run_cons (selectedId : string) (a : Action) (rest : list Action)
    (timerState : TimerState) :
  snd (run selectedId (a :: rest) timerState) =
  snd (run selectedId rest (snd (dispatch selectedId a timerState))).
Proof.
  cbn [run]. destruct (dispatch selectedId a timerState) as [effects next].
  cbn [snd]. now destruct (run selectedId rest next).
Qed.

Lemma reachable_run (allowed : TimerState -> Action -> Prop) (selectedId : string)
    (actions : list Action) :
  forall timerState,
    reachable allowed timerState ->
    allowedAlong allowed selectedId actions timerState ->
    reachable allowed (snd (run selectedId actions timerState)).
Proof.
  induction actions as [|a rest IH]; intros timerState Hr Hal.
  - exact Hr.
  - destruct Hal as [Ha Hrest]. rewrite run_cons. apply IH; [|exact Hrest].
    now apply reachable_dispatch.
Qed.

Lemma reachable_invariant (allowed : TimerState -> Action -> Prop)
    (P : TimerState -> Prop) :
  P defaultTimerState ->
  (forall selectedId a timerState,
     allowed timerState a -> P timerState ->
     P (snd (dispatch selectedId a timerState))) ->
  forall timerState, reachable allowed timerState -> P timerState.
Proof.
  intros Hinit Hstep timerState Hr.
  induction Hr as [|selectedId a timerState Hr IH Ha]; auto.
Qed.

(** C8.  Every event keeps the equivalence between [startTime] being set
    (non-null) and the status being RUNNING or BREAK, and so it holds in
    every state reachable from the default state. *)
Theorem startTime_set_iff_active (timerState : TimerState) :
  (forall selectedId a,
     startTimeInv timerState ->
     startTimeInv (snd (dispatch selectedId a timerState))) /\
  (reachable anyAction timerState ->
   (startTime timerState <> None <->
    (status timerState = RUNNING \/ status timerState = BREAK))).
Proof.
  split.
  - intros selectedId a. apply dispatch_startTimeInv.
  - revert timerState. apply (reachable_invariant anyAction startTimeInv).
    + unfold startTimeInv. cbn. split; [congruence | intros [H | H]; discriminate].
    + intros selectedId a ts _. apply dispatch_startTimeInv.
Qed.

Lemma startTime_set_iff_active_witness :
  let timerState := snd (run "default-1" switchAfterInterval defaultTimerState) in
  reachable anyAction timerState /\
  (startTime timerState <> None <->
   (status timerState = RUNNING \/ status timerState = BREAK)) /\
  startTimeInv (snd (dispatch "default-1" (Tick (ofZ 7000)) timerState)).
Proof.
  cbn zeta.
  assert (Hr : reachable anyAction
                 (snd (run "default-1" switchAfterInterval defaultTimerState))).
  { apply reachable_run; [apply reachable_default|]. cbn. unfold anyAction. tauto. }
  split; [exact Hr|].
  pose proof (startTime_set_iff_active
                (snd (run "default-1" switchAfterInterval defaultTimerState)))
    as [Hstep Hinv].
  split.
  - apply Hinv. exact Hr.
  - apply Hstep. unfold startTimeInv. apply Hinv. exact Hr.
Defined.

(** C5 (as amended).  In every state reachable from the default state by
    events among which the countdown button is pressed only while
    [intervals] is empty, mode COUNTDOWN implies that [intervals] is
    empty. *)
Theorem countdown_intervals_empty (timerState : TimerState) :
  reachable modeSwitchGuarded timerState ->
  mode timerState = COUNTDOWN ->
  intervals timerState = [].
Proof.
  revert timerState. apply (reachable_invariant modeSwitchGuarded countdownInv).
  - discriminate.
  - intros selectedId a ts. apply dispatch_countdownInv.
Qed.

Lemma countdown_intervals_empty_witness :
  let timerState :=
    snd (run "default-1"
           [SetMode COUNTDOWN; Toggle defaultSettings (ofZ 25) (ofZ 1000);
            Toggle defaultSettings (ofZ 25) (ofZ 6000)]
           defaultTimerState) in
  status timerState = PAUSED /\ intervals timerState = [].
Proof.
  cbn zeta. split; [reflexivity|].
  apply countdown_intervals_empty; [|reflexivity].
  apply reachable_run; [apply reachable_default|].
  cbn. unfold modeSwitchGuarded. repeat split; discriminate.
Defined.

(** C5 as the specification states it fails: the mode buttons only set
    [mode], so pressing Countdown during the break that follows a flow
    interval leaves a COUNTDOWN state with that interval recorded. *)
Lemma countdown_with_intervals :
  let timerState := snd (run "default-1" switchAfterInterval defaultTimerState) in
  reachable anyAction timerState /\
  mode timerState = COUNTDOWN /\
  intervals timerState = [ofZ 5000] /\
  intervals timerState <> [].
Proof.
  cbn zeta. split; [|split; [reflexivity|]].
  - apply reachable_run; [apply reachable_default|]. cbn. unfold anyAction. tauto.
  - assert (Hi : intervals (snd (run "default-1" switchAfterInterval defaultTimerState))
                 = [ofZ 5000]).
    { cbn. rewrite (ofZ_sub 6000 1000). reflexivity. }
    split; [exact Hi | rewrite Hi; discriminate].
Qed.

Lemma isInteger_add (a b : number) :
  isInteger a = true -> isInteger b = true -> isInteger (add a b) = true.
Proof.
  rewrite !isInteger_iff. intros [x ->] [y ->]. exists (x + y). apply ofZ_add.
Qed.

Lemma isInteger_sub (a b : number) :
  isInteger a = true -> isInteger b = true -> isInteger (sub a b) = true.
Proof.
  rewrite !isInteger_iff. intros [x ->] [y ->]. exists (x - y). apply ofZ_sub.
Qed.

Lemma isInteger_orElse (x : option number) (d : number) :
  wholeOption x -> isInteger d = true -> isInteger (orElse x d) = true.
Proof.
  destruct x as [v|]; cbn; [|auto].
  destruct (eqb v (ofZ 0)); auto.
Qed.

(** An integer divided by a non-zero integer is whole exactly when the
    divisor divides it. *)
Lemma isInteger_div (k d : Z) :
  d <> 0 ->
  isInteger (div (ofZ k) (ofZ d)) = true <-> (d | k).
Proof.
  intros Hd.
  assert (Hnz : ofZ d <> ofZ 0) by (intros H; apply ofZ_inj in H; contradiction).
  rewrite isInteger_iff. split.
  - intros [z Hz]. exists z.
    apply ofZ_inj. rewrite <- ofZ_mul, <- Hz.
    unfold mul, div. rewrite Qcmult_comm. symmetry. now apply Qcmult_div_r.
  - intros [z ->]. exists z. now apply ofZ_div_exact.
Qed.

Ltac whole_fields :=
  cbn [snd fst startTime sessionStartTime accumulatedTime targetTime intervals
       wholeOption];
  repeat split; auto using Forall_nil;
  try match goal with
      | H : ?x = _ |- wholeOption ?x => rewrite H; assumption
      end.

Lemma dispatch_wholeState (selectedId : string) (a : Action) (timerState : TimerState) :
  wholeInput timerState a ->
  wholeState timerState ->
  wholeState (snd (dispatch selectedId a timerState)).
Proof.
  unfold wholeState.
  intros Hin (Hst & Hsst & Hacc & Htg & Hiv).
  assert (H0 : isInteger (ofZ 0) = true) by apply isInteger_ofZ.
  assert (Hel : forall now, isInteger now = true ->
                  isInteger (sub now (orElse (startTime timerState) now)) = true).
  { intros now Hnow. apply isInteger_sub; [|apply isInteger_orElse]; assumption. }
  destruct a as [settings cm now | now | | now | | ms | m]; cbn [wholeInput] in Hin.
  - destruct Hin as [Hnow Hcm]. cbn [dispatch snd]. unfold toggleTimer.
    destruct (status timerState), (mode timerState);
      cbn [startTime sessionStartTime accumulatedTime targetTime intervals wholeOption];
      repeat split; auto using isInteger_orElse, isInteger_add.
    apply Forall_app. split; [assumption|]. constructor; auto.
  - handler_cases; whole_fields.
  - handler_cases; whole_fields.
  - handler_cases; whole_fields.
  - handler_cases; whole_fields.
  - handler_cases; whole_fields.
  - handler_cases; whole_fields.
Qed.

(** C9 (as amended).  In every state reachable from the default state by
    events with whole-millisecond clock readings and countdown lengths,
    [startTime], [sessionStartTime], [accumulatedTime], [targetTime] and
    every element of [intervals] are whole numbers of milliseconds.
    [breakRemaining] is stored unrounded: after the toggle of a running
    flow timer at a whole [now], with a non-zero whole divisor [d] and a
    non-zero [startTime = s], it is [(now - s) / d], a whole number exactly
    when [d] divides [now - s]. *)
Theorem stored_durations_whole (timerState : TimerState) :
  reachable wholeInput timerState ->
  wholeState timerState /\
  (forall (settings : Settings) (countdownMinutes : number) (now s d : Z),
     mode timerState = FLOW ->
     status timerState = RUNNING ->
     startTime timerState = Some (ofZ s) ->
     s <> 0 ->
     flowDivisor settings = ofZ d ->
     d <> 0 ->
     let next := toggleTimer settings countdownMinutes (ofZ now) timerState in
     breakRemaining next = Some (div (ofZ (now - s)) (ofZ d)) /\
     (wholeOption (breakRemaining next) <-> (d | now - s))).
Proof.
  intros Hr. split.
  - revert timerState Hr. apply (reachable_invariant wholeInput wholeState).
    + cbn. repeat split; auto.
    + intros selectedId a ts. apply dispatch_wholeState.
  - intros settings cm now s d Hm Hs Hst Hnz Hd Hdnz next. subst next.
    assert (Hnz' : ofZ s <> ofZ 0) by (intros H; apply ofZ_inj in H; contradiction).
    rewrite (toggleTimer_flow_running _ _ _ (ofZ s)) by assumption.
    cbn [breakRemaining wholeOption]. rewrite Hd, ofZ_sub.
    split; [reflexivity | now apply isInteger_div].
Qed.

Lemma stored_durations_whole_witness :
  let timerState :=
    snd (run "default-1" [Toggle defaultSettings (ofZ 25) (ofZ 1000)]
           defaultTimerState) in
  reachable wholeInput timerState /\
  wholeState timerState /\
  (wholeOption (breakRemaining (toggleTimer defaultSettings (ofZ 25) (ofZ 6000)
                                  timerState))
   <-> (5 | 6000 - 1000)).
Proof.
  cbn zeta.
  assert (Hr : reachable wholeInput
                 (snd (run "default-1" [Toggle defaultSettings (ofZ 25) (ofZ 1000)]
                         defaultTimerState))).
  { apply reachable_run; [apply reachable_default|].
    cbn. repeat split; vm_compute; reflexivity. }
  split; [exact Hr|].
  destruct (stored_durations_whole _ Hr) as [Hwhole Hbreak].
  split; [exact Hwhole|].
  apply (Hbreak defaultSettings (ofZ 25) 6000 1000 5);
    try reflexivity; discriminate.
Defined.

(** C9 as the specification states it fails for [breakRemaining]: a flow
    interval of 3 ms with the default divisor 5 stores a break of 3/5 ms. *)
Lemma breakRemaining_not_whole :
  let timerState := snd (run "default-1" shortInterval defaultTimerState) in
  reachable wholeInput timerState /\
  flowDivisor defaultSettings = ofZ 5 /\
  breakRemaining timerState = Some (div (ofZ 3) (ofZ 5)) /\
  isInteger (div (ofZ 3) (ofZ 5)) = false /\
  ~ wholeOption (breakRemaining timerState).
Proof.
  cbn zeta.
  assert (Hb : breakRemaining (snd (run "default-1" shortInterval defaultTimerState))
               = Some (div (ofZ 3) (ofZ 5))).
  { cbn. rewrite (ofZ_sub 1003 1000). reflexivity. }
  split; [|split; [reflexivity | split; [exact Hb | split; [reflexivity|]]]].
  - apply reachable_run; [apply reachable_default|].
    cbn. repeat split; vm_compute; reflexivity.
  - rewrite Hb. cbn [wholeOption]. vm_compute. discriminate.
Qed.


(** * utils.ts: more on the midnight splitter *)

(** The shape of a result, in any time zone. *)
Section SplitterShape.
Variable zone : Zone.
Variable genId : nat -> string.
Variable session : Session.Session.

Lemma dayParts_count (n : nat) :
  forall cs k, List.length (dayParts zone genId session n cs k) = n.
Proof. induction n; intros; simpl; [|rewrite IHn]; reflexivity. Qed.

(** A loop that has ended has pushed one part for every turn it took. *)
Lemma splitLoop_shape (end_ : Z) (fuel : nat) :
  forall (currentStart : Z) (sessions result : list Session.Session) (final : Z),
    splitLoop zone genId fuel session end_ currentStart sessions = Some (result, final) ->
    exists n : nat,
      result = sessions ++ dayParts zone genId session n currentStart (List.length sessions) /\
      final = advance zone n currentStart.
Proof.
  induction fuel as [|fuel IH]; intros cs acc result final H; cbn [splitLoop] in H;
    destruct (isSameDay zone cs end_) eqn:Hsame.
  - injection H as <- <-. exists O. rewrite app_nil_r. split; reflexivity.
  - discriminate.
  - injection H as <- <-. exists O. rewrite app_nil_r. split; reflexivity.
  - apply IH in H. destruct H as (n & Hres & Hfin).
    exists (S n). split.
    + rewrite Hres, length_app, <- app_assoc. cbn. now rewrite Nat.add_1_r.
    + exact Hfin.
Qed.

Lemma splitSessionByMidnight_shape (fuel : nat) (parts : list Session.Session) :
  splitSessionByMidnight zone genId fuel session = Some parts ->
  parts = [session] \/
  exists n : nat,
    parts =
      dayParts zone genId session n (Session.startTime session) 0 ++
      [withSpan session (genId n) (advance zone n (Session.startTime session))
         (Session.endTime session)].
Proof.
  unfold splitSessionByMidnight. intros H.
  destruct (isSameDay zone (Session.startTime session) (Session.endTime session)).
  - left. now injection H as <-.
  - right.
    destruct (splitLoop zone genId fuel session (Session.endTime session)
                (Session.startTime session) []) as [[result final]|] eqn:Hloop;
      [|discriminate].
    apply splitLoop_shape in Hloop. destruct Hloop as (n & Hres & Hfin).
    cbn [app List.length] in Hres. subst result final.
    injection H as <-. exists n. now rewrite dayParts_count.
Qed.

Lemma dayParts_sameOtherFields (n : nat) :
  forall cs k, Forall (sameOtherFields session) (dayParts zone genId session n cs k).
Proof.
  induction n as [|n IH]; intros cs k; cbn [dayParts]; constructor; [|apply IH].
  unfold sameOtherFields. cbn. repeat split.
Qed.

Lemma split_nonempty_fields (fuel : nat) (saved : list Session.Session) :
  splitSessionByMidnight zone genId fuel session = Some saved ->
  saved <> [] /\ Forall (sameOtherFields session) saved.
Proof.
  intros H. apply splitSessionByMidnight_shape in H.
  destruct H as [-> | (n & ->)].
  - split; [discriminate|]. constructor; [|constructor].
    unfold sameOtherFields. repeat split.
  - split; [intros Heq; apply app_eq_nil in Heq; destruct Heq; discriminate|].
    apply Forall_app. split; [apply dayParts_sameOtherFields|].
    constructor; [|constructor]. unfold sameOtherFields. cbn. repeat split.
Qed.

(** X1.  In any time zone, every record the splitter returns carries the
    category, total elapsed time, session start, notes, mode, flag, rating,
    tags, distractions, distraction note and completed tasks of the session
    it was given. *)
Theorem splitSessionByMidnight_copies_fields (fuel : nat)
    (parts : list Session.Session) :
  splitSessionByMidnight zone genId fuel session = Some parts ->
  Forall (sameOtherFields session) parts.
Proof.
  intros H. apply splitSessionByMidnight_shape in H.
  destruct H as [-> | (n & ->)].
  - constructor; [|constructor]. unfold sameOtherFields. repeat split.
  - apply Forall_app. split; [apply dayParts_sameOtherFields|].
    constructor; [|constructor]. unfold sameOtherFields. cbn. repeat split.
Qed.

(** On a day that lasts longer than 24 hours the walk stands still:
    24 hours after its midnight is the same day. *)
Lemma splitLoop_stuck (end_ currentStart : Z) (fuel : nat) :
  forall sessions : list Session.Session,
    isSameDay zone currentStart end_ = false ->
    startOfDay zone (currentStart + 86400000) = currentStart ->
    splitLoop zone genId fuel session end_ currentStart sessions = None.
Proof.
  induction fuel as [|fuel IH]; intros acc Hdiff Hstuck; cbn [splitLoop];
    rewrite Hdiff; [reflexivity|].
  rewrite Hstuck. apply IH; assumption.
Qed.

(** X30.  In a time zone that changes its offset the splitter can fail
    to return.  When the local day found 24 hours after the start of the
    session lasts longer than 24 hours, so that 24 hours after its midnight
    is still that day, and the session ends on a later day, the loop never
    ends: no amount of fuel gives a result. *)
Theorem splitSessionByMidnight_long_day_diverges (fuel : nat) :
  let start := Session.startTime session in
  let end_ := Session.endTime session in
  let midnight := startOfDay zone (start + 86400000) in
  isSameDay zone start end_ = false ->
  isSameDay zone midnight end_ = false ->
  startOfDay zone (midnight + 86400000) = midnight ->
  splitSessionByMidnight zone genId fuel session = None.
Proof.
  intros start end_ midnight Hstart Hmid Hstuck.
  unfold splitSessionByMidnight. fold start end_. rewrite Hstart.
  destruct fuel as [|fuel]; cbn [splitLoop]; rewrite Hstart; [reflexivity|].
  fold midnight. now rewrite splitLoop_stuck.
Qed.

End SplitterShape.

Lemma splitSessionByMidnight_long_day_diverges_witness :
  Session.startTime autumnSession <= Session.endTime autumnSession /\
  splitSessionByMidnight autumnZone constId 1000 autumnSession = None.
Proof.
  split; [discriminate|].
  apply (splitSessionByMidnight_long_day_diverges autumnZone constId autumnSession 1000).
  - reflexivity.
  - reflexivity.
  - reflexivity.
Defined.

(** In a zone at a fixed offset. *)
Section SplitterResults.
Variable tz : Z.
Variable genId : nat -> string.
Variable session : Session.Session.

(** Whatever the fuel, a loop that has ended has pushed one part per
    midnight between [currentStart] and [end_]. *)
Lemma splitLoop_inv (end_ : Z) (fuel : nat) :
  forall (currentStart : Z) (sessions result : list Session.Session) (final : Z),
    splitLoop (fixedZone tz) genId fuel session end_ currentStart sessions = Some (result, final) ->
    exists n : nat,
      dayIndex tz end_ = dayIndex tz currentStart + Z.of_nat n /\
      result = sessions ++ dayParts (fixedZone tz) genId session n currentStart (List.length sessions) /\
      final = advance (fixedZone tz) n currentStart.
Proof.
  induction fuel as [|fuel IH]; intros cs acc result final H; cbn [splitLoop] in H;
    destruct (isSameDay (fixedZone tz) cs end_) eqn:Hsame.
  - injection H as <- <-. exists O. apply isSameDay_iff in Hsame.
    rewrite app_nil_r. cbn. repeat split. lia.
  - discriminate.
  - injection H as <- <-. exists O. apply isSameDay_iff in Hsame.
    rewrite app_nil_r. cbn. repeat split. lia.
  - apply IH in H. destruct H as (n & Hday & Hres & Hfin).
    exists (S n). rewrite dayIndex_next in Hday. split; [lia|]. split.
    + rewrite Hres, length_app, <- app_assoc. cbn. now rewrite Nat.add_1_r.
    + exact Hfin.
Qed.

(** The two shapes of a result of the splitter. *)
Lemma splitSessionByMidnight_inv (fuel : nat) (parts : list Session.Session) :
  splitSessionByMidnight (fixedZone tz) genId fuel session = Some parts ->
  (isSameDay (fixedZone tz) (Session.startTime session) (Session.endTime session) = true /\
   parts = [session]) \/
  (isSameDay (fixedZone tz) (Session.startTime session) (Session.endTime session) = false /\
   exists n : nat,
     (0 < n)%nat /\
     dayIndex tz (Session.endTime session) =
       dayIndex tz (Session.startTime session) + Z.of_nat n /\
     parts =
       dayParts (fixedZone tz) genId session n (Session.startTime session) 0 ++
       [withSpan session (genId n) (advance (fixedZone tz) n (Session.startTime session))
          (Session.endTime session)]).
Proof.
  unfold splitSessionByMidnight. intros H.
  destruct (isSameDay (fixedZone tz) (Session.startTime session) (Session.endTime session)) eqn:Hsame.
  - left. split; [reflexivity|]. now injection H as <-.
  - right. split; [reflexivity|].
    destruct (splitLoop (fixedZone tz) genId fuel session (Session.endTime session)
                (Session.startTime session) []) as [[result final]|] eqn:Hloop;
      [|discriminate].
    apply splitLoop_inv in Hloop. destruct Hloop as (n & Hday & Hres & Hfin).
    cbn [app List.length] in Hres. subst result final.
    injection H as <-. exists n. rewrite dayParts_length.
    repeat split; try assumption.
    destruct n; [|lia].
    assert (isSameDay (fixedZone tz) (Session.startTime session) (Session.endTime session) = true)
      by (apply isSameDay_iff; lia).
    congruence.
Qed.

(** X2.  In a zone at a fixed offset, given a record whose end falls on
    an earlier local day than its start, the splitter's loop never ends: no
    amount of fuel gives a result. *)
Theorem splitSessionByMidnight_backward_diverges (fuel : nat) :
  Session.endTime session < Session.startTime session ->
  isSameDay (fixedZone tz) (Session.startTime session) (Session.endTime session) = false ->
  splitSessionByMidnight (fixedZone tz) genId fuel session = None.
Proof.
  intros Hlt Hdiff. unfold splitSessionByMidnight. rewrite Hdiff.
  rewrite splitLoop_diverges; [reflexivity|].
  assert (Hle : dayIndex tz (Session.endTime session)
                <= dayIndex tz (Session.startTime session))
    by (apply dayIndex_mono; lia).
  assert (Hne : dayIndex tz (Session.startTime session)
                <> dayIndex tz (Session.endTime session)).
  { intros Heq. apply isSameDay_iff in Heq. congruence. }
  lia.
Qed.

(** X3.  In a zone at a fixed offset splitting is idempotent: a record
    the splitter has returned lies within one local day, and the splitter
    returns it as it is. *)
Theorem splitSessionByMidnight_parts_stable (fuel fuel' : nat)
    (parts : list Session.Session) (p : Session.Session) :
  splitSessionByMidnight (fixedZone tz) genId fuel session = Some parts ->
  In p parts ->
  splitSessionByMidnight (fixedZone tz) genId fuel' p = Some [p].
Proof.
  intros H Hin.
  assert (Hday : isSameDay (fixedZone tz) (Session.startTime p) (Session.endTime p) = true).
  { apply splitSessionByMidnight_inv in H.
    destruct H as [[Hsame ->] | [_ (n & Hn & Hidx & ->)]].
    - destruct Hin as [<- | []]. exact Hsame.
    - apply in_app_or in Hin. destruct Hin as [Hin | [<- | []]].
      + pose proof (dayParts_Forall tz genId session n (Session.startTime session) 0)
          as Hall.
        rewrite Forall_forall in Hall. destruct (Hall p Hin) as (_ & Hend & _).
        rewrite Hend. apply endOfDay_sameDay.
      + cbn. apply isSameDay_iff. rewrite advance_dayIndex. lia. }
  unfold splitSessionByMidnight. now rewrite Hday.
Qed.

End SplitterResults.

Lemma splitSessionByMidnight_copies_fields_witness :
  Forall (sameOtherFields lateSession) lateParts.
Proof.
  apply (splitSessionByMidnight_copies_fields (fixedZone 0) constId lateSession 1
           lateParts).
  reflexivity.
Defined.

Lemma splitSessionByMidnight_backward_diverges_witness :
  splitSessionByMidnight (fixedZone 0) constId 1000 backwardSession = None.
Proof.
  apply (splitSessionByMidnight_backward_diverges 0 constId backwardSession 1000).
  - reflexivity.
  - reflexivity.
Defined.

Lemma splitSessionByMidnight_parts_stable_witness :
  splitSessionByMidnight (fixedZone 0) constId 0
    (withSpan lateSession "id" 84600000 86399999)
  = Some [withSpan lateSession "id" 84600000 86399999].
Proof.
  apply (splitSessionByMidnight_parts_stable 0 constId lateSession 1 0 lateParts).
  - reflexivity.
  - left. reflexivity.
Defined.

(** * utils.ts: daily statistics *)

Section DailyStats.
Variable tz : Z.
Variable genId : nat -> string.

Lemma fold_left_durations (xs : list Session.Session) :
  forall acc : Z,
    fold_left (fun a s => a + Session.duration s) xs acc =
    acc + fold_left (fun a s => a + Session.duration s) xs 0.
Proof.
  induction xs as [|x xs IH]; intros acc; cbn [fold_left]; [lia|].
  rewrite IH, (IH (0 + Session.duration x)). lia.
Qed.

Lemma getDailyStats_cons (s : Session.Session) (xs : list Session.Session) (day : Z) :
  getDailyStats (fixedZone tz) (s :: xs) day =
  (if isSameDay (fixedZone tz) (Session.startTime s) day then Session.duration s else 0)
  + getDailyStats (fixedZone tz) xs day.
Proof.
  unfold getDailyStats. cbn [filter].
  destruct (isSameDay (fixedZone tz) (Session.startTime s) day); cbn [fold_left]; [|lia].
  now rewrite fold_left_durations.
Qed.

Lemma getDailyStats_app (xs ys : list Session.Session) (day : Z) :
  getDailyStats (fixedZone tz) (xs ++ ys) day = getDailyStats (fixedZone tz) xs day + getDailyStats (fixedZone tz) ys day.
Proof.
  induction xs as [|x xs IH]; [reflexivity|].
  cbn [app]. rewrite !getDailyStats_cons, IH. lia.
Qed.

Lemma getDailyStats_other_days (xs : list Session.Session) (day : Z) :
  Forall (fun p => dayIndex tz (Session.startTime p) <> dayIndex tz day) xs ->
  getDailyStats (fixedZone tz) xs day = 0.
Proof.
  induction 1 as [|x xs Hx _ IH]; [reflexivity|].
  rewrite getDailyStats_cons, IH.
  replace (isSameDay (fixedZone tz) (Session.startTime x) day) with false; [reflexivity|].
  symmetry. apply not_true_is_false. now rewrite isSameDay_iff.
Qed.

Lemma dayParts_days (session : Session.Session) (n : nat) :
  forall cs k,
    Forall (fun p =>
              dayIndex tz cs <= dayIndex tz (Session.startTime p)
                < dayIndex tz cs + Z.of_nat n)
           (dayParts (fixedZone tz) genId session n cs k).
Proof.
  induction n as [|n IH]; intros cs k; cbn [dayParts]; constructor.
  - cbn. lia.
  - eapply Forall_impl; [|apply IH]. cbn beta. intros p Hp.
    rewrite dayIndex_next in Hp. lia.
Qed.

(** X4.  In a zone at a fixed offset, once a session that crosses
    midnight is split, the statistics of the day it started on count only
    the time up to the end of that day and those of the day it ended on
    only the time since that day's start. *)
Theorem getDailyStats_of_split (session : Session.Session) (fuel : nat)
    (parts : list Session.Session) :
  splitSessionByMidnight (fixedZone tz) genId fuel session = Some parts ->
  isSameDay (fixedZone tz) (Session.startTime session) (Session.endTime session) = false ->
  getDailyStats (fixedZone tz) parts (Session.startTime session) =
    endOfDay (fixedZone tz) (Session.startTime session) - Session.startTime session /\
  getDailyStats (fixedZone tz) parts (Session.endTime session) =
    Session.endTime session - startOfDay (fixedZone tz) (Session.endTime session).
Proof.
  intros H Hdiff. apply splitSessionByMidnight_inv in H.
  destruct H as [[Hsame _] | [_ (n & Hn & Hidx & ->)]]; [congruence|].
  set (start := Session.startTime session) in *.
  set (e := Session.endTime session) in *.
  split.
  - destruct n as [|n]; [lia|]. cbn [dayParts app].
    rewrite getDailyStats_cons. cbn [withSpan Session.startTime Session.duration].
    replace (isSameDay (fixedZone tz) start start) with true
      by (symmetry; now apply isSameDay_iff).
    rewrite getDailyStats_app, getDailyStats_other_days.
    + rewrite getDailyStats_cons. cbn [withSpan Session.startTime].
      replace (isSameDay (fixedZone tz) _ start) with false; [unfold getDailyStats; cbn; lia|].
      symmetry. apply not_true_is_false. rewrite isSameDay_iff.
      change (advance (fixedZone tz) (S n) start)
        with (advance (fixedZone tz) n (startOfDay (fixedZone tz) (start + 86400000))).
      rewrite advance_dayIndex, dayIndex_next. lia.
    + eapply Forall_impl; [|apply dayParts_days]. cbn beta. intros p Hp.
      rewrite dayIndex_next in Hp. lia.
  - rewrite getDailyStats_app, getDailyStats_other_days.
    + rewrite getDailyStats_cons. cbn [withSpan Session.startTime Session.duration].
      replace (isSameDay (fixedZone tz) (advance (fixedZone tz) n start) e) with true.
      * unfold getDailyStats. cbn.
        rewrite <- (advance_startOfDay tz n start Hn), !startOfDay_dayIndex.
        rewrite advance_dayIndex, <- Hidx. lia.
      * symmetry. apply isSameDay_iff. rewrite advance_dayIndex. lia.
    + eapply Forall_impl; [|apply dayParts_days]. cbn beta. intros p Hp. lia.
Qed.

End DailyStats.

Lemma getDailyStats_of_split_witness :
  getDailyStats (fixedZone 0) lateParts 84600000 = 1799999 /\
  getDailyStats (fixedZone 0) lateParts 89100000 = 2700000.
Proof.
  apply (getDailyStats_of_split 0 constId lateSession 1 lateParts).
  - reflexivity.
  - reflexivity.
Defined.

(** * utils.ts: the median *)

Lemma leb_total (a b : number) : leb a b = false -> leb b a = true.
Proof.
  intros H. apply leb_le. apply Qclt_le_weak. apply ltb_lt.
  unfold ltb. unfold leb in H. now rewrite H.
Qed.

Lemma insertAscending_perm (x : number) (l : list number) :
  Permutation (x :: l) (insertAscending x l).
Proof.
  induction l as [|y l IH]; cbn [insertAscending]; [reflexivity|].
  destruct (leb x y); [reflexivity|].
  rewrite perm_swap. now constructor.
Qed.

Lemma sortAscending_perm (l : list number) : Permutation l (sortAscending l).
Proof.
  induction l as [|x l IH]; cbn; [constructor|].
  rewrite <- insertAscending_perm. now constructor.
Qed.

Lemma insertAscending_sorted (x : number) (l : list number) :
  StronglySorted Qcle l -> StronglySorted Qcle (insertAscending x l).
Proof.
  induction 1 as [|y l Hs IH Hall]; cbn [insertAscending].
  - repeat constructor.
  - destruct (leb x y) eqn:Hxy.
    + apply leb_le in Hxy. constructor; [now constructor|].
      constructor; [exact Hxy|].
      eapply Forall_impl; [|exact Hall]. intros z Hz. eapply Qcle_trans; eassumption.
    + apply leb_total, leb_le in Hxy. constructor; [exact IH|].
      rewrite <- insertAscending_perm. now constructor.
Qed.

Lemma sortAscending_sorted (l : list number) : StronglySorted Qcle (sortAscending l).
Proof.
  induction l as [|x l IH]; cbn; [constructor | now apply insertAscending_sorted].
Qed.

(** A list has one ascending arrangement. *)
Lemma sorted_perm_unique (l1 : list number) :
  forall l2,
    StronglySorted Qcle l1 -> StronglySorted Qcle l2 -> Permutation l1 l2 -> l1 = l2.
Proof.
  induction l1 as [|x l1 IH]; intros l2 H1 H2 Hp.
  - apply Permutation_nil in Hp. now subst.
  - destruct l2 as [|y l2]; [apply Permutation_sym, Permutation_nil in Hp; discriminate|].
    inversion H1 as [|? ? Hs1 Hall1]; subst.
    inversion H2 as [|? ? Hs2 Hall2]; subst.
    assert (Hxy : x = y).
    { assert (Hin1 : In x (y :: l2)) by (eapply Permutation_in; [exact Hp | now left]).
      assert (Hin2 : In y (x :: l1))
        by (eapply Permutation_in; [apply Permutation_sym; exact Hp | now left]).
      rewrite Forall_forall in Hall1, Hall2.
      destruct Hin1 as [-> | Hin1]; [reflexivity|].
      destruct Hin2 as [-> | Hin2]; [reflexivity|].
      apply Qcle_antisym; auto. }
    subst y. f_equal. apply IH; auto. eapply Permutation_cons_inv; exact Hp.
Qed.

Lemma sortAscending_perm_eq (xs ys : list number) :
  Permutation xs ys -> sortAscending xs = sortAscending ys.
Proof.
  intros Hp. apply sorted_perm_unique; try apply sortAscending_sorted.
  rewrite <- !sortAscending_perm. exact Hp.
Qed.

Lemma calculateMedian_sorted (values : list number) :
  values <> [] -> calculateMedian values = medianOfSorted (sortAscending values).
Proof.
  destruct values; [congruence | reflexivity].
Qed.

(** X5.  The median does not depend on the order of the values; of no
    values it is 0. *)
Theorem calculateMedian_permutation (xs ys : list number) :
  Permutation xs ys ->
  calculateMedian xs = calculateMedian ys /\ calculateMedian [] = ofZ 0.
Proof.
  intros Hp. split; [|reflexivity].
  destruct xs as [|x xs].
  - apply Permutation_nil in Hp. now subst.
  - destruct ys as [|y ys];
      [apply Permutation_sym, Permutation_nil in Hp; discriminate|].
    rewrite !calculateMedian_sorted by discriminate.
    now rewrite (sortAscending_perm_eq _ _ Hp).
Qed.

Lemma average_bounds (lo hi a b : number) :
  (lo <= a)%Qc -> (lo <= b)%Qc -> (a <= hi)%Qc -> (b <= hi)%Qc ->
  (lo <= div (add a b) (ofZ 2) <= hi)%Qc.
Proof.
  unfold Qcle. intros H1 H2 H3 H4.
  assert (He : (this (div (add a b) (ofZ 2)) == (this a + this b) * (1 # 2))%Q).
  { unfold div, add, Qcdiv, Qcmult, Qcinv, Qcplus, Q2Qc. cbn [this].
    rewrite !Qred_correct, ofZ_this. reflexivity. }
  rewrite He. split; lra.
Qed.

Lemma sorted_nth_le (s : list number) :
  StronglySorted Qcle s ->
  forall i j, (i <= j)%nat -> (j < List.length s)%nat ->
    (nth i s (ofZ 0) <= nth j s (ofZ 0))%Qc.
Proof.
  induction 1 as [|x s Hs IH Hall]; intros i j Hij Hj; [cbn in Hj; lia|].
  destruct j as [|j].
  - replace i with O by lia. apply Qcle_refl.
  - cbn in Hj. destruct i as [|i].
    + cbn. rewrite Forall_forall in Hall. apply Hall. apply nth_In. lia.
    + cbn. apply IH; lia.
Qed.

Lemma firstn_all_le (s : list number) (k : nat) (c : number) :
  (forall i, (i < k)%nat -> (i < List.length s)%nat -> (nth i s (ofZ 0) <= c)%Qc) ->
  Forall (fun v => leb v c = true) (firstn k s).
Proof.
  intros H. apply Forall_forall. intros x Hin.
  destruct (In_nth _ _ (ofZ 0) Hin) as (i & Hi & <-).
  rewrite length_firstn in Hi. rewrite nth_firstn.
  replace (i <? k)%nat with true by (symmetry; apply Nat.ltb_lt; lia).
  apply leb_le. apply H; lia.
Qed.

Lemma skipn_all_ge (s : list number) (k : nat) (c : number) :
  (forall i, (k <= i)%nat -> (i < List.length s)%nat -> (c <= nth i s (ofZ 0))%Qc) ->
  Forall (fun v => leb c v = true) (skipn k s).
Proof.
  intros H. apply Forall_forall. intros x Hin.
  destruct (In_nth _ _ (ofZ 0) Hin) as (i & Hi & <-).
  rewrite length_skipn in Hi. rewrite nth_skipn.
  apply leb_le. apply H; lia.
Qed.

Lemma countIf_app (p : number -> bool) (xs ys : list number) :
  countIf p (xs ++ ys) = (countIf p xs + countIf p ys)%nat.
Proof. unfold countIf. now rewrite filter_app, length_app. Qed.

Lemma countIf_all (p : number -> bool) (xs : list number) :
  Forall (fun v => p v = true) xs -> countIf p xs = List.length xs.
Proof.
  intros H. unfold countIf. rewrite forallb_filter_id; [reflexivity|].
  now apply forallb_forall, Forall_forall.
Qed.

Lemma countIf_perm (p : number -> bool) (xs ys : list number) :
  Permutation xs ys -> countIf p xs = countIf p ys.
Proof.
  unfold countIf.
  induction 1 as [|x xs ys _ IH|x y xs|xs ys zs _ IH1 _ IH2]; cbn [filter].
  - reflexivity.
  - destruct (p x); cbn; now rewrite IH.
  - destruct (p x), (p y); reflexivity.
  - now rewrite IH1.
Qed.

Lemma medianOfSorted_between (s : list number) :
  StronglySorted Qcle s ->
  s <> [] ->
  let h := Nat.div (List.length s) 2 in
  (nth (if Nat.eqb (Nat.modulo (List.length s) 2) 0 then h - 1 else h) s (ofZ 0)
     <= medianOfSorted s)%Qc /\
  (medianOfSorted s <= nth h s (ofZ 0))%Qc.
Proof.
  intros Hs Hne h. unfold medianOfSorted. fold h.
  assert (Hlen : (0 < List.length s)%nat) by (destruct s; [congruence | cbn; lia]).
  pose proof (Nat.div_mod_eq (List.length s) 2) as Hdm.
  pose proof (Nat.mod_upper_bound (List.length s) 2 ltac:(lia)) as Hmod.
  fold h in Hdm.
  destruct (Nat.eqb (Nat.modulo (List.length s) 2) 0) eqn:Hpar; cbn [negb].
  - apply Nat.eqb_eq in Hpar.
    assert (Hab : (nth (h - 1) s (ofZ 0) <= nth h s (ofZ 0))%Qc)
      by (apply sorted_nth_le; [exact Hs | lia | lia]).
    split.
    + apply (average_bounds _ (nth h s (ofZ 0)));
        [apply Qcle_refl | exact Hab | exact Hab | apply Qcle_refl].
    + apply (average_bounds (nth (h - 1) s (ofZ 0)));
        [apply Qcle_refl | exact Hab | exact Hab | apply Qcle_refl].
  - split; apply Qcle_refl.
Qed.

(** X6.  The median of one or more values lies between the least and the
    greatest of them. *)
Theorem calculateMedian_bounds (values : list number) (lo hi : number) :
  values <> [] ->
  (forall v, In v values -> (lo <= v <= hi)%Qc) ->
  (lo <= calculateMedian values <= hi)%Qc.
Proof.
  intros Hne Hall. rewrite calculateMedian_sorted by exact Hne.
  set (s := sortAscending values).
  assert (Hs : StronglySorted Qcle s) by apply sortAscending_sorted.
  assert (Hp : Permutation values s) by apply sortAscending_perm.
  assert (Hsne : s <> []).
  { intros Heq. rewrite Heq in Hp. apply Permutation_sym, Permutation_nil in Hp.
    contradiction. }
  assert (Hlen : (0 < List.length s)%nat) by (destruct s; [congruence | cbn; lia]).
  assert (Hnth : forall i, (i < List.length s)%nat ->
                   (lo <= nth i s (ofZ 0) <= hi)%Qc).
  { intros i Hi. apply Hall. eapply Permutation_in;
      [apply Permutation_sym; exact Hp | now apply nth_In]. }
  destruct (medianOfSorted_between s Hs Hsne) as [Hlow Hhigh].
  pose proof (Nat.div_mod_eq (List.length s) 2) as Hdm.
  pose proof (Nat.mod_upper_bound (List.length s) 2 ltac:(lia)) as Hmod.
  split.
  - eapply Qcle_trans; [|exact Hlow]. apply Hnth.
    destruct (Nat.eqb _ 0); lia.
  - eapply Qcle_trans; [exact Hhigh|]. apply Hnth. lia.
Qed.

Lemma calculateMedian_bounds_witness :
  (ofZ 10 <= calculateMedian [ofZ 30; ofZ 10; ofZ 20; ofZ 40] <= ofZ 40)%Qc.
Proof.
  apply (calculateMedian_bounds [ofZ 30; ofZ 10; ofZ 20; ofZ 40] (ofZ 10) (ofZ 40)).
  - discriminate.
  - intros v [<- | [<- | [<- | [<- | []]]]]; split; vm_compute; discriminate.
Defined.

(** X7.  The median splits the values in two: at least half of them are
    at most the median and at least half of them are at least the median. *)
Theorem calculateMedian_balanced (values : list number) :
  values <> [] ->
  (List.length values <= 2 * countIf (fun v => leb v (calculateMedian values)) values)%nat /\
  (List.length values <= 2 * countIf (fun v => leb (calculateMedian values) v) values)%nat.
Proof.
  intros Hne. rewrite calculateMedian_sorted by exact Hne.
  set (s := sortAscending values).
  assert (Hs : StronglySorted Qcle s) by apply sortAscending_sorted.
  assert (Hp : Permutation values s) by apply sortAscending_perm.
  assert (Hsne : s <> []).
  { intros Heq. rewrite Heq in Hp. apply Permutation_sym, Permutation_nil in Hp.
    contradiction. }
  rewrite !(countIf_perm _ _ _ Hp), (Permutation_length Hp).
  assert (Hlen : (0 < List.length s)%nat) by (destruct s; [congruence | cbn; lia]).
  destruct (medianOfSorted_between s Hs Hsne) as [Hlow Hhigh].
  pose proof (Nat.div_mod_eq (List.length s) 2) as Hdm.
  pose proof (Nat.mod_upper_bound (List.length s) 2 ltac:(lia)) as Hmod.
  set (m := medianOfSorted s) in *.
  set (h := Nat.div (List.length s) 2) in *.
  set (lowIdx := if Nat.eqb (Nat.modulo (List.length s) 2) 0
                 then (h - 1)%nat else h) in *.
  assert (Hidx : (lowIdx < List.length s)%nat /\ (List.length s <= 2 * S lowIdx)%nat).
  { subst lowIdx. destruct (Nat.eqb (Nat.modulo (List.length s) 2) 0) eqn:Hpar.
    - apply Nat.eqb_eq in Hpar. lia.
    - apply Nat.eqb_neq in Hpar. lia. }
  split.
  - rewrite <- (firstn_skipn (S lowIdx) s) at 2. rewrite countIf_app.
    rewrite (countIf_all _ (firstn (S lowIdx) s)).
    + rewrite length_firstn. lia.
    + apply firstn_all_le. intros i Hi Hil.
      eapply Qcle_trans; [|exact Hlow]. apply sorted_nth_le; [exact Hs | lia | lia].
  - rewrite <- (firstn_skipn h s) at 2. rewrite countIf_app.
    rewrite (countIf_all _ (skipn h s)).
    + rewrite length_skipn. lia.
    + apply skipn_all_ge. intros i Hi Hil.
      eapply Qcle_trans; [exact Hhigh|]. apply sorted_nth_le; [exact Hs | lia | lia].
Qed.

Lemma calculateMedian_balanced_witness :
  let values := [ofZ 30; ofZ 10; ofZ 20; ofZ 40] in
  (List.length values <= 2 * countIf (fun v => leb v (calculateMedian values)) values)%nat /\
  (List.length values <= 2 * countIf (fun v => leb (calculateMedian values) v) values)%nat.
Proof.
  apply (calculateMedian_balanced [ofZ 30; ofZ 10; ofZ 20; ofZ 40]).
  discriminate.
Defined.

Lemma calculateMedian_permutation_witness :
  calculateMedian [ofZ 30; ofZ 10; ofZ 20] = calculateMedian [ofZ 10; ofZ 30; ofZ 20] /\
  calculateMedian [] = ofZ 0.
Proof.
  apply (calculateMedian_permutation [ofZ 30; ofZ 10; ofZ 20] [ofZ 10; ofZ 30; ofZ 20]).
  apply perm_swap.
Defined.

(** * App.tsx: how the handlers compose *)


Lemma sum_snoc (xs : list number) (x : number) : sum (xs ++ [x]) = add (sum xs) x.
Proof.
  unfold sum at 1. rewrite fold_left_app. cbn [fold_left].
  fold (sum xs). reflexivity.
Qed.

Lemma orElse_self (x d : number) : d = ofZ 0 \/ d = x -> orElse (Some x) d = x.
Proof.
  intros Hd. unfold orElse. destruct (eqb x (ofZ 0)) eqn:Hx; [|reflexivity].
  apply eqb_eq in Hx. destruct Hd; congruence.
Qed.

Lemma totalFocused_cleared : forall now timerState,
  gtb (totalFocused now (resetTimer timerState)) (ofZ 1000) = false.
Proof. intros. reflexivity. Qed.

(** X8.  End-Session cannot produce the same session twice: right after
    an End-Session, whatever the state it was pressed in, a second
    End-Session, a tick and a Reset each leave the state as it is and emit
    nothing. *)
Theorem handleEndSession_twice (selectedId selectedId' : string) (now now' : number)
    (timerState : TimerState) :
  let ended := snd (handleEndSession selectedId now timerState) in
  handleEndSession selectedId' now' ended = ([], ended) /\
  tick selectedId' now' ended = ([], ended) /\
  resetTimer ended = ended.
Proof.
  cbn zeta. rewrite !handleEndSession_eq. cbn [snd].
  split; [|split; reflexivity].
  rewrite totalFocused_cleared. reflexivity.
Qed.

(** X9.  The toggle keeps the focused time measured at the instant it is
    pressed, except for [accumulatedTime], which it keeps in countdown
    mode (pause and resume) and drops in flow mode and on leaving a
    break. *)
Theorem toggleTimer_focused_time (settings : Settings) (countdownMinutes now : number)
    (timerState : TimerState) :
  totalFocused now (toggleTimer settings countdownMinutes now timerState) =
  sub (totalFocused now timerState)
      (match mode timerState, status timerState with
       | COUNTDOWN, BREAK => accumulatedTime timerState
       | COUNTDOWN, _ => ofZ 0
       | FLOW, _ => accumulatedTime timerState
       end).
Proof.
  unfold totalFocused, workInCurrentInterval, toggleTimer.
  destruct (status timerState), (mode timerState);
    cbn [status mode startTime intervals accumulatedTime];
    rewrite ?sum_snoc, ?(orElse_self now now) by (now right);
    qc_ring.
Qed.

(** The three things a tick can do. *)
Lemma tick_cases (catId_ : string) (now : number) (timerState : TimerState) :
  tick catId_ now timerState = ([], timerState) \/
  (status timerState = BREAK /\
   tick catId_ now timerState = ([PlayNotification], skipBreak timerState)) \/
  (status timerState = RUNNING /\ mode timerState = COUNTDOWN /\
   tick catId_ now timerState =
     (PlayNotification :: fst (handleEndSession catId_ now timerState),
      resetTimer timerState)).
Proof.
  unfold tick, handleCompleteForCategory, handleBreakEndForCategory.
  rewrite handleEndSessionForCategory_eq, handleEndSession_eq.
  cbn [fst snd].
  destruct (status timerState) eqn:Hs; auto.
  - destruct (mode timerState) eqn:Hm; auto.
    destruct (targetTime timerState) as [target|]; auto.
    destruct (truthy (Some target)); auto.
    destruct (geb _ target); auto.
  - destruct (breakRemaining timerState) as [remaining|]; auto.
    destruct (leb _ (ofZ 0)); auto.
Qed.

(** X10.  What a tick can do: nothing; or end a break, leaving the state
    Skip would leave and playing the notification; or complete a running
    countdown, leaving the state Reset would leave.  A running flow timer
    is never stopped by the tick. *)
Theorem tick_outcomes (catId_ : string) (now : number) (timerState : TimerState) :
  (tick catId_ now timerState = ([], timerState) \/
   (status timerState = BREAK /\
    tick catId_ now timerState = ([PlayNotification], skipBreak timerState)) \/
   (status timerState = RUNNING /\ mode timerState = COUNTDOWN /\
    tick catId_ now timerState =
      (PlayNotification :: fst (handleEndSession catId_ now timerState),
       resetTimer timerState))) /\
  (status timerState = RUNNING -> mode timerState = FLOW ->
   tick catId_ now timerState = ([], timerState)).
Proof.
  split; [apply tick_cases|].
  intros Hs Hm. unfold tick. now rewrite Hs, Hm.
Qed.

Lemma tick_outcomes_witness :
  tick "default-1" (ofZ 999999) (flowRunningSince (ofZ 1000))
  = ([], flowRunningSince (ofZ 1000)).
Proof.
  apply (tick_outcomes "default-1" (ofZ 999999) (flowRunningSince (ofZ 1000))).
  - reflexivity.
  - reflexivity.
Defined.

(** X11.  The tick is idempotent at an instant: run again on its own
    result with the same clock reading, it changes nothing and has no
    effect. *)
Theorem tick_twice (catId_ : string) (now : number) (timerState : TimerState) :
  let next := snd (tick catId_ now timerState) in
  tick catId_ now next = ([], next).
Proof.
  cbn zeta.
  destruct (tick_cases catId_ now timerState) as [H | [[_ H] | (_ & _ & H)]].
  - rewrite H. cbn [snd]. exact H.
  - rewrite H. reflexivity.
  - rewrite H. reflexivity.
Qed.

(** X12.  When no category is RUNNING or on BREAK, which is when the
    application stops its interval timer, a tick would change nothing. *)
Theorem tickAll_without_active (now : number) (categoryData : list (string * TimerState)) :
  hasAnyActive categoryData = false ->
  tickAll now categoryData = ([], categoryData).
Proof.
  intros H. unfold tickAll. rewrite tickLoop_unchanged; [reflexivity|].
  induction categoryData as [|[catId_ timerState] rest IH]; constructor.
  - cbn [hasAnyActive existsb snd] in H. apply orb_false_iff in H.
    destruct H as [Hs _]. cbn [fst snd]. unfold tick.
    destruct (status timerState); try discriminate; reflexivity.
  - apply IH. cbn [hasAnyActive existsb snd] in H. apply orb_false_iff in H.
    apply H.
Qed.

Lemma tickAll_without_active_witness :
  tickAll (ofZ 5000)
    [("default-1"%string, defaultTimerState);
     ("default-2"%string, setMode COUNTDOWN defaultTimerState)]
  = ([], [("default-1"%string, defaultTimerState);
          ("default-2"%string, setMode COUNTDOWN defaultTimerState)]).
Proof.
  apply (tickAll_without_active (ofZ 5000)
           [("default-1"%string, defaultTimerState);
            ("default-2"%string, setMode COUNTDOWN defaultTimerState)]).
  reflexivity.
Defined.

(** X13.  Break extensions add up.  For whole numbers of milliseconds,
    in the range where a double holds the sums exactly, extending a break
    by [a] and then by [b] is extending it by [a + b]. *)
Theorem extendBreak_twice (a b : number) (timerState : TimerState) :
  let remaining := orElse (breakRemaining timerState) (ofZ 0) in
  exactSum remaining a ->
  exactSum (add remaining a) b ->
  exactSum a b ->
  extendBreak b (extendBreak a timerState) = extendBreak (add a b) timerState /\
  wholeOption (breakRemaining (extendBreak b (extendBreak a timerState))).
Proof.
  intros remaining _ (_ & _ & Hsafe & _) _. split.
  - unfold extendBreak.
    cbn [mode status startTime sessionStartTime accumulatedTime targetTime
         breakRemaining intervals completedTasks].
    f_equal. f_equal.
    rewrite orElse_self by (now left). qc_ring.
  - unfold extendBreak. cbn [breakRemaining wholeOption].
    rewrite orElse_self by (now left). exact Hsafe.
Qed.

Lemma extendBreak_twice_witness :
  let timerState := onBreakSince (ofZ 6000) (ofZ 5000) (ofZ 1000) in
  extendBreak (ofZ 120000) (extendBreak (ofZ 60000) timerState)
    = extendBreak (add (ofZ 60000) (ofZ 120000)) timerState /\
  wholeOption
    (breakRemaining (extendBreak (ofZ 120000) (extendBreak (ofZ 60000) timerState))).
Proof.
  apply (extendBreak_twice (ofZ 60000) (ofZ 120000)
           (onBreakSince (ofZ 6000) (ofZ 5000) (ofZ 1000)));
    repeat split; try reflexivity; vm_compute; discriminate.
Defined.

(** X14.  After an extension by [ms] a break that had [remaining] ms
    expires at the tick exactly when [remaining + ms] less the time elapsed
    since its start is at most 0. *)
Theorem extendBreak_expiry (catId_ : string) (now ms remaining : number)
    (timerState : TimerState) :
  status timerState = BREAK ->
  breakRemaining timerState = Some remaining ->
  (tick catId_ now (extendBreak ms timerState)
     = ([PlayNotification], skipBreak timerState) <->
   (sub (add remaining ms) (elapsedSinceStart now timerState) <= ofZ 0)%Qc) /\
  (tick catId_ now (extendBreak ms timerState) = ([], extendBreak ms timerState) <->
   (ofZ 0 < sub (add remaining ms) (elapsedSinceStart now timerState))%Qc).
Proof.
  intros Hs Hb. unfold tick, handleBreakEndForCategory, elapsedSinceStart.
  cbn [extendBreak status breakRemaining startTime mode sessionStartTime
       accumulatedTime targetTime intervals completedTasks].
  rewrite Hs, Hb, orElse_self by (now left).
  rewrite <- leb_le, <- ltb_lt. unfold ltb.
  fold (leb (sub (add remaining ms)
               (sub now (orElse (startTime timerState) now))) (ofZ 0)).
  destruct (leb _ (ofZ 0)); cbn [negb]; split; split; intros H;
    try discriminate; try reflexivity.
Qed.

Lemma extendBreak_expiry_witness :
  let timerState := onBreakSince (ofZ 6000) (ofZ 5000) (ofZ 1000) in
  tick "default-1" (ofZ 7000) (extendBreak (ofZ 60000) timerState)
    = ([], extendBreak (ofZ 60000) timerState) <->
  (ofZ 0 < sub (add (ofZ 1000) (ofZ 60000)) (elapsedSinceStart (ofZ 7000) timerState))%Qc.
Proof.
  apply (extendBreak_expiry "default-1" (ofZ 7000) (ofZ 60000) (ofZ 1000)
           (onBreakSince (ofZ 6000) (ofZ 5000) (ofZ 1000))).
  - reflexivity.
  - reflexivity.
Defined.

(** * App.tsx: what the display shows *)

Lemma this_add (a b : number) : (this (add a b) == this a + this b)%Q.
Proof. unfold add, Qcplus, Q2Qc. cbn [this]. apply Qred_correct. Qed.

Lemma this_sub (a b : number) : (this (sub a b) == this a - this b)%Q.
Proof.
  unfold sub, Qcminus, Qcplus, Qcopp, Q2Qc. cbn [this].
  rewrite !Qred_correct. reflexivity.
Qed.

Lemma this_div_1000 (a : number) :
  (this (div a (ofZ 1000)) == this a * (1 # 1000))%Q.
Proof.
  unfold div, Qcdiv, Qcmult, Qcinv, Q2Qc. cbn [this].
  rewrite !Qred_correct, ofZ_this. reflexivity.
Qed.

(** Order facts on numbers, by linear arithmetic over the rationals. *)
Ltac qc_order :=
  unfold Qcle, Qclt in *;
  repeat match goal with
         | H : context [this (add _ _)] |- _ => rewrite this_add in H
         | H : context [this (sub _ _)] |- _ => rewrite this_sub in H
         | H : context [this (ofZ _)] |- _ => rewrite ofZ_this in H
         end;
  repeat (rewrite this_add || rewrite this_sub || rewrite ofZ_this);
  change (inject_Z 0) with 0%Q in *;
  repeat match goal with
         | H : context [inject_Z (Zpos ?p)] |- _ =>
             change (inject_Z (Zpos p)) with (Zpos p # 1)%Q in H
         | |- context [inject_Z (Zpos ?p)] =>
             change (inject_Z (Zpos p)) with (Zpos p # 1)%Q
         end;
  lra.

Lemma max_zero_of_nonneg (x : number) : (ofZ 0 <= x)%Qc -> max (ofZ 0) x = x.
Proof. intros H. unfold max. apply leb_le in H. now rewrite H. Qed.

Lemma max_zero_iff (x : number) : max (ofZ 0) x = ofZ 0 <-> (x <= ofZ 0)%Qc.
Proof.
  unfold max. destruct (leb (ofZ 0) x) eqn:H.
  - apply leb_le in H. split.
    + intros ->. apply Qcle_refl.
    + intros Hx. now apply Qcle_antisym.
  - split; [intros _ | reflexivity].
    apply leb_total, leb_le in H. exact H.
Qed.

(** X15.  During a break whose [startTime] is a non-zero timestamp not
    after the clock reading, the remaining break time shown is 0 exactly
    when the tick at that reading ends the break. *)
Theorem getElapsed_break_zero_iff_expiry (catId_ : string) (now s remaining : number)
    (timerState : TimerState) :
  status timerState = BREAK ->
  startTime timerState = Some s ->
  s <> ofZ 0 ->
  (s <= now)%Qc ->
  breakRemaining timerState = Some remaining ->
  (getElapsed now timerState = ofZ 0 <->
   tick catId_ now timerState = ([PlayNotification], skipBreak timerState)).
Proof.
  intros Hs Hst Hnz Hle Hb.
  unfold getElapsed, tick, handleBreakEndForCategory.
  rewrite Hs, Hst, Hb, (truthy_set s Hnz), (orElse_set s now Hnz).
  rewrite (orElse_self remaining (ofZ 0)) by (now left).
  rewrite (max_zero_of_nonneg (sub now s)) by qc_order.
  rewrite max_zero_iff, <- leb_le.
  destruct (leb (sub remaining (sub now s)) (ofZ 0)); split; intros H;
    try discriminate; reflexivity.
Qed.

Lemma getElapsed_break_zero_iff_expiry_witness :
  let timerState := onBreakSince (ofZ 6000) (ofZ 5000) (ofZ 1000) in
  getElapsed (ofZ 7000) timerState = ofZ 0 <->
  tick "default-1" (ofZ 7000) timerState = ([PlayNotification], skipBreak timerState).
Proof.
  apply (getElapsed_break_zero_iff_expiry "default-1" (ofZ 7000) (ofZ 6000) (ofZ 1000)
           (onBreakSince (ofZ 6000) (ofZ 5000) (ofZ 1000))).
  - reflexivity.
  - reflexivity.
  - intros H. apply ofZ_inj in H. discriminate.
  - vm_compute. discriminate.
  - reflexivity.
Defined.

(** X16.  For a running countdown with a non-zero target whose
    [startTime] is a non-zero timestamp not after the clock reading, the
    remaining time shown is 0 exactly when the tick at that reading
    completes the countdown. *)
Theorem displayMs_zero_iff_complete (catId_ : string)
    (countdownMinutes now s target : number) (timerState : TimerState) :
  mode timerState = COUNTDOWN ->
  status timerState = RUNNING ->
  startTime timerState = Some s ->
  s <> ofZ 0 ->
  (s <= now)%Qc ->
  targetTime timerState = Some target ->
  target <> ofZ 0 ->
  (displayMs countdownMinutes now timerState = ofZ 0 <->
   tick catId_ now timerState = handleCompleteForCategory catId_ now timerState).
Proof.
  intros Hm Hs Hst Hnz Hle Ht Htnz.
  unfold displayMs, getElapsed, tick.
  rewrite Hm, Hs, Hst, Ht, (truthy_set s Hnz), (truthy_set target Htnz),
    (orElse_set s now Hnz), (orElse_set target _ Htnz).
  rewrite (max_zero_of_nonneg (sub now s)) by qc_order.
  rewrite max_zero_iff.
  destruct (geb (add (accumulatedTime timerState) (sub now s)) target) eqn:Hge.
  - apply geb_ge in Hge. split; [reflexivity | intros _; qc_order].
  - split.
    + intros H. assert (Hge' : geb (add (accumulatedTime timerState) (sub now s)) target
                               = true) by (apply geb_ge; qc_order).
      congruence.
    + unfold handleCompleteForCategory.
      rewrite handleEndSessionForCategory_eq, handleEndSession_eq. discriminate.
Qed.

Lemma displayMs_zero_iff_complete_witness :
  let timerState := countdownRunningSince (ofZ 1000) (ofZ 60000) in
  displayMs (ofZ 25) (ofZ 61000) timerState = ofZ 0 <->
  tick "default-1" (ofZ 61000) timerState =
    handleCompleteForCategory "default-1" (ofZ 61000) timerState.
Proof.
  apply (displayMs_zero_iff_complete "default-1" (ofZ 25) (ofZ 61000) (ofZ 1000)
           (ofZ 60000) (countdownRunningSince (ofZ 1000) (ofZ 60000))).
  - reflexivity.
  - reflexivity.
  - reflexivity.
  - intros H. apply ofZ_inj in H. discriminate.
  - vm_compute. discriminate.
  - reflexivity.
  - intros H. apply ofZ_inj in H. discriminate.
Defined.

(** X17.  While the display counts down (countdown mode or a break) the
    time shown is the remaining time rounded up to a whole second: a
    multiple of 1000 that is at least the remaining time and less than a
    second more, so that a positive remainder is never shown as 0. *)
Theorem roundedDisplayMs_ceiling (countdownMinutes currentTime : number)
    (activeTimer : TimerState) :
  isCountingDown activeTimer = true ->
  let shown := roundedDisplayMs countdownMinutes currentTime activeTimer in
  let remaining := displayMs countdownMinutes currentTime activeTimer in
  (exists k : Z, shown = ofZ (k * 1000)) /\
  (remaining <= shown)%Qc /\
  (shown < add remaining (ofZ 1000))%Qc /\
  ((ofZ 0 < remaining)%Qc -> (ofZ 1000 <= shown)%Qc).
Proof.
  intros Hc shown remaining. subst shown. unfold roundedDisplayMs. rewrite Hc.
  fold remaining. unfold ceil. rewrite ofZ_mul.
  set (k := Qceiling (div remaining (ofZ 1000))).
  pose proof (Qle_ceiling (div remaining (ofZ 1000))) as Hup.
  pose proof (Qceiling_lt (div remaining (ofZ 1000))) as Hlow.
  fold k in Hup, Hlow. rewrite this_div_1000 in Hup, Hlow.
  assert (Hk : (inject_Z (k - 1) == inject_Z k - 1)%Q).
  { unfold Z.sub. rewrite inject_Z_plus. reflexivity. }
  rewrite Hk in Hlow.
  assert (Hm : (inject_Z (k * 1000) == inject_Z k * 1000)%Q)
    by (rewrite inject_Z_mult; reflexivity).
  split; [now exists k|].
  assert (H1 : (remaining <= ofZ (k * 1000))%Qc).
  { unfold Qcle. rewrite ofZ_this, Hm. lra. }
  assert (H2 : (ofZ (k * 1000) < add remaining (ofZ 1000))%Qc).
  { unfold Qclt. rewrite this_add, !ofZ_this, Hm.
    change (inject_Z 1000) with 1000%Q. lra. }
  split; [exact H1|]. split; [exact H2|].
  intros Hpos. apply leb_le. rewrite ofZ_leb. apply Z.leb_le.
  assert (Hkpos : (0 < k)%Z).
  { rewrite Zlt_Qlt. unfold Qclt in Hpos. rewrite ofZ_this in Hpos.
    change (inject_Z 0) with 0%Q in *. lra. }
  lia.
Qed.

Lemma roundedDisplayMs_ceiling_witness :
  let timerState := onBreakSince (ofZ 6000) (ofZ 5000) (ofZ 1000) in
  let shown := roundedDisplayMs (ofZ 25) (ofZ 6300) timerState in
  let remaining := displayMs (ofZ 25) (ofZ 6300) timerState in
  (exists k : Z, shown = ofZ (k * 1000)) /\
  (remaining <= shown)%Qc /\
  (shown < add remaining (ofZ 1000))%Qc /\
  ((ofZ 0 < remaining)%Qc -> (ofZ 1000 <= shown)%Qc).
Proof.
  apply (roundedDisplayMs_ceiling (ofZ 25) (ofZ 6300)
           (onBreakSince (ofZ 6000) (ofZ 5000) (ofZ 1000))).
  reflexivity.
Defined.

(** * App.tsx: tasks, notes and saving a session *)

Lemma findIndex_None {A : Type} (p : A -> bool) (xs : list A) :
  findIndex p xs = None <-> (forall x, In x xs -> p x = false).
Proof.
  induction xs as [|x xs IH]; cbn [findIndex].
  - split; [intros _ y [] | reflexivity].
  - destruct (p x) eqn:Hx.
    + split; [discriminate|]. intros H. specialize (H x (or_introl eq_refl)). congruence.
    + destruct (findIndex p xs) as [i|].
      * split; [discriminate|]. intros H.
        assert (Hn : Some i = None) by (apply IH; intros y Hy; apply H; now right).
        discriminate.
      * split; [|reflexivity]. intros _ y [<- | Hy]; [exact Hx|].
        now apply (proj1 IH).
Qed.

Lemma findIndex_Some {A : Type} (p : A -> bool) (xs : list A) (i : nat) :
  findIndex p xs = Some i ->
  exists x, nth_error xs i = Some x /\ p x = true.
Proof.
  revert i. induction xs as [|x xs IH]; intros i; cbn [findIndex]; [discriminate|].
  destruct (p x) eqn:Hx.
  - intros [= <-]. exists x. now split.
  - destruct (findIndex p xs) as [j|]; [|discriminate].
    intros [= <-]. destruct (IH j eq_refl) as (y & Hy & Hpy). exists y. now split.
Qed.

Lemma findIndex_mapWithIndex {A : Type} (p : A -> bool) (f : A -> nat -> A)
    (xs : list A) :
  (forall x i, p (f x i) = p x) ->
  forall start, findIndex p (mapWithIndex f start xs) = findIndex p xs.
Proof.
  intros Hp. induction xs as [|x xs IH]; intros start; cbn; [reflexivity|].
  now rewrite Hp, IH.
Qed.

Lemma nth_error_mapWithIndex {A B : Type} (f : A -> nat -> B) (xs : list A) :
  forall start i,
    nth_error (mapWithIndex f start xs) i =
    option_map (fun x => f x (start + i)%nat) (nth_error xs i).
Proof.
  induction xs as [|x xs IH]; intros start [|i]; cbn; try reflexivity.
  - now rewrite Nat.add_0_r.
  - rewrite IH. now rewrite Nat.add_succ_r.
Qed.

Lemma mapWithIndex_twice {A : Type} (f g : A -> nat -> A) (xs : list A) :
  forall start,
    mapWithIndex g start (mapWithIndex f start xs) =
    mapWithIndex (fun x i => g (f x i) i) start xs.
Proof.
  induction xs as [|x xs IH]; intros start; cbn; [reflexivity | now rewrite IH].
Qed.

Lemma mapWithIndex_id {A : Type} (f : A -> nat -> A) (xs : list A) :
  forall start,
    (forall i x, nth_error xs i = Some x -> f x (start + i)%nat = x) ->
    mapWithIndex f start xs = xs.
Proof.
  induction xs as [|x xs IH]; intros start H; cbn; [reflexivity|].
  rewrite (IH (S start)).
  - f_equal. specialize (H O x eq_refl). now rewrite Nat.add_0_r in H.
  - intros i y Hy. specialize (H (S i) y Hy). now rewrite Nat.add_succ_r in H.
Qed.

Lemma mapWithIndex_length {A B : Type} (f : A -> nat -> B) (xs : list A) :
  forall start, List.length (mapWithIndex f start xs) = List.length xs.
Proof.
  induction xs as [|x xs IH]; intros start; cbn; [reflexivity | now rewrite IH].
Qed.

(** X18.  Toggling a task whose id no task carries changes nothing:
    neither the tasks nor the timer. *)
Theorem toggleTask_unknown (now : number) (taskId : string) (data : CategoryData) :
  (forall t, In t (tasks data) -> Task.id t <> taskId) ->
  toggleTask now taskId data = data.
Proof.
  intros Hno. unfold toggleTask.
  replace (findIndex _ (tasks data)) with (@None nat); [reflexivity|].
  symmetry. apply findIndex_None. intros t Ht.
  apply String.eqb_neq. now apply Hno.
Qed.

(** X19.  Deleting a task makes toggling it a no-op, whatever the list
    held: the deletion removes every task that carries the id. *)
Theorem deleteTask_then_toggle (now : number) (taskId : string) (data : CategoryData) :
  toggleTask now taskId (deleteTask taskId data) = deleteTask taskId data /\
  (forall t, In t (tasks (deleteTask taskId data)) <->
             In t (tasks data) /\ Task.id t <> taskId) /\
  timerState (deleteTask taskId data) = timerState data.
Proof.
  split; [|split; [|reflexivity]].
  - unfold toggleTask.
    replace (findIndex _ (tasks (deleteTask taskId data))) with (@None nat);
      [reflexivity|].
    symmetry. apply findIndex_None. intros t Ht.
    cbn [deleteTask tasks] in Ht. apply filter_In in Ht.
    destruct Ht as [_ Ht]. now apply negb_true_iff in Ht.
  - intros t. cbn [deleteTask tasks]. rewrite filter_In, negb_true_iff, String.eqb_neq.
    reflexivity.
Qed.

(** X20.  Toggling a task twice gives back the task list it started
    from. *)
Theorem toggleTask_twice_tasks (now now' : number) (taskId : string)
    (data : CategoryData) :
  tasks (toggleTask now' taskId (toggleTask now taskId data)) = tasks data.
Proof.
  set (p := fun t => String.eqb (Task.id t) taskId).
  unfold toggleTask at 2. fold p.
  destruct (findIndex p (tasks data)) as [idx|] eqn:Hfind.
  2:{ unfold toggleTask. fold p. now rewrite Hfind. }
  destruct (findIndex_Some p _ _ Hfind) as (task & Hnth & _).
  rewrite Hnth.
  set (flip1 := fun (t : Task.Task) (i : nat) =>
                  if Nat.eqb i idx
                  then {| Task.id := Task.id t; Task.text := Task.text t;
                          Task.isCompleted := negb (Task.isCompleted task);
                          Task.notes := Task.notes t |}
                  else t).
  unfold toggleTask. cbn [tasks]. fold p flip1.
  rewrite findIndex_mapWithIndex, Hfind.
  2:{ intros x i. unfold flip1, p. now destruct (Nat.eqb i idx). }
  rewrite nth_error_mapWithIndex, Hnth. cbn [option_map tasks Nat.add].
  rewrite mapWithIndex_twice. apply mapWithIndex_id.
  intros i x Hx. cbn [Nat.add]. unfold flip1.
  rewrite Nat.eqb_refl.
  destruct (Nat.eqb i idx) eqn:Hi; [|reflexivity].
  apply Nat.eqb_eq in Hi. subst i.
  assert (x = task) by congruence. subst x.
  cbn. rewrite negb_involutive. now destruct task.
Qed.

(** X21.  Toggling a task keeps the number of tasks and everything of
    the timer but [completedTasks], which is never shortened: at most one
    record is appended to it, and none while the timer is IDLE. *)
Theorem toggleTask_timer_frame (now : number) (taskId : string) (data : CategoryData) :
  let next := toggleTask now taskId data in
  List.length (tasks next) = List.length (tasks data) /\
  sessions next = sessions data /\
  currentNotes next = currentNotes data /\
  mode (timerState next) = mode (timerState data) /\
  status (timerState next) = status (timerState data) /\
  startTime (timerState next) = startTime (timerState data) /\
  sessionStartTime (timerState next) = sessionStartTime (timerState data) /\
  accumulatedTime (timerState next) = accumulatedTime (timerState data) /\
  targetTime (timerState next) = targetTime (timerState data) /\
  breakRemaining (timerState next) = breakRemaining (timerState data) /\
  intervals (timerState next) = intervals (timerState data) /\
  (exists added,
     completedTasks (timerState next) = completedTasks (timerState data) ++ added /\
     (List.length added <= 1)%nat /\
     (status (timerState data) = IDLE -> added = []) /\
     Forall (fun r => completedAt r = now) added).
Proof.
  cbn zeta. unfold toggleTask.
  destruct (findIndex _ (tasks data)) as [idx|].
  2:{ repeat split. exists []. rewrite app_nil_r. repeat split; auto. }
  destruct (nth_error (tasks data) idx) as [task|].
  2:{ repeat split. exists []. rewrite app_nil_r. repeat split; auto. }
  cbn [tasks sessions currentNotes timerState].
  rewrite mapWithIndex_length.
  destruct (negb (Task.isCompleted task)); cbn [andb].
  2:{ repeat split. exists []. rewrite app_nil_r. repeat split; auto. }
  destruct (negb match status (timerState data) with IDLE => true | _ => false end)
    eqn:Hactive.
  2:{ repeat split. exists []. rewrite app_nil_r. repeat split; auto. }
  cbn [mode status startTime sessionStartTime accumulatedTime targetTime
       breakRemaining intervals completedTasks].
  repeat split.
  eexists. split; [reflexivity|]. repeat split.
  - cbn. lia.
  - intros Hidle. rewrite Hidle in Hactive. discriminate.
  - repeat constructor.
Qed.

Lemma toggleTask_unknown_witness :
  toggleTask (ofZ 1000) "t9" sampleData = sampleData.
Proof.
  apply (toggleTask_unknown (ofZ 1000) "t9" sampleData).
  intros t [<- | [<- | []]]; discriminate.
Defined.

(** X22.  Editing the note of a session: the last edit wins; a session
    with the id edited keeps every field but its notes, which become the
    note given; a session with another id keeps its notes too; and no
    category gains or loses a session or changes its timer, tasks, daily
    logs or draft notes. *)
Theorem updateSessionNote_last_wins (sessionId note1 note2 : string)
    (categoryData : list (string * CategoryData)) :
  updateSessionNote sessionId note2 (updateSessionNote sessionId note1 categoryData)
    = updateSessionNote sessionId note2 categoryData /\
  map fst (updateSessionNote sessionId note1 categoryData) = map fst categoryData /\
  Forall2
    (fun before after =>
       timerState (snd after) = timerState (snd before) /\
       tasks (snd after) = tasks (snd before) /\
       dailyLogs (snd after) = dailyLogs (snd before) /\
       currentNotes (snd after) = currentNotes (snd before) /\
       Forall2
         (fun s s' =>
            sameButNotes s s' /\
            Session.notes s' =
              (if String.eqb (Session.id s) sessionId then note1 else Session.notes s))
         (sessions (snd before)) (sessions (snd after)))
    categoryData (updateSessionNote sessionId note1 categoryData).
Proof.
  split; [|split].
  - unfold updateSessionNote. rewrite map_map. apply map_ext.
    intros [catId_ data]. cbn [fst snd timerState sessions dailyLogs currentNotes tasks].
    f_equal. f_equal. rewrite map_map. apply map_ext. intros s.
    destruct (String.eqb (Session.id s) sessionId) eqn:Hid;
      cbn [Session.id]; rewrite Hid; reflexivity.
  - unfold updateSessionNote. rewrite map_map. reflexivity.
  - unfold updateSessionNote.
    induction categoryData as [|[catId_ data] rest IH]; cbn [map]; constructor;
      [|exact IH].
    cbn [fst snd timerState sessions dailyLogs currentNotes tasks].
    repeat split.
    induction (sessions data) as [|s ss IHs]; cbn [map]; constructor; [|exact IHs].
    unfold sameButNotes.
    destruct (String.eqb (Session.id s) sessionId) eqn:Hid; cbn; repeat split.
Qed.

(** The reading of a candidate for the stored record. *)
Lemma handleSaveSessionData_inv (trim : string -> string) (zone : Zone) (newId : string)
    (genId : nat -> string) (fuel : nat) (settings : Settings) (meta : SessionMeta)
    (pending : PendingSession) (data result : CategoryData)
    (pending' : option PendingSession) :
  handleSaveSessionData trim zone newId genId fuel settings meta (Some pending) data
    = Some (result, pending') ->
  exists saved base,
    splitSessionByMidnight zone genId fuel base = Some saved /\
    Session.categoryId base = catId pending /\
    Session.notes base = trim (currentNotes data) /\
    Session.mode base = pendingMode pending /\
    Session.completedTasks base = completedTasks (timerState data) /\
    Session.tags base = metaTags meta /\
    Session.isFlagged base =
      Some (gtb (duration pending)
              (mul (mul (idleThresholdMinutes settings) (ofZ 60)) (ofZ 1000))) /\
    result = {| timerState := timerState data;
                sessions := saved ++ sessions data;
                dailyLogs := dailyLogs data;
                currentNotes := "";
                tasks := tasks data |} /\
    pending' = None.
Proof.
  unfold handleSaveSessionData.
  match goal with
  | |- context [splitSessionByMidnight zone genId fuel ?b] => set (base := b)
  end.
  destruct (splitSessionByMidnight zone genId fuel base) as [saved|] eqn:Hsplit;
    [|discriminate].
  intros [= <- <-]. exists saved, base. repeat split. exact Hsplit.
Qed.

(** Given a record that does not end before it starts, the splitter
    returns once its loop has fuel for the midnights crossed. *)
Lemma splitSessionByMidnight_returns (tz : Z) (genId : nat -> string)
    (session : Session.Session) :
  Session.startTime session <= Session.endTime session ->
  exists fuel0 parts,
    forall fuel, (fuel0 <= fuel)%nat ->
      splitSessionByMidnight (fixedZone tz) genId fuel session = Some parts.
Proof.
  intros Hle. unfold splitSessionByMidnight.
  destruct (isSameDay (fixedZone tz) (Session.startTime session) (Session.endTime session))
    eqn:Hsame.
  - exists O, [session]. reflexivity.
  - pose proof (dayIndex_mono tz _ _ Hle) as Hmono.
    set (n := Z.to_nat (dayIndex tz (Session.endTime session)
                        - dayIndex tz (Session.startTime session))).
    assert (Hn : dayIndex tz (Session.endTime session)
                 = dayIndex tz (Session.startTime session) + Z.of_nat n) by lia.
    eexists n, _. intros fuel Hfuel.
    rewrite (splitLoop_dayParts tz genId session _ n _ [] fuel Hn Hfuel).
    reflexivity.
Qed.

Lemma handleSaveSessionData_eq (trim : string -> string) (zone : Zone) (newId : string)
    (genId : nat -> string) (fuel : nat) (settings : Settings) (meta : SessionMeta)
    (pending : PendingSession) (data : CategoryData) :
  handleSaveSessionData trim zone newId genId fuel settings meta (Some pending) data =
  match splitSessionByMidnight zone genId fuel
          (newSessionBaseOf trim newId settings meta pending data) with
  | None => None
  | Some saved => Some (withSaved saved data, None)
  end.
Proof. reflexivity. Qed.

(** X23.  In a zone at a fixed offset, saving a pending session that does
    not end before it starts returns, once the splitter's loop has fuel for
    the midnights crossed, with one or more new records put in front of the
    category's sessions, which stay as they were and in their order; every
    new record carries the category and mode of the pending session, the
    trimmed draft notes, the tags chosen and the flag
    [duration > idleThresholdMinutes * 60000]; the draft notes are emptied,
    the pending session is cleared and the timer, the tasks and the daily
    logs are not touched.  With no pending session nothing changes. *)
Theorem handleSaveSessionData_prepends (trim : string -> string) (tz : Z)
    (newId : string) (genId : nat -> string) (settings : Settings)
    (meta : SessionMeta) (pending : PendingSession) (data : CategoryData) :
  toWhole (start pending) <= toWhole (end_ pending) ->
  exists (fuel0 : nat) (saved : list Session.Session),
    saved <> [] /\
    Forall (fun s =>
              Session.categoryId s = catId pending /\
              Session.mode s = pendingMode pending /\
              Session.notes s = trim (currentNotes data) /\
              Session.tags s = metaTags meta /\
              (Session.isFlagged s = Some true <->
               (mul (mul (idleThresholdMinutes settings) (ofZ 60)) (ofZ 1000)
                  < duration pending)%Qc))
           saved /\
    forall fuel : nat, (fuel0 <= fuel)%nat ->
      handleSaveSessionData trim (fixedZone tz) newId genId fuel settings meta
        (Some pending) data
      = Some ({| timerState := timerState data;
                 sessions := saved ++ sessions data;
                 dailyLogs := dailyLogs data;
                 currentNotes := "";
                 tasks := tasks data |},
              None) /\
      handleSaveSessionData trim (fixedZone tz) newId genId fuel settings meta None data
      = Some (data, None).
Proof.
  intros Hle.
  set (base := newSessionBaseOf trim newId settings meta pending data).
  destruct (splitSessionByMidnight_returns tz genId base Hle)
    as (fuel0 & saved & Hsplit).
  destruct (split_nonempty_fields _ _ _ _ _ (Hsplit fuel0 (Nat.le_refl fuel0)))
    as [Hne Hfields].
  exists fuel0, saved. split; [exact Hne|]. split.
  - eapply Forall_impl; [|exact Hfields].
    intros s (Hc & _ & _ & Hn & Hm & Hf & _ & Ht & _).
    rewrite Hc, Hm, Hn, Ht, Hf. cbn [base newSessionBaseOf Session.categoryId
      Session.mode Session.notes Session.tags Session.isFlagged].
    repeat split.
    + intros [= Hg]. now apply gtb_gt.
    + intros Hg. apply gtb_gt in Hg. now rewrite Hg.
  - intros fuel Hfuel. split; [|reflexivity].
    rewrite handleSaveSessionData_eq. fold base. now rewrite (Hsplit fuel Hfuel).
Qed.

(** X24.  The tasks completed during a session do not reach its stored
    record: End-Session empties [completedTasks] when it hands the candidate
    over, and the save reads them from the timer afterwards, so every
    record it stores has none, in any time zone. *)
Theorem saved_session_without_completed_tasks (trim : string -> string) (zone : Zone)
    (newId : string) (genId : nat -> string) (fuel : nat) (settings : Settings)
    (meta : SessionMeta) (selectedId : string) (now : number)
    (pending : PendingSession) (before data result : CategoryData)
    (pending' : option PendingSession) :
  In (SetPendingSession pending)
     (fst (handleEndSession selectedId now (timerState before))) ->
  timerState data = snd (handleEndSession selectedId now (timerState before)) ->
  sessions data = sessions before ->
  handleSaveSessionData trim zone newId genId fuel settings meta (Some pending) data
    = Some (result, pending') ->
  exists saved,
    saved <> [] /\
    sessions result = saved ++ sessions before /\
    Forall (fun s => Session.completedTasks s = []) saved.
Proof.
  intros _ Hts Hsessions H. apply handleSaveSessionData_inv in H.
  destruct H as (saved & base & Hsplit & _ & _ & _ & Hdone & _ & _ & -> & _).
  destruct (split_nonempty_fields _ _ _ _ _ Hsplit) as [Hne Hfields].
  exists saved. split; [exact Hne|]. split; [cbn; now rewrite Hsessions|].
  eapply Forall_impl; [|exact Hfields].
  intros s Hs. destruct Hs as (_ & _ & _ & _ & _ & _ & _ & _ & _ & _ & Hc).
  rewrite Hc, Hdone, Hts, handleEndSession_eq. reflexivity.
Qed.

Lemma handleSaveSessionData_prepends_witness :
  exists (fuel0 : nat) (saved : list Session.Session),
    saved <> [] /\
    Forall (fun s =>
              Session.categoryId s = catId busyPending /\
              Session.mode s = pendingMode busyPending /\
              Session.notes s = currentNotes endedData /\
              Session.tags s = metaTags skippedMeta /\
              (Session.isFlagged s = Some true <->
               (mul (mul (idleThresholdMinutes defaultSettings) (ofZ 60)) (ofZ 1000)
                  < duration busyPending)%Qc))
           saved /\
    forall fuel : nat, (fuel0 <= fuel)%nat ->
      handleSaveSessionData (fun s => s) (fixedZone 0) "new" constId fuel
        defaultSettings skippedMeta (Some busyPending) endedData
      = Some ({| timerState := timerState endedData;
                 sessions := saved ++ sessions endedData;
                 dailyLogs := dailyLogs endedData;
                 currentNotes := "";
                 tasks := tasks endedData |},
              None) /\
      handleSaveSessionData (fun s => s) (fixedZone 0) "new" constId fuel
        defaultSettings skippedMeta None endedData
      = Some (endedData, None).
Proof.
  apply (handleSaveSessionData_prepends (fun s => s) 0 "new" constId defaultSettings
           skippedMeta busyPending endedData).
  vm_compute. discriminate.
Defined.

Lemma saved_session_without_completed_tasks_witness :
  completedTasks (timerState busyData) <> [] /\
  exists saved,
    saved <> [] /\
    sessions savedData = saved ++ sessions busyData /\
    Forall (fun s => Session.completedTasks s = []) saved.
Proof.
  split; [discriminate|].
  apply (saved_session_without_completed_tasks (fun s => s) (fixedZone 0) "new" constId 1
           defaultSettings skippedMeta "default-1" (ofZ 61000) busyPending
           busyData endedData savedData None).
  - left. reflexivity.
  - reflexivity.
  - reflexivity.
  - reflexivity.
Defined.

(** * More invariants of the reachable states *)

Lemma dispatch_breakRemainingInv (selectedId : string) (a : Action)
    (timerState : TimerState) :
  extendOnlyOnBreak timerState a ->
  breakRemainingInv timerState ->
  breakRemainingInv (snd (dispatch selectedId a timerState)).
Proof.
  unfold breakRemainingInv, extendOnlyOnBreak. intros Hguard Hinv.
  assert (Hnone : status timerState <> BREAK -> breakRemaining timerState = None).
  { intros Hs. destruct (breakRemaining timerState) eqn:Hb; [|reflexivity].
    exfalso. apply Hs, Hinv. discriminate. }
  destruct a; handler_cases; cbn [breakRemaining status];
    repeat match goal with
           | H : status timerState = _ |- _ => rewrite H in *
           | H : breakRemaining timerState = _ |- _ => rewrite H in *
           end;
    try exact Hinv;
    try (rewrite Hnone by discriminate);
    try (split; [intros H; congruence | intros H; discriminate]);
    try (split; [reflexivity | discriminate]).
Qed.

(** X25.  As long as a break is extended only while it lasts, which is
    when the application offers the button, [breakRemaining] is set exactly
    in the states on BREAK. *)
Theorem breakRemaining_set_iff_break (timerState : TimerState) :
  reachable extendOnlyOnBreak timerState ->
  (breakRemaining timerState <> None <-> status timerState = BREAK).
Proof.
  revert timerState. apply (reachable_invariant extendOnlyOnBreak breakRemainingInv).
  - unfold breakRemainingInv. cbn. split; [congruence | discriminate].
  - intros selectedId a ts. apply dispatch_breakRemainingInv.
Qed.

Lemma breakRemaining_set_iff_break_witness :
  let timerState :=
    snd (run "default-1"
           [Toggle defaultSettings (ofZ 25) (ofZ 1000);
            Toggle defaultSettings (ofZ 25) (ofZ 6000);
            ExtendBreak (ofZ 60000)]
           defaultTimerState) in
  status timerState = BREAK /\
  (breakRemaining timerState <> None <-> status timerState = BREAK).
Proof.
  cbn zeta. split; [reflexivity|].
  apply breakRemaining_set_iff_break.
  apply reachable_run; [apply reachable_default|].
  cbn. repeat split.
Defined.

Lemma positive_nonzero (c : number) : (ofZ 0 < c)%Qc -> c <> ofZ 0.
Proof.
  intros H Heq. subst c. apply (Qclt_not_eq _ _ H). reflexivity.
Qed.

Lemma chainInv_later (last last' : number) (timerState : TimerState) :
  chainInv last timerState -> (last <= last')%Qc -> chainInv last' timerState.
Proof.
  unfold chainInv. intros (HL & Hacc & Hiv & Hchain) Hle.
  split; [qc_order|]. split; [exact Hacc|]. split; [exact Hiv|].
  destruct (sessionStartTime timerState) as [c|]; [|exact Hchain].
  destruct Hchain as (Hc & HcL & Hst).
  split; [exact Hc|]. split; [qc_order|].
  destruct (status timerState).
  - qc_order.
  - destruct Hst as (s & Hs & H1 & H2 & H3). exists s. repeat split; auto. qc_order.
  - qc_order.
  - qc_order.
Qed.

Lemma chainInv_cleared (last : number) (timerState : TimerState) :
  (ofZ 0 < last)%Qc -> chainInv last (resetTimer timerState).
Proof.
  intros HL. unfold chainInv, resetTimer. cbn.
  repeat split; auto; try apply Qcle_refl; try constructor.
Qed.

Lemma chainInv_skipBreak (last : number) (timerState : TimerState) :
  chainInv last timerState -> chainInv last (skipBreak timerState).
Proof.
  unfold chainInv, skipBreak.
  cbn [status startTime sessionStartTime accumulatedTime intervals].
  intros (HL & Hacc & Hiv & Hchain).
  split; [exact HL|]. split; [exact Hacc|]. split; [exact Hiv|].
  destruct (sessionStartTime timerState) as [c|].
  - destruct Hchain as (Hc & HcL & Hst). split; [exact Hc|]. split; [exact HcL|].
    destruct (status timerState); try exact Hst.
    destruct Hst as (s & Hs & H1 & H2 & H3). qc_order.
  - destruct Hchain as (_ & _ & H3 & H4). repeat split; assumption.
Qed.

Lemma chainInv_toggleTimer (settings : Settings) (countdownMinutes last now : number)
    (timerState : TimerState) :
  chainInv last timerState ->
  (last <= now)%Qc ->
  chainInv now (toggleTimer settings countdownMinutes now timerState).
Proof.
  unfold chainInv. intros (HL & Hacc & Hiv & Hchain) Hnow.
  assert (Hnowpos : (ofZ 0 < now)%Qc) by qc_order.
  assert (Hzero : (ofZ 0 <= ofZ 0)%Qc) by apply Qcle_refl.
  unfold toggleTimer.
  destruct (sessionStartTime timerState) as [c|] eqn:Hsst.
  - destruct Hchain as (Hc & HcL & Hst).
    pose proof (positive_nonzero c Hc) as Hcnz.
    destruct (status timerState) eqn:Hs.
    + cbn [status startTime sessionStartTime accumulatedTime intervals].
      rewrite (orElse_set c now Hcnz).
      split; [exact Hnowpos|]. split; [destruct (mode timerState); assumption|].
      split; [exact Hiv|]. split; [exact Hc|]. split; [qc_order|].
      exists now. repeat split; try qc_order.
      destruct (mode timerState); qc_order.
    + destruct Hst as (s & Hstart & Hcs & HsL & Hsum).
      assert (Hsnz : s <> ofZ 0) by (apply positive_nonzero; qc_order).
      rewrite Hstart, (orElse_set s now Hsnz).
      destruct (mode timerState);
        cbn [status startTime sessionStartTime accumulatedTime intervals];
        rewrite ?Hsst.
      * split; [exact Hnowpos|]. split; [exact Hzero|].
        split; [apply Forall_app; split; [exact Hiv | constructor; [qc_order | constructor]]|].
        split; [exact Hc|]. split; [qc_order|].
        rewrite sum_snoc. qc_order.
      * split; [exact Hnowpos|]. split; [qc_order|]. split; [exact Hiv|].
        split; [exact Hc|]. split; [qc_order|]. qc_order.
    + cbn [status startTime sessionStartTime accumulatedTime intervals].
      rewrite (orElse_set c now Hcnz).
      split; [exact Hnowpos|]. split; [destruct (mode timerState); assumption|].
      split; [exact Hiv|]. split; [exact Hc|]. split; [qc_order|].
      exists now. repeat split; try qc_order.
      destruct (mode timerState); qc_order.
    + cbn [status startTime sessionStartTime accumulatedTime intervals].
      rewrite ?Hsst.
      split; [exact Hnowpos|]. split; [exact Hzero|]. split; [exact Hiv|].
      split; [exact Hc|]. split; [qc_order|].
      exists now. repeat split; try qc_order.
  - destruct Hchain as (Hs & Hstart & Hacc0 & Hiv0).
    rewrite Hs. cbn [status startTime sessionStartTime accumulatedTime intervals orElse].
    rewrite Hacc0, Hiv0.
    split; [exact Hnowpos|]. split; [destruct (mode timerState); exact Hzero|].
    split; [constructor|]. split; [exact Hnowpos|]. split; [apply Qcle_refl|].
    exists now. repeat split; try apply Qcle_refl.
    destruct (mode timerState); change (sum []) with (ofZ 0); qc_order.
Qed.

Lemma dispatch_chainInv (selectedId : string) (a : Action) (last : number)
    (timerState : TimerState) :
  chainInv last timerState ->
  (forall now, clockOf a = Some now -> (last <= now)%Qc) ->
  chainInv (match clockOf a with Some now => now | None => last end)
           (snd (dispatch selectedId a timerState)).
Proof.
  intros Hinv Hclock.
  assert (HL : (ofZ 0 < last)%Qc) by (destruct Hinv; assumption).
  destruct a as [settings cm now | now | | now | | ms | m]; cbn [clockOf dispatch snd].
  - apply (chainInv_toggleTimer _ _ last); [exact Hinv | now apply Hclock].
  - rewrite handleEndSession_eq. cbn [snd]. apply chainInv_cleared.
    specialize (Hclock now eq_refl). qc_order.
  - now apply chainInv_cleared.
  - specialize (Hclock now eq_refl).
    destruct (tick_cases selectedId now timerState) as [H | [[_ H] | (_ & _ & H)]];
      rewrite H; cbn [snd].
    + now apply (chainInv_later last).
    + apply (chainInv_later last); [now apply chainInv_skipBreak | exact Hclock].
    + apply chainInv_cleared. qc_order.
  - now apply chainInv_skipBreak.
  - exact Hinv.
  - exact Hinv.
Qed.

Lemma reachableAt_chainInv (last : number) (timerState : TimerState) :
  reachableAt last timerState -> chainInv last timerState.
Proof.
  induction 1 as [t0 Ht0 | last selectedId a timerState _ IH Hclock].
  - apply (chainInv_cleared t0 defaultTimerState Ht0).
  - now apply dispatch_chainInv.
Qed.

Lemma sum_nonneg (xs : list number) :
  Forall (fun i => (ofZ 0 <= i)%Qc) xs -> (ofZ 0 <= sum xs)%Qc.
Proof.
  induction xs as [|x xs IH] using rev_ind; intros H.
  - apply Qcle_refl.
  - apply Forall_app in H. destruct H as [Hxs Hx].
    inversion Hx as [|? ? Hx0 _]; subst. specialize (IH Hxs).
    rewrite sum_snoc. qc_order.
Qed.

(** The focused time of a chain at a reading not before the latest. *)
Lemma chainInv_totalFocused (last now : number) (timerState : TimerState) :
  chainInv last timerState ->
  (last <= now)%Qc ->
  (ofZ 0 <= totalFocused now timerState)%Qc /\
  (totalFocused now timerState
     <= sub now (finalSessionStartTime now timerState))%Qc /\
  (gtb (totalFocused now timerState) (ofZ 1000) = true ->
   (ofZ 0 < finalSessionStartTime now timerState)%Qc).
Proof.
  unfold chainInv. intros (HL & Hacc & Hiv & Hchain) Hnow.
  pose proof (sum_nonneg _ Hiv) as Hsum.
  unfold totalFocused, workInCurrentInterval, finalSessionStartTime.
  destruct (sessionStartTime timerState) as [c|].
  - destruct Hchain as (Hc & HcL & Hst).
    rewrite (orElse_set c _ (positive_nonzero c Hc)).
    destruct (status timerState).
    + repeat split; try (intros _; exact Hc); qc_order.
    + destruct Hst as (s & Hs & H1 & H2 & H3).
      assert (Hsnz : s <> ofZ 0) by (apply positive_nonzero; qc_order).
      rewrite Hs, (orElse_set s now Hsnz).
      repeat split; try (intros _; exact Hc); qc_order.
    + repeat split; try (intros _; exact Hc); qc_order.
    + repeat split; try (intros _; exact Hc); qc_order.
  - destruct Hchain as (Hs & Hstart & Hacc0 & Hiv0).
    rewrite Hs, Hstart, Hacc0, Hiv0. cbn [orElse]. change (sum []) with (ofZ 0).
    repeat split; qc_order.
Qed.

(** X26.  With a clock that is positive and never goes back, every
    reachable state has a non-negative [accumulatedTime], non-negative
    [intervals] and, at any reading from the latest on, a non-negative
    focused time. *)
Theorem durations_nonnegative (last now : number) (timerState : TimerState) :
  reachableAt last timerState ->
  (last <= now)%Qc ->
  (ofZ 0 <= accumulatedTime timerState)%Qc /\
  Forall (fun i => (ofZ 0 <= i)%Qc) (intervals timerState) /\
  (ofZ 0 <= workInCurrentInterval now timerState)%Qc /\
  (ofZ 0 <= totalFocused now timerState)%Qc.
Proof.
  intros Hr Hnow. pose proof (reachableAt_chainInv _ _ Hr) as Hinv.
  destruct (chainInv_totalFocused last now timerState Hinv Hnow) as (Htotal & _ & _).
  destruct Hinv as (HL & Hacc & Hiv & Hchain).
  split; [exact Hacc|]. split; [exact Hiv|]. split; [|exact Htotal].
  unfold workInCurrentInterval.
  destruct (sessionStartTime timerState) as [c|].
  - destruct Hchain as (Hc & HcL & Hst).
    destruct (status timerState); try apply Qcle_refl.
    destruct Hst as (s & Hs & H1 & H2 & H3).
    assert (Hsnz : s <> ofZ 0) by (apply positive_nonzero; qc_order).
    rewrite Hs, (orElse_set s now Hsnz). qc_order.
  - destruct Hchain as (Hs & _). rewrite Hs. apply Qcle_refl.
Qed.

(** A candidate comes from the end-session handler, run by End-Session
    or by the tick at the reading the event carries. *)
Lemma dispatch_emits (selectedId : string) (a : Action) (timerState : TimerState)
    (p : PendingSession) :
  In (SetPendingSession p) (fst (dispatch selectedId a timerState)) ->
  exists now,
    clockOf a = Some now /\
    In (SetPendingSession p) (fst (handleEndSession selectedId now timerState)).
Proof.
  intros Hin.
  destruct a as [settings cm now | now | | now | | ms | m];
    cbn [dispatch fst] in Hin; try (destruct Hin; fail).
  - exists now. now split.
  - destruct (tick_cases selectedId now timerState) as [H | [[_ H] | (_ & _ & H)]];
      rewrite H in Hin; cbn [fst] in Hin.
    + destruct Hin.
    + destruct Hin as [Hin | []]. discriminate.
    + destruct Hin as [Hin | Hin]; [discriminate|].
      exists now. now split.
Qed.

Lemma handleEndSession_candidate (last now : number) (selectedId : string)
    (timerState : TimerState) (p : PendingSession) :
  chainInv last timerState ->
  (last <= now)%Qc ->
  In (SetPendingSession p) (fst (handleEndSession selectedId now timerState)) ->
  (ofZ 1000 < duration p)%Qc /\
  (duration p <= totalElapsed p)%Qc /\
  totalElapsed p = sub (end_ p) (start p) /\
  pendingSessionStartTime p = start p /\
  (ofZ 0 < start p)%Qc /\
  (start p < end_ p)%Qc.
Proof.
  intros Hinv Hnow H. rewrite handleEndSession_eq in H. cbn [fst] in H.
  destruct (gtb (totalFocused now timerState) (ofZ 1000)) eqn:Hgt; [|destruct H].
  destruct H as [[= <-] | []].
  destruct (chainInv_totalFocused last now timerState Hinv Hnow) as (_ & Hle & Hpos).
  specialize (Hpos Hgt). apply gtb_gt in Hgt.
  cbn [candidate duration totalElapsed end_ start pendingSessionStartTime].
  repeat split; try assumption. qc_order.
Qed.

(** X27.  With a clock that is positive and never goes back, every
    candidate session the application hands over, by End-Session or by the
    tick, has more than 1000 ms of focused time, no more focused time than
    the time elapsed between its start and its end, and a positive start
    before its end. *)
Theorem emitted_candidate_sane (last : number) (selectedId : string) (a : Action)
    (timerState : TimerState) (p : PendingSession) :
  reachableAt last timerState ->
  (forall now, clockOf a = Some now -> (last <= now)%Qc) ->
  In (SetPendingSession p) (fst (dispatch selectedId a timerState)) ->
  (ofZ 1000 < duration p)%Qc /\
  (duration p <= totalElapsed p)%Qc /\
  totalElapsed p = sub (end_ p) (start p) /\
  pendingSessionStartTime p = start p /\
  (ofZ 0 < start p)%Qc /\
  (start p < end_ p)%Qc.
Proof.
  intros Hr Hclock Hin. pose proof (reachableAt_chainInv _ _ Hr) as Hinv.
  destruct (dispatch_emits _ _ _ _ Hin) as (now & Hnow & Hend).
  apply (handleEndSession_candidate last now selectedId timerState);
    [exact Hinv | now apply Hclock | exact Hend].
Qed.

(** X28.  In a zone at a fixed offset and with a clock that is positive
    and never goes back, saving a candidate the application has handed over
    always returns: its start is not after its end, so the splitter's loop
    ends. *)
Theorem handleSaveSessionData_returns (trim : string -> string) (tz : Z)
    (newId : string) (genId : nat -> string) (settings : Settings)
    (meta : SessionMeta) (data : CategoryData)
    (last : number) (selectedId : string) (a : Action)
    (timerState : TimerState) (p : PendingSession) :
  reachableAt last timerState ->
  (forall now, clockOf a = Some now -> (last <= now)%Qc) ->
  In (SetPendingSession p) (fst (dispatch selectedId a timerState)) ->
  exists fuel0 result,
    forall fuel, (fuel0 <= fuel)%nat ->
      handleSaveSessionData trim (fixedZone tz) newId genId fuel settings meta (Some p) data
        = Some (result, None).
Proof.
  intros Hr Hclock Hin. pose proof (reachableAt_chainInv _ _ Hr) as Hinv.
  destruct (dispatch_emits _ _ _ _ Hin) as (now & Hnow & Hend).
  destruct (handleEndSession_candidate last now selectedId timerState p Hinv
              (Hclock now Hnow) Hend) as (_ & _ & _ & _ & _ & Hlt).
  unfold handleSaveSessionData.
  match goal with
  | |- context [splitSessionByMidnight (fixedZone tz) genId _ ?b] => set (base := b)
  end.
  assert (Hle : Session.startTime base <= Session.endTime base).
  { cbn [base Session.startTime Session.endTime]. unfold toWhole.
    apply Qfloor_resp_le. apply Qlt_le_weak. exact Hlt. }
  destruct (splitSessionByMidnight_returns tz genId base Hle) as (fuel0 & parts & Hsplit).
  eexists fuel0, _. intros fuel Hfuel. rewrite (Hsplit fuel Hfuel). reflexivity.
Qed.

Lemma reachableAt_flowRunning :
  reachableAt (ofZ 1000) (flowRunningSince (ofZ 1000)).
Proof.
  assert (H0 : (ofZ 0 < ofZ 1000)%Qc) by reflexivity.
  assert (H1 : forall now,
             clockOf (Toggle defaultSettings (ofZ 25) (ofZ 1000)) = Some now ->
             (ofZ 1000 <= now)%Qc).
  { intros now [= <-]. apply Qcle_refl. }
  exact (reachableAt_dispatch (ofZ 1000) "default-1"
           (Toggle defaultSettings (ofZ 25) (ofZ 1000)) defaultTimerState
           (reachableAt_default (ofZ 1000) H0) H1).
Qed.

Lemma durations_nonnegative_witness :
  let timerState := flowRunningSince (ofZ 1000) in
  (ofZ 0 <= accumulatedTime timerState)%Qc /\
  Forall (fun i => (ofZ 0 <= i)%Qc) (intervals timerState) /\
  (ofZ 0 <= workInCurrentInterval (ofZ 5000) timerState)%Qc /\
  (ofZ 0 <= totalFocused (ofZ 5000) timerState)%Qc.
Proof.
  apply (durations_nonnegative (ofZ 1000) (ofZ 5000) (flowRunningSince (ofZ 1000))).
  - apply reachableAt_flowRunning.
  - vm_compute. discriminate.
Defined.

Lemma emitted_candidate_sane_witness :
  let p := candidate "default-1" (ofZ 61000) (flowRunningSince (ofZ 1000)) in
  (ofZ 1000 < duration p)%Qc /\
  (duration p <= totalElapsed p)%Qc /\
  totalElapsed p = sub (end_ p) (start p) /\
  pendingSessionStartTime p = start p /\
  (ofZ 0 < start p)%Qc /\
  (start p < end_ p)%Qc.
Proof.
  apply (emitted_candidate_sane (ofZ 1000) "default-1" (EndSession (ofZ 61000))
           (flowRunningSince (ofZ 1000))).
  - apply reachableAt_flowRunning.
  - intros now [= <-]. vm_compute. discriminate.
  - left. reflexivity.
Defined.

Lemma handleSaveSessionData_returns_witness :
  exists fuel0 result,
    forall fuel, (fuel0 <= fuel)%nat ->
      handleSaveSessionData (fun s => s) (fixedZone 0) "new" constId fuel defaultSettings
        skippedMeta
        (Some (candidate "default-1" (ofZ 61000) (flowRunningSince (ofZ 1000))))
        endedData
      = Some (result, None).
Proof.
  apply (handleSaveSessionData_returns (fun s => s) 0 "new" constId defaultSettings
           skippedMeta endedData (ofZ 1000) "default-1" (EndSession (ofZ 61000))
           (flowRunningSince (ofZ 1000))).
  - apply reachableAt_flowRunning.
  - intros now [= <-]. vm_compute. discriminate.
  - left. reflexivity.
Defined.

(** * App.tsx: the streak *)

Section Streaks.
Variable tz : Z.

Lemma uniqueInOrder_In (dates : list Z) :
  forall seen d,
    In d (uniqueInOrder seen dates) -> In d dates.
Proof.
  induction dates as [|x rest IH]; intros seen d; cbn [uniqueInOrder]; [tauto|].
  destruct (existsb (Z.eqb x) seen).
  - intros H. right. now apply (IH seen).
  - intros [<- | H]; [now left | right; now apply (IH (x :: seen))].
Qed.

Lemma uniqueInOrder_complete (dates : list Z) :
  forall seen d,
    In d dates -> In d seen \/ In d (uniqueInOrder seen dates).
Proof.
  induction dates as [|x rest IH]; intros seen d; [intros []|].
  cbn [uniqueInOrder]. intros [<- | H].
  - destruct (existsb (Z.eqb x) seen) eqn:Hx.
    + left. apply existsb_exists in Hx. destruct Hx as (y & Hy & Heq).
      apply Z.eqb_eq in Heq. now subst.
    + right. now left.
  - destruct (existsb (Z.eqb x) seen).
    + now apply IH.
    + destruct (IH (x :: seen) d H) as [[<- | Hs] | Hu].
      * right. now left.
      * now left.
      * right. now right.
Qed.

Lemma insertDescending_perm (x : Z) (l : list Z) :
  Permutation (x :: l) (insertDescending x l).
Proof.
  induction l as [|y l IH]; cbn [insertDescending]; [reflexivity|].
  destruct (y <=? x); [reflexivity|].
  rewrite perm_swap. now constructor.
Qed.

Lemma sortDescending_perm (l : list Z) : Permutation l (sortDescending l).
Proof.
  induction l as [|x l IH]; cbn; [constructor|].
  rewrite <- insertDescending_perm. now constructor.
Qed.

Lemma insertDescending_sorted (x : Z) (l : list Z) :
  StronglySorted Z.ge l -> StronglySorted Z.ge (insertDescending x l).
Proof.
  induction 1 as [|y l Hs IH Hall]; cbn [insertDescending].
  - repeat constructor.
  - destruct (y <=? x) eqn:Hxy.
    + apply Z.leb_le in Hxy. constructor; [now constructor|].
      constructor; [lia|].
      eapply Forall_impl; [|exact Hall]. cbn beta. intros z Hz. lia.
    + apply Z.leb_gt in Hxy. constructor; [exact IH|].
      rewrite <- insertDescending_perm. constructor; [lia | exact Hall].
Qed.

Lemma sortDescending_sorted (l : list Z) : StronglySorted Z.ge (sortDescending l).
Proof.
  induction l as [|x l IH]; cbn; [constructor | now apply insertDescending_sorted].
Qed.

(** In a zone at a fixed offset the difference in calendar days is the
    difference of the day numbers. *)
Lemma differenceInCalendarDays_fixed (a b : Z) :
  differenceInCalendarDays (fixedZone tz) a b = dayIndex tz a - dayIndex tz b.
Proof. unfold differenceInCalendarDays. days. Qed.

Lemma countConsecutive_step (a b : Z) (rest : list Z) (current : nat) :
  countConsecutive (fixedZone tz) (a :: b :: rest) current =
  if differenceInCalendarDays (fixedZone tz) a b =? 1
  then countConsecutive (fixedZone tz) (b :: rest) (S current)
  else current.
Proof. reflexivity. Qed.

(** The days counted by the loop are consecutive, counted back from the
    first of the list. *)
Lemma countConsecutive_run (days : list Z) :
  forall current,
    (current <= countConsecutive (fixedZone tz) days current)%nat /\
    (countConsecutive (fixedZone tz) days current - current < Nat.max 1 (List.length days))%nat /\
    forall j, (j <= countConsecutive (fixedZone tz) days current - current)%nat ->
      dayIndex tz (nth j days 0) = dayIndex tz (hd 0 days) - Z.of_nat j.
Proof.
  induction days as [|a [|b rest] IH]; intros current.
  - cbn. split; [lia|]. split; [lia|]. intros j Hj. replace j with O by lia. cbn. lia.
  - cbn. split; [lia|]. split; [lia|]. intros j Hj. replace j with O by lia. cbn. lia.
  - rewrite countConsecutive_step.
    destruct (differenceInCalendarDays (fixedZone tz) a b =? 1) eqn:Hd.
    + apply Z.eqb_eq in Hd. rewrite differenceInCalendarDays_fixed in Hd.
      destruct (IH (S current)) as (H1 & H2 & H3).
      split; [lia|]. split; [cbn [List.length] in *; lia|].
      intros [|j] Hj; [cbn; lia|].
      change (nth (S j) (a :: b :: rest) 0) with (nth j (b :: rest) 0).
      rewrite H3 by lia. cbn [hd]. lia.
    + split; [lia|]. split; [cbn [List.length]; lia|].
      intros j Hj. replace j with O by lia. cbn. lia.
Qed.

(** X29.  The streak, in a zone at a fixed offset: [longest] is the
    greater of [current] and the stored record.  [current] is 0 exactly when there is no session or the
    latest day with a session is before yesterday.  Otherwise the latest
    day with a session is yesterday or later, and on each of the [current]
    days counted back from it some session starts. *)
Theorem streaks_consecutive_days (now : Z) (longestStreak : nat)
    (allSessions : list Session.Session) :
  let current := fst (streaks (fixedZone tz) now longestStreak allSessions) in
  let longest := snd (streaks (fixedZone tz) now longestStreak allSessions) in
  longest = Nat.max current longestStreak /\
  (current = O <->
   forall s, In s allSessions ->
     dayIndex tz (Session.startTime s) < dayIndex tz now - 1) /\
  ((0 < current)%nat ->
   exists latest,
     dayIndex tz now - 1 <= latest /\
     (forall s, In s allSessions -> dayIndex tz (Session.startTime s) <= latest) /\
     (forall j, (j < current)%nat ->
        exists s, In s allSessions /\
                  dayIndex tz (Session.startTime s) = latest - Z.of_nat j)).
Proof.
  cbn zeta. unfold streaks.
  set (dates := map (fun s => startOfDay (fixedZone tz) (Session.startTime s)) allSessions).
  set (sorted := sortDescending (uniqueInOrder [] dates)).
  assert (Hin : forall d, In d sorted <-> In d dates).
  { intros d. unfold sorted. split.
    - intros H. apply (uniqueInOrder_In dates []).
      eapply Permutation_in; [apply Permutation_sym; apply sortDescending_perm | exact H].
    - intros H. destruct (uniqueInOrder_complete dates [] d H) as [[] | Hu].
      eapply Permutation_in; [apply sortDescending_perm | exact Hu]. }
  assert (Hdates : forall d, In d dates <->
            exists s, In s allSessions /\ d = startOfDay (fixedZone tz) (Session.startTime s)).
  { intros d. unfold dates. rewrite in_map_iff. split; intros (s & H1 & H2).
    - exists s. now split.
    - exists s. now split. }
  assert (Hday : forall x, dayIndex tz (startOfDay (fixedZone tz) x) = dayIndex tz x).
  { intros x. days. }
  pose proof (sortDescending_sorted (uniqueInOrder [] dates)) as Hsorted.
  fold sorted in Hsorted.
  destruct sorted as [|latest rest] eqn:Hs.
  - cbn [fst snd]. split; [reflexivity|]. split; [|lia].
    split; [|reflexivity]. intros _ s Hs'. exfalso.
    apply (proj2 (Hin (startOfDay (fixedZone tz) (Session.startTime s)))).
    apply Hdates. exists s. now split.
  - assert (Hmax : forall s, In s allSessions ->
               dayIndex tz (Session.startTime s) <= dayIndex tz latest).
    { intros s Hs'. rewrite <- Hday. apply dayIndex_mono.
      assert (Hd : In (startOfDay (fixedZone tz) (Session.startTime s)) (latest :: rest)).
      { apply Hin, Hdates. exists s. now split. }
      inversion Hsorted as [|? ? _ Hall]; subst.
      destruct Hd as [<- | Hd]; [lia|].
      rewrite Forall_forall in Hall. specialize (Hall _ Hd). lia. }
    assert (Hlatest : exists s, In s allSessions /\
                        latest = startOfDay (fixedZone tz) (Session.startTime s)).
    { apply Hdates, Hin. now left. }
    assert (Hyest : (latest <? startOfDay (fixedZone tz) (subDays (fixedZone tz) now 1)) = true <->
                    dayIndex tz latest < dayIndex tz now - 1).
    { rewrite Z.ltb_lt. destruct Hlatest as (s & _ & ->).
      days. }
    destruct (latest <? startOfDay (fixedZone tz) (subDays (fixedZone tz) now 1)) eqn:Hold.
    + cbn [fst snd]. split; [reflexivity|]. split; [|lia].
      split; [|reflexivity]. intros _ s Hs'.
      specialize (Hmax s Hs'). pose proof (proj1 Hyest eq_refl). lia.
    + cbn [fst snd].
      destruct (countConsecutive_run (latest :: rest) 1) as (H1 & H2 & H3).
      split; [reflexivity|]. split.
      * split; [lia|]. intros Hall. exfalso.
        destruct Hlatest as (s & Hs' & Heq). specialize (Hall s Hs').
        rewrite <- Hday, <- Heq in Hall.
        pose proof (proj2 Hyest Hall). discriminate.
      * intros _. exists (dayIndex tz latest). split.
        { destruct (Z_lt_ge_dec (dayIndex tz latest) (dayIndex tz now - 1)) as [Hlt|Hge];
            [|lia].
          pose proof (proj2 Hyest Hlt). discriminate. }
        split; [exact Hmax|].
        intros j Hj.
        assert (Hjlen : (j < List.length (latest :: rest))%nat).
        { cbn [List.length] in *. lia. }
        assert (Hd : In (nth j (latest :: rest) 0) dates)
          by (apply Hin; now apply nth_In).
        apply Hdates in Hd. destruct Hd as (s & Hs' & Heq).
        exists s. split; [exact Hs'|].
        rewrite <- Hday, <- Heq, H3 by lia. reflexivity.
Qed.

End Streaks.

Lemma streaks_consecutive_days_witness :
  let current := fst (streaks (fixedZone 0) (89100000 + 86400000) 0 lateParts) in
  exists latest,
    dayIndex 0 (89100000 + 86400000) - 1 <= latest /\
    (forall s, In s lateParts -> dayIndex 0 (Session.startTime s) <= latest) /\
    (forall j, (j < current)%nat ->
       exists s, In s lateParts /\
                 dayIndex 0 (Session.startTime s) = latest - Z.of_nat j).
Proof.
  apply (streaks_consecutive_days 0 (89100000 + 86400000) 0 lateParts).
  vm_compute. apply le_n_S, Nat.le_0_l.
Defined.
